(** * Payment backend: webhook event processor and payment creation

    A shallow embedding of [src/routes/webhook.js] (signature middleware,
    the [/asaas] route, the event handlers, [updatePaymentStatus], the
    activation and deactivation helpers, the [/reprocess/:webhookId]
    route) and of [createPaymentHandler] of the payment route, together
    with the tables of [createTables] (config/database.js).

    The asynchronous functions of the source talk to two collaborators:
    the MySQL pool ([connection.execute]) and the gateway client
    ([asaasService]).  A function is embedded as a tree of calls: every
    [await connection.execute(...)] is a node that names the statement
    and continues with the settled promise, resolved or rejected.  The
    tree is then run against a handler that answers the calls: the
    tables of the repository ([mysql]), the same tables with rejections
    injected ([faulty]) or with writers of other requests in between
    ([interleaved]), or any handler at all.  [console.log] lines are left
    out; the property reads inside them that can raise are kept.
    [getConnection()] returns the pool: [connectDB] creates it when the
    server starts, before any request. *)

From Stdlib Require Import String Ascii List ZArith Bool Arith Lia.
From Stdlib Require Import DecimalString.
Import ListNotations.
Local Open Scope string_scope.
Local Open Scope list_scope.



(* ------------------------------------------------------------------ *)
(** ** Errors and settled promises *)

(** The values the code throws or receives as rejections. *)
Inductive Exn : Type :=
| TypeError (msg : string)
| ReferenceError (msg : string)
| SyntaxError (msg : string)
| SqlError (msg : string)
| JsError (msg : string).

(** [error.message] *)
Definition message (e : Exn) : string :=
  match e with
  | TypeError m | ReferenceError m | SyntaxError m | SqlError m
  | JsError m => m
  end.

(** A settled promise. *)
Inductive Outcome (R : Type) : Type :=
| Resolved (r : R)
| Rejected (e : Exn).
Arguments Resolved {R} r.
Arguments Rejected {R} e.

(* ------------------------------------------------------------------ *)
(** ** Rows of the tables created by [createTables] *)

(** [customers]: id, nome, cpf (unique), email (unique), telefone,
    asaas_customer_id (unique, nullable), created_at, updated_at. *)
Record CustomerRow : Type := mkCustomer {
  c_id : nat;
  c_nome : string;
  c_cpf : string;
  c_email : string;
  c_telefone : string;
  c_asaas_customer_id : option string;
  c_created_at : Z;
  c_updated_at : Z
}.

(** [payments]: id, customer_id, asaas_payment_id (unique), plan_type,
    payment_method, amount (DECIMAL(10,2), kept in centavos), status,
    external_reference, created_at, updated_at. *)
Record PaymentRow : Type := mkPayment {
  p_id : nat;
  p_customer_id : nat;
  p_asaas_payment_id : string;
  p_plan_type : string;
  p_payment_method : string;
  p_amount : Z;
  p_status : string;
  p_external_reference : option string;
  p_created_at : Z;
  p_updated_at : Z
}.

(** The body of a gateway notification as the handlers read it: the
    [event] name, a string, and [payment] with its [id], a string, when
    the notification carries a payment.  [payment] absent stands for both
    a missing and a null field: [payment?.id] and [payment.id] treat the
    two alike.  [status] and [paymentDate] are only printed. *)
Record PaymentObj : Type := mkPaymentObj {
  po_id : string;
  po_status : option string;
  po_paymentDate : option string
}.

Record WebhookBody : Type := mkBody {
  event : string;
  payment : option PaymentObj
}.

(** [webhook_logs]: id, payment_id (nullable), event_type, payload (a
    JSON column: the document written with [JSON.stringify(req.body)] is
    the document a SELECT hands back, already parsed), processed,
    error_message, created_at.  The table has no updated_at column. *)
Record WebhookLogRow : Type := mkLog {
  l_id : nat;
  l_payment_id : option string;
  l_event_type : string;
  l_payload : WebhookBody;
  l_processed : bool;
  l_error_message : option string;
  l_created_at : Z
}.

(** The body of a payment-creation request after [paymentSchema]. *)
Record PaymentRequest : Type := mkRequest {
  nome : string;
  cpf : string;
  email : string;
  telefone : string;
  paymentMethod : string;
  planType : string;
  amount : Z
}.

(** [payment_errors]: id, error_message, request_data, created_at. *)
Record PaymentErrorRow : Type := mkPaymentError {
  e_id : nat;
  e_error_message : string;
  e_request_data : PaymentRequest;
  e_created_at : Z
}.

(** [customer_features], the table the activation helpers write to:
    one row per (customer_id, feature_name).  [createTables] does not
    create it. *)
Record FeatureRow : Type := mkFeature {
  f_customer_id : nat;
  f_feature_name : string;
  f_is_active : bool;
  f_created_at : Z;
  f_updated_at : option Z
}.

(** The result header of an INSERT or UPDATE. *)
Record OkPacket : Type := mkOk {
  affectedRows : nat;
  changedRows : nat;
  insertId : nat
}.

(* ------------------------------------------------------------------ *)
(** ** The gateway client, as the payment route uses it *)

Record CustomerData : Type := mkCustomerData {
  cd_name : string;
  cd_cpfCnpj : string;
  cd_email : string;
  cd_phone : string
}.

(** [response.data] of POST /customers: the fields the route reads, and
    its JSON text for the error message. *)
Record AsaasCustomer : Type := mkAsaasCustomer {
  ac_id : option string;
  ac_json : string
}.

Record PaymentData : Type := mkPaymentData {
  pd_customer : option string;
  pd_billingType : string;
  pd_value : Z;
  pd_dueDate : string;
  pd_description : string;
  pd_externalReference : string;
  pd_installmentCount : option nat;
  pd_installmentValue : option Z
}.

Record QrCode : Type := mkQr {
  qr_payload : option string;
  qr_encodedImage : option string
}.

Record PixTransaction : Type := mkPix {
  px_qrCode : option QrCode;
  px_expirationDate : option string
}.

Record AsaasPayment : Type := mkAsaasPayment {
  ap_id : option string;
  ap_status : option string;
  ap_value : option Z;
  ap_dueDate : option string;
  ap_invoiceUrl : option string;
  ap_bankSlipUrl : option string;
  ap_pixTransaction : option PixTransaction;
  ap_json : string
}.

(* ------------------------------------------------------------------ *)
(** ** The calls the code awaits *)

(** The three SELECTs [activateCustomerServices] tries in turn. *)
Inductive Variation : Type :=
| ByName      (* p.*, c.name, c.email, c.telefone *)
| ByNome      (* p.*, c.nome, c.email, c.telefone *)
| NoName.     (* p.*, c.email, c.telefone, c.cpf, c.asaas_customer_id *)

Inductive Stmt : Type :=
(* webhook.js *)
| InsertWebhookLog (payment_id : option string) (event_type : string)
                   (payload : WebhookBody)
| MarkProcessed (payment_id : option string) (event_type : string)
| SetErrorMessage (msg : string) (payment_id : option string)
| SelectPayment (asaas_payment_id : string)
| SelectRecentPayments
| UpdateStatus (status : string) (asaas_payment_id : string)
| SelectStatus (asaas_payment_id : string)
| SelectPaymentCustomer (v : Variation) (asaas_payment_id : string)
| UpsertFeature (customer_id : nat) (feature_name : string)
| SelectWebhookLog (id : nat)
| MarkReprocessed (id : nat)
(* payment route *)
| SelectCustomer (email cpf : string)
| UpdateCustomer (nome telefone : string) (id : nat)
| InsertCustomer (nome cpf email telefone asaas_customer_id : string)
| InsertPayment (customer_id : nat) (asaas_payment_id plan_type
                 payment_method : string) (amount : Z)
                (external_reference : string)
| InsertPaymentError (msg : string) (request_data : PaymentRequest)
(* asaasService and the clock *)
| CreateCustomer (data : CustomerData)
| CreatePayment (data : PaymentData)
| DateNow.

(** What each call resolves to. *)
Definition Reply (s : Stmt) : Type :=
  match s with
  | InsertWebhookLog _ _ _ | MarkProcessed _ _ | SetErrorMessage _ _
  | UpdateStatus _ _ | UpsertFeature _ _ | MarkReprocessed _
  | UpdateCustomer _ _ _ | InsertCustomer _ _ _ _ _
  | InsertPayment _ _ _ _ _ _ | InsertPaymentError _ _ => OkPacket
  | SelectPayment _ | SelectRecentPayments | SelectStatus _ => list PaymentRow
  | SelectPaymentCustomer _ _ => list (PaymentRow * CustomerRow)
  | SelectWebhookLog _ => list WebhookLogRow
  | SelectCustomer _ _ => list CustomerRow
  | CreateCustomer _ => AsaasCustomer
  | CreatePayment _ => AsaasPayment
  | DateNow => Z
  end.

(* ------------------------------------------------------------------ *)
(** ** Asynchronous functions as call trees *)

Inductive Prog (A : Type) : Type :=
| Ret (a : A)
| Throw (e : Exn)
| Await (s : Stmt) (k : Outcome (Reply s) -> Prog A).
Arguments Ret {A} a.
Arguments Throw {A} e.
Arguments Await {A} s k.

Fixpoint bind {A B : Type} (p : Prog A) (f : A -> Prog B) : Prog B :=
  match p with
  | Ret a => f a
  | Throw e => Throw e
  | Await s k => Await s (fun o => bind (k o) f)
  end.

(** [try { p } catch (error) { h error }] *)
Fixpoint tryCatch {A : Type} (p : Prog A) (h : Exn -> Prog A) : Prog A :=
  match p with
  | Ret a => Ret a
  | Throw e => h e
  | Await s k => Await s (fun o => tryCatch (k o) h)
  end.

(** [await connection.execute(sql, params)]: a rejection is thrown at the
    await. *)
Definition execute (s : Stmt) : Prog (Reply s) :=
  Await s (fun o => match o with
                    | Resolved r => Ret r
                    | Rejected e => Throw e
                    end).

Declare Scope prog_scope.
Delimit Scope prog_scope with prog.
Notation "x <- c ;; k" := (bind c (fun x => k))
  (at level 100, c at next level, right associativity) : prog_scope.
Notation "c ;;; k" := (bind c (fun _ => k))
  (at level 100, right associativity) : prog_scope.
Local Open Scope prog_scope.

(* ------------------------------------------------------------------ *)
(** ** Running a tree against a handler *)

Definition Handler (W : Type) : Type :=
  forall s : Stmt, W -> Outcome (Reply s) * W.

Fixpoint interp {W A : Type} (h : Handler W) (p : Prog A) (w : W)
  : Outcome A * W :=
  match p with
  | Ret a => (Resolved a, w)
  | Throw e => (Rejected e, w)
  | Await s k => let (o, w') := h s w in interp h (k o) w'
  end.

(** The handler that also records the calls in the order they are
    made. *)
Definition traced {W : Type} (h : Handler W) : Handler (W * list Stmt) :=
  fun s wt => let (o, w') := h s (fst wt) in (o, (w', snd wt ++ [s])).

(* ------------------------------------------------------------------ *)
(** ** webhook.js: updatePaymentStatus *)

Definition updatePaymentStatus (asaasPaymentId status : string) : Prog bool :=
  tryCatch
    (existingPayment <- execute (SelectPayment asaasPaymentId) ;;
     match existingPayment with
     | [] =>
         similarPayments <- execute SelectRecentPayments ;;
         Ret false
     | existing :: _ =>
         if String.eqb (p_status existing) status then Ret true
         else
           result <- execute (UpdateStatus status asaasPaymentId) ;;
           if Nat.eqb (affectedRows result) 0 then Ret false
           else
             updatedPayment <- execute (SelectStatus asaasPaymentId) ;;
             Ret true
     end)
    (fun error => Ret false).

(* ------------------------------------------------------------------ *)
(** ** webhook.js: activation and deactivation of customer services *)

(** [debugTableStructure(connection)] is called at the top of
    [activateCustomerServices], but the module neither declares nor
    imports that name: evaluating the call raises a ReferenceError. *)
Definition debugTableStructure : Prog unit :=
  Throw (ReferenceError "debugTableStructure is not defined").

Definition queryVariations : list Variation := [ByName; ByNome; NoName].

(** The [for] loop over [queryVariations]: a rejected query and an empty
    result both move on to the next one; the first non-empty result
    breaks out.  [None] is [paymentData] still null after the loop. *)
Fixpoint tryVariations (vs : list Variation) (asaasPaymentId : string)
  : Prog (option (list (PaymentRow * CustomerRow))) :=
  match vs with
  | [] => Ret None
  | v :: rest =>
      found <- tryCatch
                 (result <- execute (SelectPaymentCustomer v asaasPaymentId) ;;
                  Ret (match result with
                       | [] => None
                       | _ :: _ => Some result
                       end))
                 (fun queryError => Ret None) ;;
      match found with
      | Some result => Ret (Some result)
      | None => tryVariations rest asaasPaymentId
      end
  end.

Definition activateEssentialPlan (payment : PaymentRow * CustomerRow)
  : Prog unit :=
  tryCatch
    (execute (UpsertFeature (p_customer_id (fst payment)) "basic_features") ;;;
     Ret tt)
    (fun error => Ret tt).

Definition activateCompletePlan (payment : PaymentRow * CustomerRow)
  : Prog unit :=
  tryCatch
    (execute (UpsertFeature (p_customer_id (fst payment)) "premium_features") ;;;
     Ret tt)
    (fun error => Ret tt).

(** The body of [activateCustomerServices], with the helper it calls
    first as an argument. *)
Definition activateCustomerServicesWith (debugTable : Prog unit)
           (asaasPaymentId : string) : Prog unit :=
  tryCatch
    (debugTable ;;;
     paymentData <- tryVariations queryVariations asaasPaymentId ;;
     match paymentData with
     | None | Some [] => Ret tt
     | Some (payment :: _) =>
         if String.eqb (p_plan_type (fst payment)) "ESSENCIAL"
         then activateEssentialPlan payment
         else if String.eqb (p_plan_type (fst payment)) "COMPLETO"
         then activateCompletePlan payment
         else Ret tt
     end)
    (fun error => Ret tt).

Definition activateCustomerServices (asaasPaymentId : string) : Prog unit :=
  activateCustomerServicesWith debugTableStructure asaasPaymentId.

Definition deactivateCustomerServices (asaasPaymentId : string) : Prog unit :=
  tryCatch
    (paymentData <- execute (SelectPaymentCustomer ByName asaasPaymentId) ;;
     Ret tt)
    (fun error => Ret tt).

(* ------------------------------------------------------------------ *)
(** ** webhook.js: the event handlers *)

(** [payment.id]: a TypeError when the notification has no payment. *)
Definition payment_id (payment : option PaymentObj) : Prog string :=
  match payment with
  | Some p => Ret (po_id p)
  | None => Throw (TypeError
                     "Cannot read properties of undefined (reading 'id')")
  end.

Definition handlePaymentCreated (payment : option PaymentObj) : Prog unit :=
  id <- payment_id payment ;;
  updatePaymentStatus id "PENDING" ;;; Ret tt.

Definition handlePaymentAwaitingConfirmation (payment : option PaymentObj)
  : Prog unit :=
  id <- payment_id payment ;;
  updatePaymentStatus id "PENDING" ;;; Ret tt.

Definition handlePaymentConfirmed (payment : option PaymentObj) : Prog unit :=
  id <- payment_id payment ;;
  updatePaymentStatus id "CONFIRMED" ;;; Ret tt.

Definition handlePaymentReceived (payment : option PaymentObj) : Prog unit :=
  id <- payment_id payment ;;
  success <- updatePaymentStatus id "RECEIVED" ;;
  if success then activateCustomerServices id else Ret tt.

Definition handlePaymentOverdue (payment : option PaymentObj) : Prog unit :=
  id <- payment_id payment ;;
  updatePaymentStatus id "OVERDUE" ;;; Ret tt.

Definition handlePaymentDeleted (payment : option PaymentObj) : Prog unit :=
  id <- payment_id payment ;;
  updatePaymentStatus id "CANCELLED" ;;; Ret tt.

Definition handlePaymentRestored (payment : option PaymentObj) : Prog unit :=
  id <- payment_id payment ;;
  updatePaymentStatus id "PENDING" ;;; Ret tt.

Definition handlePaymentRefunded (payment : option PaymentObj) : Prog unit :=
  id <- payment_id payment ;;
  updatePaymentStatus id "REFUNDED" ;;;
  deactivateCustomerServices id.

(* ------------------------------------------------------------------ *)
(** ** HTTP responses *)

(** The messages of [paymentSchema], by rule. *)
Inductive Detail : Type :=
| NotAllowedEmpty (field : string)
| NomeMin | NomeMax
| CpfPattern
| EmailFormat | EmailMax
| TelefoneMin | TelefoneMax | TelefonePattern
| PaymentMethodOnly
| PlanTypeOnly
| AmountUnsafe
| AmountPositive.

Record PixJson : Type := mkPixJson {
  pix_qrCode : option string;
  pix_qrCodeImage : option string;
  pix_expirationDate : option string
}.

Record CreditCardJson : Type := mkCreditCardJson {
  cc_invoiceUrl : option string;
  cc_bankSlipUrl : option string
}.

(** [responseData] of the payment route. *)
Record PaymentJson : Type := mkPaymentJson {
  r_paymentId : nat;
  r_asaasPaymentId : string;
  r_status : option string;
  r_value : option Z;
  r_dueDate : option string;
  r_invoiceUrl : option string;
  r_pix : option PixJson;
  r_creditCard : option CreditCardJson
}.

Inductive ResponseBody : Type :=
| WebhookProcessed             (* { success: true, message: 'Webhook processado' } *)
| WebhookReprocessed (webhookId : nat)
| ErrorJson (error : string)   (* { error: ... } *)
| InvalidData (details : list Detail)
| PaymentCreated (data : PaymentJson)
| InternalError (msg : string). (* { error, message, timestamp } *)

Record Response : Type := mkResponse {
  status : nat;
  json : ResponseBody
}.

(* ------------------------------------------------------------------ *)
(** ** webhook.js: the routes *)

(** [payment?.id || null] *)
Definition id_or_null (payment : option PaymentObj) : option string :=
  match payment with
  | Some p => if String.eqb (po_id p) "" then None else Some (po_id p)
  | None => None
  end.

(** The [switch (event)] of the [/asaas] route. *)
Definition dispatch (event : string) (payment : option PaymentObj)
  : Prog unit :=
  if String.eqb event "PAYMENT_CREATED" then handlePaymentCreated payment
  else if String.eqb event "PAYMENT_AWAITING_CONFIRMATION"
  then handlePaymentAwaitingConfirmation payment
  else if String.eqb event "PAYMENT_CONFIRMED" then handlePaymentConfirmed payment
  else if String.eqb event "PAYMENT_RECEIVED" then handlePaymentReceived payment
  else if String.eqb event "PAYMENT_OVERDUE" then handlePaymentOverdue payment
  else if String.eqb event "PAYMENT_DELETED" then handlePaymentDeleted payment
  else if String.eqb event "PAYMENT_RESTORED" then handlePaymentRestored payment
  else if String.eqb event "PAYMENT_REFUNDED" then handlePaymentRefunded payment
  else Ret tt.

(** [router.post('/asaas', verifyWebhookSignature, async (req, res) => ...)],
    the part after the middleware. *)
Definition postAsaas (body : WebhookBody) : Prog Response :=
  tryCatch
    (execute (InsertWebhookLog (id_or_null (payment body)) (event body) body) ;;;
     dispatch (event body) (payment body) ;;;
     execute (MarkProcessed (id_or_null (payment body)) (event body)) ;;;
     Ret (mkResponse 200 WebhookProcessed))
    (fun error =>
       tryCatch
         (execute (SetErrorMessage (message error)
                                   (id_or_null (payment body))) ;;; Ret tt)
         (fun logError => Ret tt) ;;;
       Ret (mkResponse 500 (ErrorJson "Erro ao processar webhook"))).

(** The [switch (event)] of the reprocessing route. *)
Definition redispatch (event : string) (payment : option PaymentObj)
  : Prog unit :=
  if String.eqb event "PAYMENT_CREATED" then handlePaymentCreated payment
  else if String.eqb event "PAYMENT_RECEIVED" then handlePaymentReceived payment
  else if String.eqb event "PAYMENT_OVERDUE" then handlePaymentOverdue payment
  else Ret tt.

(** A synchronous call that returns or throws, inside an async body. *)
Definition settle {A : Type} (o : Outcome A) : Prog A :=
  match o with
  | Resolved a => Ret a
  | Rejected e => Throw e
  end.

(** [router.post('/reprocess/:webhookId', ...)], with [JSON.parse] on
    the payload column as an argument. *)
Definition postReprocessWith (JSON_parse : WebhookBody -> Outcome WebhookBody)
           (webhookId : nat) : Prog Response :=
  tryCatch
    (webhookLog <- execute (SelectWebhookLog webhookId) ;;
     match webhookLog with
     | [] => Ret (mkResponse 404 (ErrorJson "Webhook não encontrado"))
     | log :: _ =>
         payload <- settle (JSON_parse (l_payload log)) ;;
         redispatch (event payload) (payment payload) ;;;
         execute (MarkReprocessed webhookId) ;;;
         Ret (mkResponse 200 (WebhookReprocessed webhookId))
     end)
    (fun error =>
       Ret (mkResponse 500 (ErrorJson "Erro ao reprocessar webhook"))).

(** [JSON.parse(log.payload)] as the route runs it.  [createTables]
    declares [payload JSON], and the driver hands a JSON column back as
    the parsed document, not as its text.  [JSON.parse] turns an argument
    that is not a string into one first; for an object that string is
    [object Object], which is not JSON, so the call throws a SyntaxError
    (the wording of its message depends on the engine). *)
Definition JSON_parse_column (document : WebhookBody) : Outcome WebhookBody :=
  Rejected (SyntaxError "Unexpected token o in JSON at position 1").

Definition postReprocess (webhookId : nat) : Prog Response :=
  postReprocessWith JSON_parse_column webhookId.

(* ------------------------------------------------------------------ *)
(** ** webhook.js: verifyWebhookSignature *)

(** [digest('hex')] of a 256-bit digest: 64 lower-case hexadecimal
    digits, most significant first. *)
Definition hex_digit (d : Z) : ascii :=
  nth (Z.to_nat d)
      (list_ascii_of_string "0123456789abcdef") "0"%char.

Fixpoint hex_digits (n : nat) (z : Z) : string :=
  match n with
  | O => EmptyString
  | S m => hex_digits m (Z.shiftr z 4) ++ String (hex_digit (Z.land z 15)) EmptyString
  end.

Definition digest_hex (d : Z) : string := hex_digits 64 (d mod 2 ^ 256).

Inductive Middleware : Type :=
| Next
| Respond (res : Response).

Section Signature.

(** [JSON.stringify] on request bodies, and
    [crypto.createHmac('sha256', key).update(text).digest()] read as a
    256-bit number: the two library functions the middleware calls.  On
    a parsed body and a non-empty key neither throws, so the [catch] of
    the middleware, which answers 500, is not entered. *)
Variable JSON_stringify : WebhookBody -> string.
Variable hmac_sha256 : string -> string -> Z.

(** [secret] is [process.env.ASAAS_WEBHOOK_SECRET] and [signature] is
    [req.headers['asaas-signature']], each absent or a string. *)
Definition verifyWebhookSignature (secret signature : option string)
           (body : WebhookBody) : Middleware :=
  match secret with
  | None => Next
  | Some webhookSecret =>
      if String.eqb webhookSecret ""
         || String.eqb webhookSecret "your_webhook_secret_here"
      then Next
      else
        match signature with
        | None =>
            Respond (mkResponse 401
                       (ErrorJson "Assinatura do webhook não encontrada"))
        | Some sig =>
            if String.eqb sig ""
            then Respond (mkResponse 401
                            (ErrorJson "Assinatura do webhook não encontrada"))
            else
              let payload := JSON_stringify body in
              let expectedSignature :=
                digest_hex (hmac_sha256 webhookSecret payload) in
              if negb (String.eqb sig expectedSignature)
              then Respond (mkResponse 401 (ErrorJson "Assinatura inválida"))
              else Next
        end
  end.

(** The [/asaas] endpoint: middleware, then the route. *)
Definition asaasEndpoint (secret signature : option string)
           (body : WebhookBody) : Prog Response :=
  match verifyWebhookSignature secret signature body with
  | Next => postAsaas body
  | Respond res => Ret res
  end.

End Signature.

(** The secret is configured: set, non-empty and not the placeholder. *)
Definition configured (secret : option string) : bool :=
  match secret with
  | None => false
  | Some s => negb (String.eqb s "")
              && negb (String.eqb s "your_webhook_secret_here")
  end.

(* ------------------------------------------------------------------ *)
(** ** The world the calls act on *)

Record World : Type := mkWorld {
  customers : list CustomerRow;
  payments : list PaymentRow;
  webhook_logs : list WebhookLogRow;
  payment_errors : list PaymentErrorRow;
  (** [None]: the table does not exist, as after [createTables] alone *)
  customer_features : option (list FeatureRow);
  (** CURRENT_TIMESTAMP / NOW() *)
  db_now : Z;
  (** Date.now(), in milliseconds *)
  js_now : Z;
  (** POST /customers and POST /payments at the gateway *)
  asaas_createCustomer : CustomerData -> Outcome AsaasCustomer;
  asaas_createPayment : PaymentData -> Outcome AsaasPayment
}.

Definition set_customers (w : World) (cs : list CustomerRow) : World :=
  mkWorld cs (payments w) (webhook_logs w) (payment_errors w)
          (customer_features w) (db_now w) (js_now w)
          (asaas_createCustomer w) (asaas_createPayment w).

Definition set_payments (w : World) (ps : list PaymentRow) : World :=
  mkWorld (customers w) ps (webhook_logs w) (payment_errors w)
          (customer_features w) (db_now w) (js_now w)
          (asaas_createCustomer w) (asaas_createPayment w).

Definition set_webhook_logs (w : World) (ls : list WebhookLogRow) : World :=
  mkWorld (customers w) (payments w) ls (payment_errors w)
          (customer_features w) (db_now w) (js_now w)
          (asaas_createCustomer w) (asaas_createPayment w).

Definition set_payment_errors (w : World) (es : list PaymentErrorRow) : World :=
  mkWorld (customers w) (payments w) (webhook_logs w) es
          (customer_features w) (db_now w) (js_now w)
          (asaas_createCustomer w) (asaas_createPayment w).

Definition set_customer_features (w : World) (fs : list FeatureRow) : World :=
  mkWorld (customers w) (payments w) (webhook_logs w) (payment_errors w)
          (Some fs) (db_now w) (js_now w)
          (asaas_createCustomer w) (asaas_createPayment w).

(** AUTO_INCREMENT: one more than the largest id in the table. *)
Definition next_id {R : Type} (id : R -> nat) (rows : list R) : nat :=
  S (list_max (map id rows)).

Definition opt_eqb (a b : option string) : bool :=
  match a, b with
  | Some x, Some y => String.eqb x y
  | _, _ => false       (* NULL = anything is not true *)
  end.

Definition count {R : Type} (f : R -> bool) (rows : list R) : nat :=
  length (filter f rows).

(** [ORDER BY created_at DESC LIMIT 1] among the rows that satisfy the
    WHERE clause: the position of the row with the latest created_at,
    the later row winning a tie. *)
Fixpoint latest (f : WebhookLogRow -> bool) (rows : list WebhookLogRow)
         (i : nat) (best : option (nat * Z)) : option (nat * Z) :=
  match rows with
  | [] => best
  | r :: rest =>
      let best' :=
        if f r then
          match best with
          | None => Some (i, l_created_at r)
          | Some (_, c) =>
              if Z.leb c (l_created_at r) then Some (i, l_created_at r)
              else best
          end
        else best in
      latest f rest (S i) best'
  end.

Fixpoint update_at {R : Type} (i : nat) (g : R -> R) (rows : list R)
  : list R :=
  match rows, i with
  | [], _ => []
  | r :: rest, O => g r :: rest
  | r :: rest, S j => r :: update_at j g rest
  end.

(** [UPDATE webhook_logs SET ... WHERE ... ORDER BY created_at DESC LIMIT 1] *)
Definition update_latest (f : WebhookLogRow -> bool)
           (g : WebhookLogRow -> WebhookLogRow) (w : World)
  : Outcome OkPacket * World :=
  match latest f (webhook_logs w) 0 None with
  | None => (Resolved (mkOk 0 0 0), w)
  | Some (i, _) =>
      (Resolved (mkOk 1 1 0),
       set_webhook_logs w (update_at i g (webhook_logs w)))
  end.

Definition mark_processed (r : WebhookLogRow) : WebhookLogRow :=
  mkLog (l_id r) (l_payment_id r) (l_event_type r) (l_payload r) true
        (l_error_message r) (l_created_at r).

Definition with_error_message (msg : string) (r : WebhookLogRow)
  : WebhookLogRow :=
  mkLog (l_id r) (l_payment_id r) (l_event_type r) (l_payload r)
        (l_processed r) (Some msg) (l_created_at r).

Definition has_asaas_id (id : string) (p : PaymentRow) : bool :=
  String.eqb (p_asaas_payment_id p) id.

(** [SET status = ?, updated_at = CURRENT_TIMESTAMP] on one row *)
Definition with_status (st : string) (now : Z) (p : PaymentRow) : PaymentRow :=
  mkPayment (p_id p) (p_customer_id p) (p_asaas_payment_id p) (p_plan_type p)
            (p_payment_method p) (p_amount p) st (p_external_reference p)
            (p_created_at p) now.

(** [UPDATE payments SET status = ?, updated_at = CURRENT_TIMESTAMP
     WHERE asaas_payment_id = ?] *)
Definition update_status (st id : string) (now : Z) (ps : list PaymentRow)
  : list PaymentRow :=
  map (fun p => if has_asaas_id id p then with_status st now p else p) ps.

(** [ORDER BY created_at DESC], by insertion. *)
Fixpoint insert_desc (p : PaymentRow) (ps : list PaymentRow) : list PaymentRow :=
  match ps with
  | [] => [p]
  | q :: rest =>
      if Z.leb (p_created_at q) (p_created_at p) then p :: ps
      else q :: insert_desc p rest
  end.

Definition recent_first (ps : list PaymentRow) : list PaymentRow :=
  fold_right insert_desc [] ps.

(** [FROM payments p JOIN customers c ON p.customer_id = c.id
     WHERE p.asaas_payment_id = ?] *)
Definition join_customer (id : string) (w : World)
  : list (PaymentRow * CustomerRow) :=
  flat_map (fun p =>
              map (fun c => (p, c))
                  (filter (fun c => Nat.eqb (c_id c) (p_customer_id p))
                          (customers w)))
           (filter (has_asaas_id id) (payments w)).

Definition is_feature (cid : nat) (name : string) (f : FeatureRow) : bool :=
  Nat.eqb (f_customer_id f) cid && String.eqb (f_feature_name f) name.

(** Modelled from the spec: the table customer_features is declared
    nowhere in the repository.  Following section 4.3, step 4 ("upsert
    semantics: creating the flag row if absent, marking active if
    present") the statement
    [INSERT ... VALUES (?, name, TRUE, NOW())
     ON DUPLICATE KEY UPDATE is_active = TRUE, updated_at = NOW()]
    is read with (customer_id, feature_name) as the key. *)
Definition upsert_feature (cid : nat) (name : string) (now : Z)
           (fs : list FeatureRow) : list FeatureRow :=
  if existsb (is_feature cid name) fs
  then map (fun f => if is_feature cid name f
                     then mkFeature (f_customer_id f) (f_feature_name f) true
                                    (f_created_at f) (Some now)
                     else f) fs
  else fs ++ [mkFeature cid name true now None].

Definition matches_customer (em cp : string) (c : CustomerRow) : bool :=
  String.eqb (c_email c) em || String.eqb (c_cpf c) cp.

(** [SET nome = ?, telefone = ?, updated_at = NOW()] on one row *)
Definition refreshed (nm tel : string) (now : Z) (c : CustomerRow)
  : CustomerRow :=
  mkCustomer (c_id c) nm (c_cpf c) (c_email c) tel (c_asaas_customer_id c)
             (c_created_at c) now.

(** The UNIQUE keys of [customers]: cpf, email, asaas_customer_id. *)
Definition customer_clash (cp em aid : string) (c : CustomerRow) : bool :=
  String.eqb (c_cpf c) cp || String.eqb (c_email c) em
  || opt_eqb (c_asaas_customer_id c) (Some aid).

(** The statements on the tables of [createTables], one at a time and
    each committed on its own (the pool runs in autocommit).  A statement
    that names a column or table the schema lacks, or that breaks a
    UNIQUE or FOREIGN KEY of the schema, is rejected.  [affectedRows] of
    an UPDATE counts the rows the WHERE clause matches and [changedRows]
    those whose values change, the two numbers [updatePaymentStatus]
    tells apart.  String comparison is exact and stored values are kept
    as bound: collation, column width and SQL mode belong to the server's
    configuration, whose rejections are those of [faulty] below. *)
Definition mysql : Handler World :=
  fun s w =>
    match s as s0 return Outcome (Reply s0) * World with
    | InsertWebhookLog pid ev payload =>
        let id := next_id l_id (webhook_logs w) in
        (Resolved (mkOk 1 0 id),
         set_webhook_logs w
           (webhook_logs w ++ [mkLog id pid ev payload false None (db_now w)]))
    | MarkProcessed pid ev =>
        update_latest
          (fun r => opt_eqb (l_payment_id r) pid
                    && String.eqb (l_event_type r) ev)
          mark_processed w
    | SetErrorMessage msg pid =>
        update_latest (fun r => opt_eqb (l_payment_id r) pid)
                      (with_error_message msg) w
    | SelectPayment id =>
        (Resolved (filter (has_asaas_id id) (payments w)), w)
    | SelectRecentPayments =>
        (Resolved (firstn 5 (recent_first (payments w))), w)
    | UpdateStatus st id =>
        (Resolved
           (mkOk (count (has_asaas_id id) (payments w))
                 (count (fun p => has_asaas_id id p
                                  && negb (String.eqb (p_status p) st
                                           && Z.eqb (p_updated_at p) (db_now w)))
                        (payments w))
                 0),
         set_payments w (update_status st id (db_now w) (payments w)))
    | SelectStatus id =>
        (Resolved (filter (has_asaas_id id) (payments w)), w)
    | SelectPaymentCustomer v id =>
        match v with
        | ByName =>
            (Rejected (SqlError "Unknown column 'c.name' in 'field list'"), w)
        | ByNome | NoName => (Resolved (join_customer id w), w)
        end
    | UpsertFeature cid name =>
        match customer_features w with
        | None =>
            (Rejected (SqlError "Table 'customer_features' doesn't exist"), w)
        | Some fs =>
            (Resolved (mkOk (if existsb (is_feature cid name) fs then 2 else 1)
                            0 0),
             set_customer_features w (upsert_feature cid name (db_now w) fs))
        end
    | SelectWebhookLog id =>
        (Resolved (filter (fun r => Nat.eqb (l_id r) id) (webhook_logs w)), w)
    | MarkReprocessed id =>
        (Rejected (SqlError "Unknown column 'updated_at' in 'field list'"), w)
    | SelectCustomer em cp =>
        (Resolved (filter (matches_customer em cp) (customers w)), w)
    | UpdateCustomer nm tel id =>
        (Resolved (mkOk (count (fun c => Nat.eqb (c_id c) id) (customers w))
                        0 0),
         set_customers w
           (map (fun c => if Nat.eqb (c_id c) id
                          then refreshed nm tel (db_now w) c else c)
                (customers w)))
    | InsertCustomer nm cp em tel aid =>
        if existsb (customer_clash cp em aid) (customers w)
        then (Rejected (SqlError "Duplicate entry"), w)
        else
          let id := next_id c_id (customers w) in
          (Resolved (mkOk 1 0 id),
           set_customers w
             (customers w
              ++ [mkCustomer id nm cp em tel (Some aid) (db_now w) (db_now w)]))
    | InsertPayment cid apid plan method amt ref =>
        if existsb (has_asaas_id apid) (payments w)
           || negb (existsb (fun c => Nat.eqb (c_id c) cid) (customers w))
        then (Rejected (SqlError "Duplicate entry or missing customer"), w)
        else
          let id := next_id p_id (payments w) in
          (Resolved (mkOk 1 0 id),
           set_payments w
             (payments w
              ++ [mkPayment id cid apid plan method amt "PENDING" (Some ref)
                            (db_now w) (db_now w)]))
    | InsertPaymentError msg data =>
        let id := next_id e_id (payment_errors w) in
        (Resolved (mkOk 1 0 id),
         set_payment_errors w
           (payment_errors w ++ [mkPaymentError id msg data (db_now w)]))
    | CreateCustomer data => (asaas_createCustomer w data, w)
    | CreatePayment data => (asaas_createPayment w data, w)
    | DateNow => (Resolved (js_now w), w)
    end.

(** [mysql] with rejections injected: the call number [n] of a request
    is rejected with [e], and leaves the tables as they are, when
    [plan n = Some e]. *)
Definition faulty {W : Type} (plan : nat -> option Exn) (h : Handler W)
  : Handler (nat * W) :=
  fun s nw =>
    match plan (fst nw) with
    | Some e => (Rejected e, (S (fst nw), snd nw))
    | None => let (o, w') := h s (snd nw) in (o, (S (fst nw), w'))
    end.

(** [mysql] with other requests in between: before the call number [n]
    the committed writes [others n] of concurrent requests are applied. *)
Definition interleaved {W : Type} (others : nat -> W -> W) (h : Handler W)
  : Handler (nat * W) :=
  fun s nw =>
    let (o, w') := h s (others (fst nw) (snd nw)) in (o, (S (fst nw), w')).

(** An example database: one customer on the ESSENCIAL plan with a
    pending payment pay_123, the features table present and empty, and a
    gateway that is down. *)
Definition ana : CustomerRow :=
  mkCustomer 1 "Ana" "12345678901" "a@x.com" "11999999999" (Some "cus_1") 10 10.

Definition pay_123 : PaymentRow :=
  mkPayment 1 1 "pay_123" "ESSENCIAL" "PIX" 4990 "PENDING"
            (Some "ESSENCIAL_1700000000000") 10 10.

Definition shop : World :=
  mkWorld [ana] [pay_123] [] [] (Some []) 20 1700000100000
          (fun _ => Rejected (JsError "Erro na API Asaas: timeout"))
          (fun _ => Rejected (JsError "Erro na API Asaas: timeout")).

Definition received_pay_123 : WebhookBody :=
  mkBody "PAYMENT_RECEIVED" (Some (mkPaymentObj "pay_123" None None)).

(* ------------------------------------------------------------------ *)
(** ** Payment route: createPaymentHandler *)

Definition is_digit (c : ascii) : bool :=
  let n := nat_of_ascii c in (48 <=? n)%nat && (n <=? 57)%nat.

Definition all_digits (s : string) : bool :=
  forallb is_digit (list_ascii_of_string s).

Definition decimal (z : Z) : string := NilZero.string_of_int (Z.to_int z).

Definition pad2 (z : Z) : string :=
  if (z <? 10)%Z then "0" ++ decimal z else decimal z.

Definition pad4 (z : Z) : string :=
  if (z <? 10)%Z then "000" ++ decimal z
  else if (z <? 100)%Z then "00" ++ decimal z
  else if (z <? 1000)%Z then "0" ++ decimal z
  else decimal z.

(** [new Date(ms).toISOString().split('T')[0]] for the years 0000 to
    9999: the civil date of the day that holds the instant [ms]. *)
Definition iso_date (ms : Z) : string :=
  let z := (ms / 86400000 + 719468)%Z in
  let era := (z / 146097)%Z in
  let doe := (z - era * 146097)%Z in
  let yoe := ((doe - doe / 1460 + doe / 36524 - doe / 146096) / 365)%Z in
  let doy := (doe - (365 * yoe + yoe / 4 - yoe / 100))%Z in
  let mp := ((5 * doy + 2) / 153)%Z in
  let d := (doy - (153 * mp + 2) / 5 + 1)%Z in
  let m := (if mp <? 10 then mp + 3 else mp - 9)%Z in
  let y := (yoe + era * 400 + (if m <=? 2 then 1 else 0))%Z in
  pad4 y ++ "-" ++ pad2 m ++ "-" ++ pad2 d.

(** [value.length], which the [min] and [max] rules of the validation
    library compare: the number of UTF-16 code units of the string.  A
    string is held here as its UTF-8 bytes: a byte below 128 and the
    first byte of a sequence of two or three are one unit, the first byte
    of a sequence of four (a code point outside the basic plane, a
    surrogate pair) is two, and a continuation byte is none. *)
Definition utf16_units (c : ascii) : nat :=
  let n := nat_of_ascii c in
  if (n <? 128)%nat then 1
  else if (n <? 192)%nat then 0
  else if (n <? 240)%nat then 1
  else 2.

Definition js_length (s : string) : nat :=
  fold_right (fun c n => utf16_units c + n) 0 (list_ascii_of_string s).

(** [Number.MAX_SAFE_INTEGER]: [Joi.number()] refuses a number beyond
    it, in either direction, before it looks at the rules of the key. *)
Definition MAX_SAFE_INTEGER : Z := 9007199254740991.

Section PaymentRoute.

(** [Joi.string().email()], the address check of the validation
    library. *)
Variable joi_email : string -> bool.

(** [paymentSchema.validate(req.body)]: the first rule that fails, in
    the order of the keys and of the rules of each key. *)
Definition validate (b : PaymentRequest) : option Detail :=
  if String.eqb (nome b) "" then Some (NotAllowedEmpty "nome")
  else if (js_length (nome b) <? 2)%nat then Some NomeMin
  else if (255 <? js_length (nome b))%nat then Some NomeMax
  else if String.eqb (cpf b) "" then Some (NotAllowedEmpty "cpf")
  else if negb (all_digits (cpf b) && Nat.eqb (js_length (cpf b)) 11)
  then Some CpfPattern
  else if String.eqb (email b) "" then Some (NotAllowedEmpty "email")
  else if negb (joi_email (email b)) then Some EmailFormat
  else if (255 <? js_length (email b))%nat then Some EmailMax
  else if String.eqb (telefone b) "" then Some (NotAllowedEmpty "telefone")
  else if (js_length (telefone b) <? 10)%nat then Some TelefoneMin
  else if (11 <? js_length (telefone b))%nat then Some TelefoneMax
  else if negb (all_digits (telefone b)) then Some TelefonePattern
  else if negb (String.eqb (paymentMethod b) "PIX"
                || String.eqb (paymentMethod b) "CREDIT_CARD")
  then Some PaymentMethodOnly
  else if negb (String.eqb (planType b) "ESSENCIAL"
                || String.eqb (planType b) "COMPLETO")
  then Some PlanTypeOnly
  else if (MAX_SAFE_INTEGER <? amount b)%Z
          || (amount b <? - MAX_SAFE_INTEGER)%Z
  then Some AmountUnsafe
  else if negb (0 <? amount b)%Z then Some AmountPositive
  else None.

(** Lines 411 to 459: find the customer by email or cpf, or create it
    at the gateway and then in the table.  Returns [customerId] and
    [asaasCustomerId]. *)
Definition findOrCreateCustomer (b : PaymentRequest)
  : Prog (nat * option string) :=
  existingCustomer <- execute (SelectCustomer (email b) (cpf b)) ;;
  match existingCustomer with
  | existing :: _ =>
      execute (UpdateCustomer (nome b) (telefone b) (c_id existing)) ;;;
      Ret (c_id existing, c_asaas_customer_id existing)
  | [] =>
      asaasCustomer <- execute (CreateCustomer
                                  (mkCustomerData (nome b) (cpf b) (email b)
                                                  (telefone b))) ;;
      match ac_id asaasCustomer with
      | Some asaasCustomerId =>
          if String.eqb asaasCustomerId ""
          then Throw (JsError ("Erro ao criar cliente no Asaas: "
                                 ++ ac_json asaasCustomer))
          else
            result <- execute (InsertCustomer (nome b) (cpf b) (email b)
                                              (telefone b) asaasCustomerId) ;;
            Ret (insertId result, Some asaasCustomerId)
      | None => Throw (JsError ("Erro ao criar cliente no Asaas: "
                                  ++ ac_json asaasCustomer))
      end
  end.

(** Lines 461 to 548: the charge at the gateway, the payments row and
    the response. *)
Definition createCharge (b : PaymentRequest) (customerId : nat)
           (asaasCustomerId : option string) : Prog Response :=
  let card := String.eqb (paymentMethod b) "CREDIT_CARD" in
  let billingType :=
    if String.eqb (paymentMethod b) "PIX" then "PIX" else "CREDIT_CARD" in
  dueNow <- execute DateNow ;;
  refNow <- execute DateNow ;;
  let paymentData :=
    mkPaymentData asaasCustomerId billingType (amount b)
      (iso_date (dueNow + 24 * 60 * 60 * 1000)%Z)
      ("Plano " ++ planType b ++ " - Sistema de Gestão")
      (planType b ++ "_" ++ decimal refNow)
      (if card then Some 1%nat else None)
      (if card then Some (amount b) else None) in
  asaasPayment <- execute (CreatePayment paymentData) ;;
  match ap_id asaasPayment with
  | Some asaasPaymentId =>
      if String.eqb asaasPaymentId ""
      then Throw (JsError ("Erro ao criar cobrança no Asaas: "
                             ++ ap_json asaasPayment))
      else
        paymentResult <-
          execute (InsertPayment customerId asaasPaymentId
                     (planType b) (paymentMethod b) (amount b)
                     (pd_externalReference paymentData)) ;;
        Ret (mkResponse 200
               (PaymentCreated
                  (mkPaymentJson
                     (insertId paymentResult) asaasPaymentId
                     (ap_status asaasPayment) (ap_value asaasPayment)
                     (ap_dueDate asaasPayment)
                     (ap_invoiceUrl asaasPayment)
                     (if String.eqb (paymentMethod b) "PIX" then
                        match ap_pixTransaction asaasPayment with
                        | Some px =>
                            Some (mkPixJson
                                    (match px_qrCode px with
                                     | Some q => qr_payload q
                                     | None => None
                                     end)
                                    (match px_qrCode px with
                                     | Some q => qr_encodedImage q
                                     | None => None
                                     end)
                                    (px_expirationDate px))
                        | None => None
                        end
                      else None)
                     (if card
                      then Some (mkCreditCardJson
                                   (ap_invoiceUrl asaasPayment)
                                   (ap_bankSlipUrl asaasPayment))
                      else None))))
  | None => Throw (JsError ("Erro ao criar cobrança no Asaas: "
                              ++ ap_json asaasPayment))
  end.

(** The [catch] of the handler: the error goes to payment_errors, best
    effort, and the answer is 500. *)
Definition paymentFailed (node_env : option string) (b : PaymentRequest)
           (error : Exn) : Prog Response :=
  tryCatch
    (execute (InsertPaymentError (message error) b) ;;; Ret tt)
    (fun logError => Ret tt) ;;;
  Ret (mkResponse 500
         (InternalError
            (match node_env with
             | Some env =>
                 if String.eqb env "development" then message error
                 else "Erro ao processar pagamento"
             | None => "Erro ao processar pagamento"
             end))).

Definition createPaymentHandler (node_env : option string)
           (b : PaymentRequest) : Prog Response :=
  tryCatch
    (match validate b with
     | Some detail => Ret (mkResponse 400 (InvalidData [detail]))
     | None =>
         ids <- findOrCreateCustomer b ;;
         createCharge b (fst ids) (snd ids)
     end)
    (paymentFailed node_env b).

End PaymentRoute.

(* ------------------------------------------------------------------ *)
(** ** The event table of the design, section 4.3 *)

Inductive EventType : Type :=
| PAYMENT_CREATED
| PAYMENT_AWAITING_CONFIRMATION
| PAYMENT_CONFIRMED
| PAYMENT_RECEIVED
| PAYMENT_OVERDUE
| PAYMENT_DELETED
| PAYMENT_RESTORED
| PAYMENT_REFUNDED.

Definition event_name (e : EventType) : string :=
  match e with
  | PAYMENT_CREATED => "PAYMENT_CREATED"
  | PAYMENT_AWAITING_CONFIRMATION => "PAYMENT_AWAITING_CONFIRMATION"
  | PAYMENT_CONFIRMED => "PAYMENT_CONFIRMED"
  | PAYMENT_RECEIVED => "PAYMENT_RECEIVED"
  | PAYMENT_OVERDUE => "PAYMENT_OVERDUE"
  | PAYMENT_DELETED => "PAYMENT_DELETED"
  | PAYMENT_RESTORED => "PAYMENT_RESTORED"
  | PAYMENT_REFUNDED => "PAYMENT_REFUNDED"
  end.

(** The column "Resulting status" of the table, as the design states
    it; the code's own mapping is [dispatch] with the handlers. *)
Definition table_status (e : EventType) : string :=
  match e with
  | PAYMENT_CREATED => "PENDING"
  | PAYMENT_AWAITING_CONFIRMATION => "PENDING"
  | PAYMENT_CONFIRMED => "CONFIRMED"
  | PAYMENT_RECEIVED => "RECEIVED"
  | PAYMENT_OVERDUE => "OVERDUE"
  | PAYMENT_DELETED => "CANCELLED"
  | PAYMENT_RESTORED => "PENDING"
  | PAYMENT_REFUNDED => "REFUNDED"
  end.

Definition all_events : list EventType :=
  [PAYMENT_CREATED; PAYMENT_AWAITING_CONFIRMATION; PAYMENT_CONFIRMED;
   PAYMENT_RECEIVED; PAYMENT_OVERDUE; PAYMENT_DELETED; PAYMENT_RESTORED;
   PAYMENT_REFUNDED].

(** The event is none of the eight of the table. *)
Definition unrecognized (ev : string) : Prop :=
  forall e : EventType, ev <> event_name e.

(** A handler that rejects the statements [bad] picks out and leaves
    the others to [h]. *)
Definition rejecting {W : Type} (bad : Stmt -> bool) (e : Exn)
           (h : Handler W) : Handler W :=
  fun s w => if bad s then (Rejected e, w) else h s w.

Definition on_payments (s : Stmt) : bool :=
  match s with
  | SelectPayment _ | SelectRecentPayments | UpdateStatus _ _
  | SelectStatus _ | SelectPaymentCustomer _ _ | UpsertFeature _ _ => true
  | _ => false
  end.

(** The rows of a log that record the delivery of [body]. *)
Definition records (body : WebhookBody) (r : WebhookLogRow) : Prop :=
  l_payment_id r = id_or_null (payment body)
  /\ l_event_type r = event body
  /\ l_payload r = body.

(** What makes [updatePaymentStatus id st] succeed under a handler: the
    lookup resolves with a row, and either its status is already [st],
    or the UPDATE resolves with a row affected and the read-back
    resolves too. *)
Definition found_and_applied {W : Type} (h : Handler W) (w : W)
           (id st : string) : Prop :=
  exists row rows w1,
    h (SelectPayment id) w = (Resolved (row :: rows), w1)
    /\ (p_status row = st
        \/ (p_status row <> st
            /\ exists pkt w2 rows' w3,
                h (UpdateStatus st id) w1 = (Resolved pkt, w2)
                /\ affectedRows pkt <> 0
                /\ h (SelectStatus id) w2 = (Resolved rows', w3))).

(** The two statements of the [/asaas] route itself. *)
Definition is_logging (s : Stmt) : bool :=
  match s with
  | InsertWebhookLog _ _ _ | MarkProcessed _ _ => true
  | _ => false
  end.

(** The stored status of the payment with external id [id]: the status
    of the row [WHERE asaas_payment_id = ?] finds (the key is UNIQUE). *)
Definition status_of (id : string) (ps : list PaymentRow) : option string :=
  match filter (has_asaas_id id) ps with
  | [] => None
  | row :: _ => Some (p_status row)
  end.

(** The payments table after [updatePaymentStatus id st] on [mysql]. *)
Definition transition (st id : string) (w : World) : World :=
  match filter (has_asaas_id id) (payments w) with
  | [] => w
  | row :: _ =>
      if String.eqb (p_status row) st then w
      else set_payments w (update_status st id (db_now w) (payments w))
  end.

(** The tables once the delivery of [body] is logged: the row the
    INSERT of the route appends. *)
Definition logged (body : WebhookBody) (w : World) : World :=
  set_webhook_logs w
    (webhook_logs w
     ++ [mkLog (next_id l_id (webhook_logs w)) (id_or_null (payment body))
               (event body) body false None (db_now w)]).

(** Two versions of a payments row that differ at most in status and
    updated_at. *)
Definition same_but_status (p p' : PaymentRow) : Prop :=
  p_id p' = p_id p
  /\ p_customer_id p' = p_customer_id p
  /\ p_asaas_payment_id p' = p_asaas_payment_id p
  /\ p_plan_type p' = p_plan_type p
  /\ p_payment_method p' = p_payment_method p
  /\ p_amount p' = p_amount p
  /\ p_external_reference p' = p_external_reference p
  /\ p_created_at p' = p_created_at p.

(** Another request deletes the payments between the lookup and the
    update of this one. *)
Definition deleted_meanwhile (n : nat) (w : World) : World :=
  match n with
  | 1 => set_payments w []
  | _ => w
  end.

(** The example database with one stored delivery: the confirmation of
    pay_123, logged earlier. *)
Definition confirmed_pay_123 : WebhookBody :=
  mkBody "PAYMENT_CONFIRMED" (Some (mkPaymentObj "pay_123" None None)).

Definition archive : World :=
  set_webhook_logs shop
    [mkLog 1 (Some "pay_123") "PAYMENT_CONFIRMED" confirmed_pay_123 false None 15;
     mkLog 2 (Some "pay_123") "PAYMENT_RECEIVED" received_pay_123 false None 16].

(** "Reprocessing a log produces the same Payment status transition and
    side effects as the original delivery of that payload", for the log
    row [id] of [w]. *)
Definition reprocess_replays_delivery (w : World) (id : nat) : Prop :=
  forall log rest,
    filter (fun r => Nat.eqb (l_id r) id) (webhook_logs w) = log :: rest ->
    payments (snd (interp mysql (postReprocess id) w))
    = payments (snd (interp mysql (postAsaas (l_payload log)) w))
    /\ customer_features (snd (interp mysql (postReprocess id) w))
       = customer_features (snd (interp mysql (postAsaas (l_payload log)) w)).

(** The events the reprocessing route has a case for. *)
Definition reprocessable (ev : string) : bool :=
  String.eqb ev "PAYMENT_CREATED" || String.eqb ev "PAYMENT_RECEIVED"
  || String.eqb ev "PAYMENT_OVERDUE".

(** The calls that create a customer, at the gateway or in the table. *)
Definition creates_customer (s : Stmt) : bool :=
  match s with
  | CreateCustomer _ | InsertCustomer _ _ _ _ _ => true
  | _ => false
  end.

(** More of the example: a delivery for a payment the shop does not
    have, a delivery with an event outside the table, a gateway that
    answers, a returning customer and a new one. *)
Definition received_pay_999 : WebhookBody :=
  mkBody "PAYMENT_RECEIVED" (Some (mkPaymentObj "pay_999" None None)).

Definition updated_pay_123 : WebhookBody :=
  mkBody "PAYMENT_UPDATED" (Some (mkPaymentObj "pay_123" None None)).

Definition shop_online : World :=
  mkWorld [ana] [pay_123] [] [] (Some []) 20 1700000100000
          (fun _ => Resolved (mkAsaasCustomer (Some "cus_2") "{}"))
          (fun _ => Resolved (mkAsaasPayment (Some "pay_124") (Some "PENDING")
                                (Some 9990%Z) (Some "2023-11-15") None None
                                None "{}")).

Definition ana_again : PaymentRequest :=
  mkRequest "Ana Souza" "12345678901" "a@x.com" "11988887777" "PIX"
            "ESSENCIAL" 4990.

Definition bia : PaymentRequest :=
  mkRequest "Bia" "98765432100" "b@x.com" "11977776666" "CREDIT_CARD"
            "COMPLETO" 9990.

(** Stand-ins for the library functions in the examples: an address
    check, a serializer and a keyed digest. *)
Definition event_text (b : WebhookBody) : string := event b.

Definition keyed_length (key text : string) : Z :=
  Z.of_nat (String.length (key ++ text)).

Definition has_at (s : string) : bool :=
  existsb (Ascii.eqb "@"%char) (list_ascii_of_string s).

(** Fault plans: the mark-processed step of a delivery with a stored
    payment fails (call number 4), or the first INSERT does. *)
Definition mark_fails (n : nat) : option Exn :=
  if Nat.eqb n 4 then Some (SqlError "Lock wait timeout exceeded") else None.

Definition insert_fails (n : nat) : option Exn :=
  if Nat.eqb n 0 then Some (SqlError "Connection lost") else None.

(* ------------------------------------------------------------------ *)
(** ** Payment route: GET /payment-status/:id *)

(** [responseData] of the status route. *)
Record StatusJson : Type := mkStatusJson {
  s_id : nat;
  s_asaasPaymentId : string;
  s_status : option string;
  s_value : option Z;
  s_paymentMethod : string;
  s_planType : string;
  s_nome : string;
  s_email : string;
  s_cpf : string;
  s_createdAt : Z;
  s_updatedAt : Z;
  s_invoiceUrl : option string;
  s_pix : option PixJson
}.

Inductive StatusBody : Type :=
| StatusData (data : StatusJson)
| StatusNotFound                 (* { error: 'Pagamento não encontrado' } *)
| StatusFailed (msg : string).   (* { error, message, timestamp } *)

(** [FROM payments p JOIN customers c ON p.customer_id = c.id
     WHERE p.id = ?] *)
Definition join_by_id (id : nat) (w : World) : list (PaymentRow * CustomerRow) :=
  flat_map (fun p =>
              map (fun c => (p, c))
                  (filter (fun c => Nat.eqb (c_id c) (p_customer_id p))
                          (customers w)))
           (filter (fun p => Nat.eqb (p_id p) id) (payments w)).

(** [UPDATE payments SET status = ?, updated_at = NOW() WHERE id = ?] *)
Definition update_status_by_id (st : string) (id : nat) (now : Z)
           (ps : list PaymentRow) : list PaymentRow :=
  map (fun p => if Nat.eqb (p_id p) id then with_status st now p else p) ps.

(** [process.env.NODE_ENV === 'development' ? error.message : fallback] *)
Definition shown_message (node_env : option string) (e : Exn)
           (fallback : string) : string :=
  match node_env with
  | Some env => if String.eqb env "development" then message e else fallback
  | None => fallback
  end.

(** [x !== y] between a field that is absent or a string and a string. *)
Definition differs (x : option string) (y : string) : bool :=
  match x with
  | Some s => negb (String.eqb s y)
  | None => true
  end.

Definition pix_json (ap : AsaasPayment) : option PixJson :=
  match ap_pixTransaction ap with
  | Some px =>
      Some (mkPixJson
              (match px_qrCode px with Some q => qr_payload q | None => None end)
              (match px_qrCode px with
               | Some q => qr_encodedImage q
               | None => None
               end)
              (px_expirationDate px))
  | None => None
  end.

Section PaymentStatus.

(** [asaasService.getPayment], GET /payments/:id at the gateway. *)
Variable asaas_getPayment : string -> Outcome AsaasPayment.

(** The [try] block of the route, on the tables: the answer, or the
    error thrown, and the tables afterwards.  An absent gateway status
    differs from the stored one and is then bound to the UPDATE as
    [undefined], which [execute] refuses with a TypeError before
    anything is sent. *)
Definition refreshStatus (paymentId : nat) (w : World)
  : Outcome (nat * StatusBody) * World :=
  match join_by_id paymentId w with
  | [] => (Resolved (404, StatusNotFound), w)
  | paymentData :: _ =>
      match asaas_getPayment (p_asaas_payment_id (fst paymentData)) with
      | Rejected e => (Rejected e, w)
      | Resolved asaasPayment =>
          let answer :=
            (200,
             StatusData
               (mkStatusJson
                  (p_id (fst paymentData))
                  (p_asaas_payment_id (fst paymentData))
                  (ap_status asaasPayment) (ap_value asaasPayment)
                  (p_payment_method (fst paymentData))
                  (p_plan_type (fst paymentData))
                  (c_nome (snd paymentData)) (c_email (snd paymentData))
                  (c_cpf (snd paymentData))
                  (p_created_at (fst paymentData))
                  (p_updated_at (fst paymentData))
                  (ap_invoiceUrl asaasPayment) (pix_json asaasPayment))) in
          if differs (ap_status asaasPayment) (p_status (fst paymentData))
          then
            match ap_status asaasPayment with
            | None =>
                (Rejected (TypeError
                             "Bind parameters must not contain undefined"), w)
            | Some st =>
                (Resolved answer,
                 set_payments w
                   (update_status_by_id st paymentId (db_now w) (payments w)))
            end
          else (Resolved answer, w)
      end
  end.

(** [router.get('/payment-status/:id', ...)] *)
Definition getPaymentStatus (node_env : option string) (paymentId : nat)
           (w : World) : (nat * StatusBody) * World :=
  match refreshStatus paymentId w with
  | (Resolved answer, w') => (answer, w')
  | (Rejected e, w') =>
      ((500, StatusFailed (shown_message node_env e "Erro interno")), w')
  end.

End PaymentStatus.

(* ------------------------------------------------------------------ *)
(** ** Payment route: GET /payments *)

Record Pagination : Type := mkPagination {
  pg_page : Z;
  pg_limit : Z;
  pg_total : Z;
  pg_totalPages : Z;
  pg_hasNext : bool;
  pg_hasPrev : bool
}.

Inductive ListBody : Type :=
| Listing (rows : list (PaymentRow * CustomerRow)) (pagination : Pagination)
| ListFailed (msg : string).

(** [x || d] on the result of [parseInt]: NaN and 0 give the default. *)
Definition or_default (x : option Z) (d : Z) : Z :=
  match x with
  | Some n => if Z.eqb n 0 then d else n
  | None => d
  end.

(** [if (status)]: the filter applies to a non-empty string. *)
Definition status_filter (status : option string) : option string :=
  match status with
  | Some s => if String.eqb s "" then None else Some s
  | None => None
  end.

Definition has_status (flt : option string) (p : PaymentRow) : bool :=
  match flt with
  | Some s => String.eqb (p_status p) s
  | None => true
  end.

(** [FROM payments p JOIN customers c ON p.customer_id = c.id
     [WHERE p.status = ?] ORDER BY p.created_at DESC] *)
Definition listed (flt : option string) (w : World)
  : list (PaymentRow * CustomerRow) :=
  flat_map (fun p =>
              map (fun c => (p, c))
                  (filter (fun c => Nat.eqb (c_id c) (p_customer_id p))
                          (customers w)))
           (recent_first (filter (has_status flt) (payments w))).

(** [... LIMIT ? OFFSET ?] with the two numbers the route binds.
    Whether the server accepts them is its own decision, [refused] (the
    error it answers with when it does not): it depends on the server and
    on how the driver sends numbers, and is no code of this repository.
    When the statement is accepted its rows are the page. *)
Definition select_page (refused : Z -> Z -> option Exn)
           (flt : option string) (limit offset : Z) (w : World)
  : Outcome (list (PaymentRow * CustomerRow)) :=
  match refused limit offset with
  | Some e => Rejected e
  | None => Resolved (firstn (Z.to_nat limit)
                             (skipn (Z.to_nat offset) (listed flt w)))
  end.

(** [SELECT COUNT( * ) as total FROM payments p [WHERE p.status = ?]] *)
Definition count_payments (flt : option string) (w : World) : Z :=
  Z.of_nat (count (has_status flt) (payments w)).

(** [Math.ceil(total / limit)], for a limit other than 0. *)
Definition ceil_div (total limit : Z) : Z := (- ((- total) / limit))%Z.

Section Listing.

(** [parseInt] on a query parameter that is absent or a string; [None]
    is NaN. *)
Variable parseInt : option string -> option Z.

(** The server's answer to the bounds of the SELECT. *)
Variable refused : Z -> Z -> option Exn.

(** [router.get('/payments', ...)] on the tables. *)
Definition listPayments (node_env : option string)
           (q_page q_limit q_status : option string) (w : World)
  : nat * ListBody :=
  let page := or_default (parseInt q_page) 1 in
  let limit := or_default (parseInt q_limit) 20 in
  let offset := ((page - 1) * limit)%Z in
  let flt := status_filter q_status in
  match select_page refused flt limit offset w with
  | Rejected e =>
      (500, ListFailed (shown_message node_env e "Erro interno"))
  | Resolved rows =>
      let total := count_payments flt w in
      let totalPages := ceil_div total limit in
      (200,
       Listing rows
               (mkPagination page limit total totalPages
                             (page <? totalPages)%Z (1 <? page)%Z))
  end.

End Listing.

(* ------------------------------------------------------------------ *)
(** ** server.js: the fallback CORS middleware *)

Definition allowedOrigins : list string :=
  ["https://promptaai.com.br"; "https://www.promptaai.com.br";
   "http://localhost:3000"; "http://localhost:5173";
   "http://127.0.0.1:3000"; "http://127.0.0.1:5173"].

(** [allowedOrigins.includes(origin)] *)
Definition includes (origin : string) : bool :=
  existsb (String.eqb origin) allowedOrigins.

(** [!origin || allowedOrigins.includes(origin)] on a header that is
    absent or a string. *)
Definition origin_allowed (origin : option string) : bool :=
  match origin with
  | None => true
  | Some o => String.eqb o "" || includes o
  end.

(** [origin || '*'] *)
Definition origin_or_star (origin : option string) : string :=
  match origin with
  | None => "*"
  | Some o => if String.eqb o "" then "*" else o
  end.

(** [corsOptions.origin]: the second argument given to the callback. *)
Definition corsOrigin (origin : option string) : bool :=
  match origin with
  | None => true
  | Some o => if String.eqb o "" then true else includes o
  end.

(** What the middleware does with the response: the headers it sets,
    and the status it ends with, or [None] for [next()]. *)
Definition corsFallback (method : string) (origin : option string)
  : list (string * string) * option nat :=
  if String.eqb method "OPTIONS" then
    if origin_allowed origin then
      ([("Access-Control-Allow-Origin", origin_or_star origin);
        ("Access-Control-Allow-Methods",
         "GET,POST,PUT,DELETE,OPTIONS,HEAD,PATCH");
        ("Access-Control-Allow-Headers",
         "Origin, X-Requested-With, Content-Type, Accept, Authorization, Cache-Control, Pragma");
        ("Access-Control-Allow-Credentials", "true");
        ("Access-Control-Max-Age", "86400")],
       Some 200)
    else ([], Some 403)
  else if origin_allowed origin then
    ([("Access-Control-Allow-Origin", origin_or_star origin);
      ("Access-Control-Allow-Credentials", "true")],
     None)
  else ([], None).

(** The tables after the upsert of one feature: nothing changes when
    customer_features does not exist, the statement being rejected. *)
Definition with_feature (cid : nat) (name : string) (w : World) : World :=
  match customer_features w with
  | None => w
  | Some fs => set_customer_features w (upsert_feature cid name (db_now w) fs)
  end.

(** What [paymentSchema] asks of a request, rule by rule, lengths
    being counted in UTF-16 code units. *)
Definition acceptable (joi_email : string -> bool) (b : PaymentRequest)
  : Prop :=
  2 <= js_length (nome b) <= 255
  /\ all_digits (cpf b) = true /\ js_length (cpf b) = 11
  /\ email b <> "" /\ joi_email (email b) = true
  /\ js_length (email b) <= 255
  /\ 10 <= js_length (telefone b) <= 11
  /\ all_digits (telefone b) = true
  /\ (paymentMethod b = "PIX" \/ paymentMethod b = "CREDIT_CARD")
  /\ (planType b = "ESSENCIAL" \/ planType b = "COMPLETO")
  /\ (0 < amount b <= MAX_SAFE_INTEGER)%Z.

(** The error the customer step throws on an answer of the gateway: the
    rejection itself, or the handler's own error when the answer carries
    no id. *)
Definition customer_creation_error (o : Outcome AsaasCustomer) : option Exn :=
  match o with
  | Rejected e => Some e
  | Resolved ac =>
      match ac_id ac with
      | Some id =>
          if String.eqb id ""
          then Some (JsError ("Erro ao criar cliente no Asaas: " ++ ac_json ac))
          else None
      | None => Some (JsError ("Erro ao criar cliente no Asaas: " ++ ac_json ac))
      end
  end.

(** The same for the charge. *)
Definition charge_error (o : Outcome AsaasPayment) : option Exn :=
  match o with
  | Rejected e => Some e
  | Resolved ap =>
      match ap_id ap with
      | Some id =>
          if String.eqb id ""
          then Some (JsError ("Erro ao criar cobrança no Asaas: " ++ ap_json ap))
          else None
      | None => Some (JsError ("Erro ao criar cobrança no Asaas: " ++ ap_json ap))
      end
  end.

(** [paymentData] of [createCharge] when both readings of the clock
    give [now]. *)
Definition paymentDataAt (b : PaymentRequest) (asaasCustomerId : option string)
           (now : Z) : PaymentData :=
  mkPaymentData asaasCustomerId
    (if String.eqb (paymentMethod b) "PIX" then "PIX" else "CREDIT_CARD")
    (amount b)
    (iso_date (now + 24 * 60 * 60 * 1000)%Z)
    ("Plano " ++ planType b ++ " - Sistema de Gestão")
    (planType b ++ "_" ++ decimal now)
    (if String.eqb (paymentMethod b) "CREDIT_CARD" then Some 1%nat else None)
    (if String.eqb (paymentMethod b) "CREDIT_CARD" then Some (amount b)
     else None).

(** The body of the 500 answer of the payment route. *)
Definition internal_error (node_env : option string) (e : Exn) : Response :=
  mkResponse 500
    (InternalError (shown_message node_env e "Erro ao processar pagamento")).

(** [responseData] of a created payment. *)
Definition created_json (b : PaymentRequest) (ap : AsaasPayment)
           (paymentId : nat) (asaasPaymentId : string) : PaymentJson :=
  mkPaymentJson paymentId asaasPaymentId (ap_status ap) (ap_value ap)
    (ap_dueDate ap) (ap_invoiceUrl ap)
    (if String.eqb (paymentMethod b) "PIX" then pix_json ap else None)
    (if String.eqb (paymentMethod b) "CREDIT_CARD"
     then Some (mkCreditCardJson (ap_invoiceUrl ap) (ap_bankSlipUrl ap))
     else None).

(** The payment_errors table with one more row. *)
Definition with_payment_error (e : Exn) (b : PaymentRequest) (w : World)
  : World :=
  set_payment_errors w
    (payment_errors w
     ++ [mkPaymentError (next_id e_id (payment_errors w)) (message e) b
                        (db_now w)]).

(** More of the example: a delivery without payment object, a shop
    whose gateway creates customers but no charges, the confirmation of
    the payment the online shop creates, a gateway that reports every
    payment as received, and a decimal [parseInt]. *)
Definition updated_nothing : WebhookBody := mkBody "PAYMENT_UPDATED" None.

Definition shop_charge_down : World :=
  mkWorld [ana] [pay_123] [] [] (Some []) 20 1700000100000
          (fun _ => Resolved (mkAsaasCustomer (Some "cus_2") "{}"))
          (fun _ => Rejected (JsError "Erro na API Asaas: timeout")).

Definition confirmed_pay_124 : WebhookBody :=
  mkBody "PAYMENT_CONFIRMED" (Some (mkPaymentObj "pay_124" None None)).

Definition gateway_received (id : string) : Outcome AsaasPayment :=
  Resolved (mkAsaasPayment (Some id) (Some "RECEIVED") (Some 4990%Z)
                           (Some "2023-11-15") None None None "{}").

(** A server that refuses a negative bound and accepts the others. *)
Definition refuses_negative (limit offset : Z) : option Exn :=
  if (limit <? 0)%Z || (offset <? 0)%Z
  then Some (SqlError "Incorrect arguments to mysqld_stmt_execute")
  else None.

Definition parse_decimal (q : option string) : option Z :=
  match q with
  | Some s => option_map Z.of_int (NilZero.int_of_string s)
  | None => None
  end.

(** A request whose name is one accented letter: two bytes, one UTF-16
    unit. *)
Definition short_name : PaymentRequest :=
  mkRequest "é" "12345678901" "a@x.com" "11988887777" "PIX" "ESSENCIAL" 4990.

(** "For every valid request matching no existing customer, exactly one
    new Customer row is inserted (after the remote customer creation
    yields an external identifier)", for the request [b] on the tables
    [w]. *)
Definition inserted_when_new (joi_email : string -> bool) (w : World)
           (b : PaymentRequest) : Prop :=
  validate joi_email b = None ->
  filter (matches_customer (email b) (cpf b)) (customers w) = [] ->
  (exists aid json,
      aid <> ""
      /\ asaas_createCustomer w
           (mkCustomerData (nome b) (cpf b) (email b) (telefone b))
         = Resolved (mkAsaasCustomer (Some aid) json)) ->
  exists row,
    customers (fst (snd (interp (traced mysql)
                                (createPaymentHandler joi_email None b)
                                (w, []))))
    = customers w ++ [row].

(** An outcome that is an answer with status 500. *)
Definition status_is_500 (o : Outcome Response) : Prop :=
  exists body, o = Resolved (mkResponse 500 body).

(** The example shop with a gateway that answers the creation of a
    customer with the identifier Ana already has. *)
Definition shop_same_reference : World :=
  mkWorld [ana] [pay_123] [] [] (Some []) 20 1700000100000
          (fun _ => Resolved (mkAsaasCustomer (Some "cus_1") "{}"))
          (fun _ => Rejected (JsError "Erro na API Asaas: timeout")).

(* ================================================================== *)
(** * Running the trees: general facts *)

Lemma interp_bind {W A B : Type} (h : Handler W) (p : Prog A)
      (f : A -> Prog B) (w : W) :
  interp h (bind p f) w =
  match interp h p w with
  | (Resolved a, w') => interp h (f a) w'
  | (Rejected e, w') => (Rejected e, w')
  end.
Proof.
  revert w. induction p as [a | e | s k IH]; intros w; simpl; try reflexivity.
  destruct (h s w) as [o w']. apply IH.
Qed.

Lemma interp_tryCatch {W A : Type} (h : Handler W) (p : Prog A)
      (g : Exn -> Prog A) (w : W) :
  interp h (tryCatch p g) w =
  match interp h p w with
  | (Resolved a, w') => (Resolved a, w')
  | (Rejected e, w') => interp h (g e) w'
  end.
Proof.
  revert w. induction p as [a | e | s k IH]; intros w; simpl; try reflexivity.
  destruct (h s w) as [o w']. apply IH.
Qed.

Lemma interp_execute {W : Type} (h : Handler W) (s : Stmt) (w : W) :
  interp h (execute s) w = h s w.
Proof.
  simpl. destruct (h s w) as [[r | e] w']; reflexivity.
Qed.

(** A function whose body is one [try] with a [catch] that returns
    always returns. *)
Lemma tryCatch_returns {W A : Type} (h : Handler W) (p : Prog A) (a0 : A)
      (w : W) :
  exists a w', interp h (tryCatch p (fun _ => Ret a0)) w = (Resolved a, w').
Proof.
  rewrite interp_tryCatch.
  destruct (interp h p w) as [[a | e] w']; simpl; eauto.
Qed.

(** The trace of [traced h] grows at its end and the world evolves as
    under [h]. *)
Lemma interp_traced {W A : Type} (h : Handler W) (p : Prog A) (w : W)
      (t : list Stmt) :
  fst (interp (traced h) p (w, t)) = fst (interp h p w)
  /\ fst (snd (interp (traced h) p (w, t))) = snd (interp h p w)
  /\ exists t', snd (snd (interp (traced h) p (w, t))) = t ++ t'.
Proof.
  revert w t. induction p as [a | e | s k IH]; intros w t; simpl.
  - repeat split. exists []. now rewrite app_nil_r.
  - repeat split. exists []. now rewrite app_nil_r.
  - unfold traced at 1 3 5. simpl. destruct (h s w) as [o w'].
    destruct (IH o w' (t ++ [s])) as (H1 & H2 & t' & H3).
    repeat split; try assumption.
    exists (s :: t'). rewrite H3, <- app_assoc. reflexivity.
Qed.

(* ================================================================== *)
(** * The status-transition engine never throws *)

Lemma updatePaymentStatus_returns {W : Type} (h : Handler W) (w : W)
      (id st : string) :
  exists b w', interp h (updatePaymentStatus id st) w = (Resolved b, w').
Proof. apply tryCatch_returns. Qed.

Lemma updatePaymentStatus_true_iff {W : Type} (h : Handler W) (w : W)
      (id st : string) :
  fst (interp h (updatePaymentStatus id st) w) = Resolved true
  <-> found_and_applied h w id st.
Proof.
  unfold updatePaymentStatus, found_and_applied. simpl.
  destruct (h (SelectPayment id) w) as [[rows | e] w1] eqn:Hsel; simpl.
  - destruct rows as [| row rows]; simpl.
    + destruct (h SelectRecentPayments w1) as [[r | e] w2]; simpl;
        (split; [discriminate | intros (? & ? & ? & H & _); discriminate]).
    + destruct (String.eqb_spec (p_status row) st) as [Heq | Hne]; simpl.
      * split; [intros _ | reflexivity]. exists row, rows, w1. auto.
      * destruct (h (UpdateStatus st id) w1) as [[pkt | e] w2] eqn:Hupd; simpl.
        -- destruct (Nat.eqb_spec (affectedRows pkt) 0) as [Hz | Hnz]; simpl.
           ++ split; [discriminate |].
              intros (r & rs & w1' & H & [Hs | (_ & pkt' & w2' & ? & ? & Hu & Ha & _)]).
              ** inversion H; subst. contradiction.
              ** inversion H; subst. rewrite Hupd in Hu. inversion Hu; subst.
                 contradiction.
           ++ destruct (h (SelectStatus id) w2) as [[rows' | e] w3] eqn:Hrd; simpl.
              ** split; [intros _ | reflexivity].
                 exists row, rows, w1. split; [reflexivity |]. right.
                 split; [assumption |]. exists pkt, w2, rows', w3. auto.
              ** split; [discriminate |].
                 intros (r & rs & w1' & H & [Hs | (_ & pkt' & w2' & ? & ? & Hu & _ & Hr)]).
                 --- inversion H; subst. contradiction.
                 --- inversion H; subst. rewrite Hupd in Hu.
                     inversion Hu; subst. rewrite Hrd in Hr. discriminate.
        -- split; [discriminate |].
           intros (r & rs & w1' & H & [Hs | (_ & pkt' & w2' & ? & ? & Hu & _)]).
           ++ inversion H; subst. contradiction.
           ++ inversion H; subst. rewrite Hupd in Hu. discriminate.
  - split; [discriminate | intros (? & ? & ? & H & _); discriminate].
Qed.

(** The helper is unbound, so activation ends in its own [catch] before
    any statement is sent. *)
Lemma activateCustomerServices_returns {W : Type} (h : Handler W) (w : W)
      (id : string) :
  interp h (activateCustomerServices id) w = (Resolved tt, w).
Proof. reflexivity. Qed.

Lemma deactivateCustomerServices_returns {W : Type} (h : Handler W) (w : W)
      (id : string) :
  exists w', interp h (deactivateCustomerServices id) w = (Resolved tt, w').
Proof.
  destruct (tryCatch_returns h
              (paymentData <- execute (SelectPaymentCustomer ByName id) ;; Ret tt)
              tt w) as ([] & w' & H).
  exists w'. exact H.
Qed.

(** With a payment in the notification, no handler of the switch lets an
    exception out, whatever the database answers. *)
Lemma dispatch_returns {W : Type} (h : Handler W) (w : W) (ev : string)
      (p : PaymentObj) :
  exists w', interp h (dispatch ev (Some p)) w = (Resolved tt, w').
Proof.
  unfold dispatch.
  repeat match goal with
         | |- context [if String.eqb ?a ?b then _ else _] =>
             destruct (String.eqb a b)
         end;
    unfold handlePaymentCreated, handlePaymentAwaitingConfirmation,
      handlePaymentConfirmed, handlePaymentReceived, handlePaymentOverdue,
      handlePaymentDeleted, handlePaymentRestored, handlePaymentRefunded,
      payment_id;
    cbn [bind];
    try (rewrite interp_bind;
         match goal with
         | |- context [interp h (updatePaymentStatus ?i ?s) ?w0] =>
             destruct (updatePaymentStatus_returns h w0 i s) as (b & w' & ->)
         end);
    try (destruct b);
    try apply deactivateCustomerServices_returns;
    simpl; eauto.
Qed.

(** C10. [updatePaymentStatus] returns a boolean for every payment id,
    every target status and every behaviour of the database, rejected
    statements included; it is [true] exactly when the row is found and
    either already has the status or the update affects a row and its
    read-back resolves.  Hence, when the route's own two statements on
    webhook_logs resolve and the notification carries a payment, the
    route answers 200 whatever fails inside the engine. *)
Theorem updatePaymentStatus_never_throws :
  forall (W : Type) (h : Handler W),
    (forall (w : W) (id st : string),
        exists (b : bool) (w' : W),
          interp h (updatePaymentStatus id st) w = (Resolved b, w')
          /\ (b = true <-> found_and_applied h w id st))
    /\ ((forall (s : Stmt) (w : W),
            is_logging s = true -> exists r w', h s w = (Resolved r, w')) ->
        forall (w : W) (body : WebhookBody) (p : PaymentObj),
          payment body = Some p ->
          exists w',
            interp h (postAsaas body) w
            = (Resolved (mkResponse 200 WebhookProcessed), w')).
Proof.
  intros W h. split.
  - intros w id st.
    destruct (updatePaymentStatus_returns h w id st) as (b & w' & H).
    exists b, w'. split; [exact H |].
    rewrite <- updatePaymentStatus_true_iff, H. simpl.
    split; [intros -> | intros E; inversion E]; reflexivity.
  - intros Hlog w body p Hp. unfold postAsaas.
    rewrite interp_tryCatch, interp_bind, interp_execute.
    destruct (Hlog (InsertWebhookLog (id_or_null (payment body)) (event body) body)
                   w eq_refl) as (r1 & w1 & ->).
    rewrite interp_bind, Hp.
    destruct (dispatch_returns h w1 (event body) p) as (w2 & ->).
    rewrite interp_bind, interp_execute.
    destruct (Hlog (MarkProcessed (id_or_null (Some p)) (event body))
                   w2 eq_refl) as (r3 & w3 & ->).
    simpl. eauto.
Qed.

(* ================================================================== *)
(** * The engine on the tables *)

Lemma has_asaas_id_with_status (id st : string) (now : Z) (p : PaymentRow) :
  has_asaas_id id (with_status st now p) = has_asaas_id id p.
Proof. reflexivity. Qed.

Lemma filter_update_status (st id : string) (now : Z) (ps : list PaymentRow) :
  filter (has_asaas_id id) (update_status st id now ps)
  = map (with_status st now) (filter (has_asaas_id id) ps).
Proof.
  induction ps as [| p ps IH]; simpl; [reflexivity |].
  destruct (has_asaas_id id p) eqn:E; simpl.
  - rewrite has_asaas_id_with_status, E. simpl. now rewrite IH.
  - rewrite E. exact IH.
Qed.

Lemma filter_other_update_status (st id id' : string) (now : Z)
      (ps : list PaymentRow) :
  id' <> id ->
  filter (has_asaas_id id') (update_status st id now ps)
  = filter (has_asaas_id id') ps.
Proof.
  intros Hne. induction ps as [| p ps IH]; simpl; [reflexivity |].
  destruct (has_asaas_id id p) eqn:E.
  - rewrite has_asaas_id_with_status.
    unfold has_asaas_id in *. apply String.eqb_eq in E.
    destruct (String.eqb_spec (p_asaas_payment_id p) id') as [E' | _].
    + congruence.
    + exact IH.
  - destruct (has_asaas_id id' p); now rewrite IH.
Qed.

Lemma found_by_filter (id : string) (ps : list PaymentRow) :
  (exists row, In row ps /\ p_asaas_payment_id row = id) ->
  exists row rest, filter (has_asaas_id id) ps = row :: rest.
Proof.
  intros (row & Hin & Hid).
  assert (H : In row (filter (has_asaas_id id) ps)).
  { apply filter_In. split; [assumption |].
    unfold has_asaas_id. now apply String.eqb_eq. }
  destruct (filter (has_asaas_id id) ps) as [| r rest]; [destruct H | eauto].
Qed.

Lemma not_found_by_filter (id : string) (ps : list PaymentRow) :
  (forall row, In row ps -> p_asaas_payment_id row <> id) ->
  filter (has_asaas_id id) ps = [].
Proof.
  intros H. induction ps as [| p ps IH]; simpl; [reflexivity |].
  destruct (has_asaas_id id p) eqn:E.
  - apply String.eqb_eq in E. exfalso. apply (H p); simpl; auto.
  - apply IH. intros row Hin. apply H. now right.
Qed.

(** [updatePaymentStatus] on the tables, with the statements it sends. *)
Lemma updatePaymentStatus_mysql (id st : string) (w : World) (t : list Stmt) :
  interp (traced mysql) (updatePaymentStatus id st) (w, t)
  = match filter (has_asaas_id id) (payments w) with
    | [] => (Resolved false, (w, t ++ [SelectPayment id; SelectRecentPayments]))
    | row :: _ =>
        if String.eqb (p_status row) st
        then (Resolved true, (w, t ++ [SelectPayment id]))
        else (Resolved true,
              (set_payments w (update_status st id (db_now w) (payments w)),
               t ++ [SelectPayment id; UpdateStatus st id; SelectStatus id]))
    end.
Proof.
  unfold updatePaymentStatus. cbn.
  destruct (filter (has_asaas_id id) (payments w)) as [| row rest] eqn:E; cbn.
  - now rewrite <- app_assoc.
  - destruct (String.eqb (p_status row) st); cbn; [reflexivity |].
    unfold count. rewrite E. cbn. now rewrite <- !app_assoc.
Qed.

Lemma updatePaymentStatus_run (id st : string) (w : World) :
  interp mysql (updatePaymentStatus id st) w
  = (Resolved (match filter (has_asaas_id id) (payments w) with
               | [] => false
               | _ :: _ => true
               end),
     transition st id w).
Proof.
  pose proof (interp_traced mysql (updatePaymentStatus id st) w []) as (H1 & H2 & _).
  rewrite updatePaymentStatus_mysql in H1, H2. unfold transition.
  destruct (interp mysql (updatePaymentStatus id st) w) as [o w'].
  simpl in H1, H2.
  destruct (filter (has_asaas_id id) (payments w)) as [| row rest];
    [| destruct (String.eqb (p_status row) st)]; simpl in *; congruence.
Qed.

Lemma status_of_transition (st id : string) (w : World) :
  (exists row, In row (payments w) /\ p_asaas_payment_id row = id) ->
  status_of id (payments (transition st id w)) = Some st.
Proof.
  intros H. destruct (found_by_filter id (payments w) H) as (row & rest & E).
  unfold transition, status_of. rewrite E.
  destruct (String.eqb_spec (p_status row) st) as [Hs | Hs].
  - rewrite E. now rewrite Hs.
  - simpl. rewrite filter_update_status, E. reflexivity.
Qed.

Lemma transition_fixed (st id : string) (w : World) :
  transition st id (transition st id w) = transition st id w.
Proof.
  destruct (filter (has_asaas_id id) (payments w)) as [| row rest] eqn:E.
  - unfold transition. now rewrite !E.
  - destruct (String.eqb (p_status row) st) eqn:Hs.
    + unfold transition. now rewrite !E, !Hs, !E, !Hs.
    + assert (Hw : transition st id w
                   = set_payments w (update_status st id (db_now w) (payments w))).
      { unfold transition. now rewrite E, Hs. }
      rewrite Hw. unfold transition. simpl.
      rewrite filter_update_status, E. simpl.
      now rewrite String.eqb_refl.
Qed.

Lemma transition_not_found (st id : string) (w : World) :
  filter (has_asaas_id id) (payments w) = [] -> transition st id w = w.
Proof. intros E. unfold transition. now rewrite E. Qed.

(** The switch of the route on the tables: the event's handler applies
    the transition of the table of section 4.3 and nothing else. *)
Lemma dispatch_mysql (e : EventType) (p : PaymentObj) (w : World) :
  interp mysql (dispatch (event_name e) (Some p)) w
  = (Resolved tt, transition (table_status e) (po_id p) w).
Proof.
  destruct e; unfold dispatch; simpl event_name; cbn [String.eqb Ascii.eqb Bool.eqb];
    unfold handlePaymentCreated, handlePaymentAwaitingConfirmation,
      handlePaymentConfirmed, handlePaymentReceived, handlePaymentOverdue,
      handlePaymentDeleted, handlePaymentRestored, handlePaymentRefunded,
      payment_id;
    cbn [bind]; rewrite interp_bind, updatePaymentStatus_run;
    try reflexivity.
  destruct (filter (has_asaas_id (po_id p)) (payments w)); reflexivity.
Qed.

Lemma dispatch_unrecognized (ev : string) (payment : option PaymentObj) :
  unrecognized ev -> dispatch ev payment = Ret tt.
Proof.
  intros H. unfold dispatch.
  repeat match goal with
         | |- context [String.eqb ev ?s] =>
             destruct (String.eqb_spec ev s) as [E | _]
         end; try reflexivity; exfalso.
  - apply (H PAYMENT_CREATED E).
  - apply (H PAYMENT_AWAITING_CONFIRMATION E).
  - apply (H PAYMENT_CONFIRMED E).
  - apply (H PAYMENT_RECEIVED E).
  - apply (H PAYMENT_OVERDUE E).
  - apply (H PAYMENT_DELETED E).
  - apply (H PAYMENT_RESTORED E).
  - apply (H PAYMENT_REFUNDED E).
Qed.

(* ================================================================== *)
(** * Idempotence *)

(** C1. For a stored payment with external id [P]: applying a status
    transition twice in a row leaves the row in the status one
    application gives, both calls of [updatePaymentStatus] return true,
    and the second one only looks the row up (no UPDATE is sent and the
    tables are left as they are).  This holds for every target status,
    and for the handler of each of the eight event types, whose target
    is the one of the table. *)
Theorem status_transition_idempotent :
  forall (w : World) (P : string),
    (exists row, In row (payments w) /\ p_asaas_payment_id row = P) ->
    (forall st : string,
        let once := interp mysql (updatePaymentStatus P st) w in
        let twice :=
          interp (traced mysql) (updatePaymentStatus P st) (snd once, []) in
        fst once = Resolved true
        /\ fst twice = Resolved true
        /\ fst (snd twice) = snd once
        /\ snd (snd twice) = [SelectPayment P]
        /\ status_of P (payments (snd once)) = Some st
        /\ status_of P (payments (fst (snd twice))) = Some st)
    /\ (forall (e : EventType) (p : PaymentObj),
           po_id p = P ->
           let once := interp mysql (dispatch (event_name e) (Some p)) w in
           interp mysql (dispatch (event_name e) (Some p)) (snd once)
           = (Resolved tt, snd once)
           /\ status_of P (payments (snd once)) = Some (table_status e)).
Proof.
  intros w P Hrow. split.
  - intros st. cbv zeta.
    rewrite updatePaymentStatus_run. cbn [fst snd].
    rewrite updatePaymentStatus_mysql.
    pose proof (status_of_transition st P w Hrow) as Hst.
    destruct (found_by_filter P (payments w) Hrow) as (row & rest & E).
    rewrite E. unfold status_of in *.
    destruct (filter (has_asaas_id P) (payments (transition st P w)))
      as [| r rs] eqn:E'; [discriminate |].
    injection Hst as Hst. rewrite Hst, String.eqb_refl. cbn.
    rewrite E', Hst. repeat split; reflexivity.
  - intros e p Hp. cbv zeta. rewrite !dispatch_mysql. cbn [fst snd].
    rewrite transition_fixed, Hp. split; [reflexivity |].
    now apply status_of_transition.
Qed.

(* ================================================================== *)
(** * The [/asaas] route on the tables *)

Lemma update_latest_resolves (f : WebhookLogRow -> bool)
      (g : WebhookLogRow -> WebhookLogRow) (w : World) :
  exists pkt, fst (update_latest f g w) = Resolved pkt.
Proof.
  unfold update_latest. destruct (latest f (webhook_logs w) 0 None) as [[i c] |];
    simpl; eauto.
Qed.

Lemma update_latest_frame (f : WebhookLogRow -> bool)
      (g : WebhookLogRow -> WebhookLogRow) (w : World) :
  let w' := snd (update_latest f g w) in
  payments w' = payments w /\ customers w' = customers w
  /\ customer_features w' = customer_features w
  /\ payment_errors w' = payment_errors w.
Proof.
  unfold update_latest. destruct (latest f (webhook_logs w) 0 None) as [[i c] |];
    simpl; auto.
Qed.

(** Rewrites the payments after an update of webhook_logs into the
    payments before it. *)
Ltac payments_past_update_latest :=
  match goal with
  | |- context [update_latest ?f ?g ?w0] =>
      destruct (update_latest_frame f g w0) as (-> & _)
  end.

Lemma update_at_length {R : Type} (i : nat) (g : R -> R) (rows : list R) :
  length (update_at i g rows) = length rows.
Proof.
  revert i. induction rows as [| r rows IH]; intros [| i]; simpl; auto.
Qed.

Lemma update_at_In {R : Type} (i : nat) (g : R -> R) (rows : list R) (r : R) :
  In r rows -> In r (update_at i g rows) \/ In (g r) (update_at i g rows).
Proof.
  revert i. induction rows as [| x rows IH]; intros i Hin; [destruct Hin |].
  destruct Hin as [-> | Hin]; destruct i as [| i]; simpl; auto.
  destruct (IH i Hin); auto.
Qed.

Lemma records_mark_processed (body : WebhookBody) (r : WebhookLogRow) :
  records body r -> records body (mark_processed r).
Proof. intros H. exact H. Qed.

Lemma records_with_error_message (body : WebhookBody) (msg : string)
      (r : WebhookLogRow) :
  records body r -> records body (with_error_message msg r).
Proof. intros H. exact H. Qed.

(** Marking a row processed, or writing an error message on it, keeps
    every recorded delivery and the number of rows. *)
Lemma update_latest_keeps (f : WebhookLogRow -> bool)
      (g : WebhookLogRow -> WebhookLogRow) (w : World) (body : WebhookBody) :
  (forall r, records body r -> records body (g r)) ->
  (exists r, In r (webhook_logs w) /\ records body r) ->
  (exists r, In r (webhook_logs (snd (update_latest f g w))) /\ records body r)
  /\ length (webhook_logs (snd (update_latest f g w)))
     = length (webhook_logs w).
Proof.
  intros Hg (r & Hin & Hr). unfold update_latest.
  destruct (latest f (webhook_logs w) 0 None) as [[i c] |]; simpl.
  - split; [| apply update_at_length].
    destruct (update_at_In i g (webhook_logs w) r Hin); eauto.
  - eauto.
Qed.

Lemma logged_records (body : WebhookBody) (w : World) :
  exists r, In r (webhook_logs (logged body w)) /\ records body r.
Proof.
  eexists. split.
  - unfold logged. simpl. apply in_or_app. right. left. reflexivity.
  - repeat split.
Qed.

(** The route on the tables: log, dispatch, then either mark the log
    processed and answer 200, or write the error message and answer
    500. *)
Lemma postAsaas_mysql (body : WebhookBody) (w : World) :
  interp mysql (postAsaas body) w
  = match interp mysql (dispatch (event body) (payment body)) (logged body w) with
    | (Resolved _, w2) =>
        (Resolved (mkResponse 200 WebhookProcessed),
         snd (update_latest
                (fun r => opt_eqb (l_payment_id r) (id_or_null (payment body))
                          && String.eqb (l_event_type r) (event body))
                mark_processed w2))
    | (Rejected e, w2) =>
        (Resolved (mkResponse 500 (ErrorJson "Erro ao processar webhook")),
         snd (update_latest
                (fun r => opt_eqb (l_payment_id r) (id_or_null (payment body)))
                (with_error_message (message e)) w2))
    end.
Proof.
  unfold postAsaas.
  rewrite interp_tryCatch, interp_bind, interp_execute. cbn [mysql].
  fold (logged body w). rewrite interp_bind.
  destruct (interp mysql (dispatch (event body) (payment body)) (logged body w))
    as [[[] | e] w2].
  - rewrite interp_bind, interp_execute. cbn [mysql].
    destruct (update_latest_resolves
                (fun r => opt_eqb (l_payment_id r) (id_or_null (payment body))
                          && String.eqb (l_event_type r) (event body))
                mark_processed w2) as (pkt & Hp).
    destruct (update_latest _ mark_processed w2) as [o w3].
    simpl in Hp. subst o. reflexivity.
  - rewrite interp_bind, interp_tryCatch, interp_bind, interp_execute.
    cbn [mysql].
    destruct (update_latest_resolves
                (fun r => opt_eqb (l_payment_id r) (id_or_null (payment body)))
                (with_error_message (message e)) w2) as (pkt & Hp).
    destruct (update_latest _ (with_error_message (message e)) w2) as [o w3].
    simpl in Hp. subst o. reflexivity.
Qed.

Lemma event_cases (ev : string) :
  (exists e, ev = event_name e) \/ unrecognized ev.
Proof.
  destruct (existsb (fun e => String.eqb ev (event_name e)) all_events) eqn:H.
  - left. apply existsb_exists in H. destruct H as (e & _ & H).
    exists e. now apply String.eqb_eq.
  - right. intros e He.
    assert (Hex : existsb (fun e => String.eqb ev (event_name e)) all_events = true).
    { apply existsb_exists. exists e. split.
      - destruct e; simpl; tauto.
      - now apply String.eqb_eq. }
    congruence.
Qed.

(** C2. A delivery whose event is one of the eight of the table and
    whose payment id is that of a stored payment leaves that payment in
    the status of the table (created, awaiting confirmation and restored
    give PENDING, confirmed CONFIRMED, received RECEIVED, overdue
    OVERDUE, deleted CANCELLED, refunded REFUNDED) and every other payment
    in the status it had; a delivery with any other event leaves the
    payments table as it was. *)
Theorem delivery_status_matches_table :
  forall (w : World) (body : WebhookBody),
    (forall (e : EventType) (p : PaymentObj),
        event body = event_name e ->
        payment body = Some p ->
        (exists row, In row (payments w) /\ p_asaas_payment_id row = po_id p) ->
        let w' := snd (interp mysql (postAsaas body) w) in
        status_of (po_id p) (payments w') = Some (table_status e)
        /\ forall id, id <> po_id p ->
                      status_of id (payments w') = status_of id (payments w))
    /\ (unrecognized (event body) ->
        payments (snd (interp mysql (postAsaas body) w)) = payments w).
Proof.
  intros w body. split.
  - intros e p He Hp Hrow. cbv zeta. rewrite postAsaas_mysql, He, Hp.
    rewrite dispatch_mysql. cbn [snd mysql].
    payments_past_update_latest.
    split.
    + apply status_of_transition. exact Hrow.
    + intros id Hid. unfold transition. cbn [payments logged set_webhook_logs].
      destruct (filter (has_asaas_id (po_id p)) (payments w)) as [| row rest];
        [reflexivity |].
      destruct (String.eqb (p_status row) (table_status e)); [reflexivity |].
      unfold status_of. cbn. now rewrite filter_other_update_status.
  - intros Hun. rewrite postAsaas_mysql, (dispatch_unrecognized _ (payment body) Hun).
    cbn [interp snd mysql].
    payments_past_update_latest.
    reflexivity.
Qed.

Lemma dispatch_mysql_unknown (ev : string) (p : PaymentObj) (w : World) :
  filter (has_asaas_id (po_id p)) (payments w) = [] ->
  interp mysql (dispatch ev (Some p)) w = (Resolved tt, w).
Proof.
  intros Hnone. destruct (event_cases ev) as [(e & ->) | Hun].
  - now rewrite dispatch_mysql, transition_not_found.
  - now rewrite dispatch_unrecognized.
Qed.

(** C3. A delivery whose payment id is that of no stored payment is
    still logged (one row more in webhook_logs, recording the payment id,
    the event and the payload) and still answered with 200; the payments
    table is left as it was, no row added and none changed; and
    [updatePaymentStatus] on that id returns false, without throwing and
    without writing. *)
Theorem unknown_payment_logged_and_acknowledged :
  forall (w : World) (body : WebhookBody) (p : PaymentObj),
    payment body = Some p ->
    (forall row, In row (payments w) -> p_asaas_payment_id row <> po_id p) ->
    let r := interp mysql (postAsaas body) w in
    fst r = Resolved (mkResponse 200 WebhookProcessed)
    /\ (exists row, In row (webhook_logs (snd r)) /\ records body row)
    /\ length (webhook_logs (snd r)) = S (length (webhook_logs w))
    /\ payments (snd r) = payments w
    /\ forall st : string,
         interp mysql (updatePaymentStatus (po_id p) st) w = (Resolved false, w).
Proof.
  intros w body p Hp Hnone. cbv zeta.
  pose proof (not_found_by_filter (po_id p) (payments w) Hnone) as Hf.
  rewrite postAsaas_mysql, Hp, dispatch_mysql_unknown by exact Hf.
  cbn [fst snd].
  match goal with
  | |- context [update_latest ?f ?g ?w0] =>
      destruct (update_latest_frame f g w0) as (Hpay & _);
      destruct (update_latest_keeps f g w0 body
                  (records_mark_processed body) (logged_records body w))
        as (Hrec & Hlen)
  end.
  repeat split.
  - exact Hrec.
  - rewrite Hlen. unfold logged. simpl. rewrite length_app. simpl. lia.
  - exact Hpay.
  - intros st. rewrite updatePaymentStatus_run, Hf.
    now rewrite transition_not_found.
Qed.

(* ================================================================== *)
(** * Signature verification *)

Lemma length_append (s1 s2 : string) :
  String.length (s1 ++ s2) = String.length s1 + String.length s2.
Proof. induction s1 as [| c s1 IH]; simpl; [reflexivity | now rewrite IH]. Qed.

Lemma hex_digits_length (n : nat) (z : Z) :
  String.length (hex_digits n z) = n.
Proof.
  revert z. induction n as [| n IH]; intros z; simpl; [reflexivity |].
  rewrite length_append, IH. simpl. lia.
Qed.

Lemma digest_hex_not_empty (d : Z) : String.eqb (digest_hex d) "" = false.
Proof.
  apply String.eqb_neq. intros H.
  pose proof (hex_digits_length 64 (d mod 2 ^ 256)) as L.
  unfold digest_hex in H. rewrite H in L. discriminate.
Qed.

(** C4. With a secret configured (set, non-empty, not the placeholder)
    the middleware lets a request through exactly when the
    asaas-signature header is present and equal to the hexadecimal
    HMAC-SHA256 of the JSON text of the body under the secret, and
    answers every other request, with a wrong or a missing signature,
    with 401; with no secret configured it lets every request through,
    whatever the header. *)
Theorem signature_verification :
  forall (JSON_stringify : WebhookBody -> string)
         (hmac_sha256 : string -> string -> Z)
         (secret signature : option string) (body : WebhookBody),
    let verdict :=
      verifyWebhookSignature JSON_stringify hmac_sha256 secret signature body in
    (forall webhookSecret,
        secret = Some webhookSecret ->
        configured secret = true ->
        (verdict = Next
         <-> signature
             = Some (digest_hex (hmac_sha256 webhookSecret
                                             (JSON_stringify body))))
        /\ (verdict <> Next ->
            exists msg, verdict = Respond (mkResponse 401 (ErrorJson msg))))
    /\ (configured secret = false -> verdict = Next).
Proof.
  intros JSON_stringify hmac_sha256 secret signature body verdict.
  subst verdict. unfold verifyWebhookSignature, configured. split.
  - intros webhookSecret -> Hc.
    apply andb_true_iff in Hc. destruct Hc as [H1 H2].
    apply negb_true_iff in H1, H2. rewrite H1, H2. cbn [orb].
    destruct signature as [sig |].
    + destruct (String.eqb_spec sig "") as [-> | Hne].
      * split.
        -- split; [discriminate |]. intros H. injection H as H.
           pose proof (digest_hex_not_empty
                         (hmac_sha256 webhookSecret (JSON_stringify body))) as N.
           rewrite <- H in N. discriminate.
        -- intros _. eauto.
      * destruct (String.eqb_spec
                    sig (digest_hex (hmac_sha256 webhookSecret
                                                 (JSON_stringify body))))
          as [-> | Hd]; cbn [negb].
        -- split; [tauto | intros H; now elim H].
        -- split; [| eauto]. split; [discriminate |].
           intros H. injection H as H. contradiction.
    + split; [| eauto]. split; discriminate.
  - destruct secret as [s |]; [| reflexivity].
    intros Hc. apply andb_false_iff in Hc.
    destruct Hc as [H | H]; apply negb_false_iff in H; rewrite H;
      [| rewrite orb_true_r]; reflexivity.
Qed.

(* ================================================================== *)
(** * The log row comes first and stays *)

Lemma interp_Await {W A : Type} (h : Handler W) (s : Stmt)
      (k : Outcome (Reply s) -> Prog A) (w : W) :
  interp h (Await s k) w = interp h (k (fst (h s w))) (snd (h s w)).
Proof. simpl. destruct (h s w); reflexivity. Qed.

Lemma interp_invariant {W A : Type} (h : Handler W) (I : W -> Prop)
      (p : Prog A) :
  (forall s w, I w -> I (snd (h s w))) ->
  forall w, I w -> I (snd (interp h p w)).
Proof.
  intros Hh. induction p as [a | e | s k IH]; intros w Hw; simpl; auto.
  specialize (Hh s w Hw). destruct (h s w) as [o w']. apply IH. exact Hh.
Qed.

Lemma traced_faulty_run {W : Type} (plan : nat -> option Exn) (h : Handler W)
      (s : Stmt) (n : nat) (w : W) (t : list Stmt) :
  plan n = None ->
  traced (faulty plan h) s ((n, w), t)
  = (fst (h s w), ((S n, snd (h s w)), t ++ [s])).
Proof.
  intros H. unfold traced, faulty. simpl. rewrite H.
  destruct (h s w); reflexivity.
Qed.

Lemma traced_faulty_fail {W : Type} (plan : nat -> option Exn) (h : Handler W)
      (s : Stmt) (n : nat) (w : W) (t : list Stmt) (e : Exn) :
  plan n = Some e ->
  traced (faulty plan h) s ((n, w), t) = (Rejected e, ((S n, w), t ++ [s])).
Proof. intros H. unfold traced, faulty. simpl. now rewrite H. Qed.

(** No statement of [mysql] removes a recorded delivery. *)
Lemma mysql_keeps_records (body : WebhookBody) (s : Stmt) (w : World) :
  (exists r, In r (webhook_logs w) /\ records body r) ->
  exists r, In r (webhook_logs (snd (mysql s w))) /\ records body r.
Proof.
  intros H. destruct s; cbn [mysql]; try exact H.
  - destruct H as (r & Hin & Hr). exists r. split; [| exact Hr].
    simpl. apply in_or_app. now left.
  - apply update_latest_keeps; [apply records_mark_processed | exact H].
  - apply update_latest_keeps; [apply records_with_error_message | exact H].
  - destruct v; exact H.
  - destruct (customer_features w); exact H.
  - destruct (existsb _ (customers w)); exact H.
  - destruct (existsb _ (payments w) || _); exact H.
Qed.

Lemma faulty_mysql_keeps_records (body : WebhookBody)
      (plan : nat -> option Exn) (s : Stmt) (x : (nat * World) * list Stmt) :
  (exists r, In r (webhook_logs (snd (fst x))) /\ records body r) ->
  exists r,
    In r (webhook_logs (snd (fst (snd (traced (faulty plan mysql) s x)))))
    /\ records body r.
Proof.
  intros H. destruct x as [[n w] t]. simpl in H.
  destruct (plan n) as [e |] eqn:Hp.
  - rewrite (traced_faulty_fail plan mysql s n w t e Hp). exact H.
  - rewrite (traced_faulty_run plan mysql s n w t Hp).
    now apply mysql_keeps_records.
Qed.

(** The route under every plan of rejections: the INSERT of the
    delivery is the first call; carried out, its row stays to the end;
    rejected, nothing is dispatched. *)
Lemma postAsaas_logs_first :
  forall (plan : nat -> option Exn) (w : World) (body : WebhookBody),
    let r := interp (traced (faulty plan mysql)) (postAsaas body)
                    ((0, w), []) in
    (exists t,
        snd (snd r)
        = InsertWebhookLog (id_or_null (payment body)) (event body) body :: t)
    /\ (plan 0 = None ->
        exists row,
          In row (webhook_logs (snd (fst (snd r)))) /\ records body row)
    /\ (forall e,
           plan 0 = Some e ->
           fst r = Resolved (mkResponse 500
                               (ErrorJson "Erro ao processar webhook"))
           /\ payments (snd (fst (snd r))) = payments w
           /\ snd (snd r)
              = [InsertWebhookLog (id_or_null (payment body)) (event body) body;
                 SetErrorMessage (message e) (id_or_null (payment body))]).
Proof.
  intros plan w body. cbv zeta.
  unfold postAsaas. cbn [tryCatch bind execute]. rewrite interp_Await.
  split; [| split].
  - destruct (plan 0) as [e |] eqn:Hp;
      [rewrite (traced_faulty_fail plan mysql _ 0 w [] e Hp)
      | rewrite (traced_faulty_run plan mysql _ 0 w [] Hp)];
      cbn [fst snd];
      match goal with
      | |- context [interp ?h ?p ?x] =>
          destruct (interp_traced (faulty plan mysql) p (fst x) (snd x))
            as (_ & _ & t' & Ht)
      end;
      cbn [fst snd] in Ht; rewrite Ht; eexists; reflexivity.
  - intros Hp. rewrite (traced_faulty_run plan mysql _ 0 w [] Hp).
    apply (interp_invariant (traced (faulty plan mysql))
             (fun x => exists r, In r (webhook_logs (snd (fst x)))
                                 /\ records body r)).
    + intros s x. apply faulty_mysql_keeps_records.
    + cbn [fst snd mysql]. apply (logged_records body w).
  - intros e H. rewrite (traced_faulty_fail plan mysql _ 0 w [] e H). cbn.
    destruct (plan 1) as [e1 |] eqn:Hp1.
    + rewrite (traced_faulty_fail plan mysql _ 1 w _ e1 Hp1).
      repeat split; reflexivity.
    + rewrite (traced_faulty_run plan mysql _ 1 w _ Hp1). cbn [mysql].
      match goal with
      | |- context [update_latest ?f ?g ?w0] =>
          destruct (update_latest_resolves f g w0) as (pkt & Hpkt);
          destruct (update_latest_frame f g w0) as (Hpay & _);
          destruct (update_latest f g w0) as [o w3]
      end.
      simpl in Hpkt, Hpay. subst o. cbn. repeat split; auto.
Qed.

(** C5. For a request the signature middleware lets through, and
    whatever the database rejects later, the first call the route
    makes is the INSERT of the delivery (payment id or NULL, event,
    payload) into webhook_logs, before the switch and before any
    statement on payments.  When that INSERT is carried out, the row is
    in the table at the end of the request in every execution, also in
    those where a handler, the status update or the mark-processed step
    fails and the answer is 500.  When the INSERT itself is rejected,
    nothing is dispatched: the only other call is the attempt to write
    the error message, the payments are untouched and the answer is
    500.  The payment id logged is the id of the payment object when the
    body has one with a non-empty id, and NULL when the body has no
    payment object or one with an empty id. *)
Theorem delivery_logged_before_processing :
  forall (JSON_stringify : WebhookBody -> string)
         (hmac_sha256 : string -> string -> Z)
         (secret signature : option string)
         (plan : nat -> option Exn) (w : World) (body : WebhookBody),
    verifyWebhookSignature JSON_stringify hmac_sha256 secret signature body
    = Next ->
    let r := interp (traced (faulty plan mysql))
                    (asaasEndpoint JSON_stringify hmac_sha256 secret signature
                                   body)
                    ((0, w), []) in
    (exists t,
        snd (snd r)
        = InsertWebhookLog (id_or_null (payment body)) (event body) body :: t)
    /\ (plan 0 = None ->
        exists row,
          In row (webhook_logs (snd (fst (snd r)))) /\ records body row)
    /\ (forall e,
           plan 0 = Some e ->
           fst r = Resolved (mkResponse 500
                               (ErrorJson "Erro ao processar webhook"))
           /\ payments (snd (fst (snd r))) = payments w
           /\ snd (snd r)
              = [InsertWebhookLog (id_or_null (payment body)) (event body) body;
                 SetErrorMessage (message e) (id_or_null (payment body))])
    /\ (forall p,
           payment body = Some p -> po_id p <> "" ->
           (exists t,
               snd (snd r)
               = InsertWebhookLog (Some (po_id p)) (event body) body :: t)
           /\ (plan 0 = None ->
               exists row,
                 In row (webhook_logs (snd (fst (snd r))))
                 /\ l_payment_id row = Some (po_id p)
                 /\ l_event_type row = event body
                 /\ l_payload row = body))
    /\ (payment body = None
        \/ (exists p, payment body = Some p /\ po_id p = "") ->
        (exists t,
            snd (snd r) = InsertWebhookLog None (event body) body :: t)
        /\ (plan 0 = None ->
            exists row,
              In row (webhook_logs (snd (fst (snd r))))
              /\ l_payment_id row = None
              /\ l_event_type row = event body
              /\ l_payload row = body)).
Proof.
  intros JSON_stringify hmac_sha256 secret signature plan w body Hnext.
  unfold asaasEndpoint. rewrite Hnext.
  destruct (postAsaas_logs_first plan w body) as (Hfirst & Hrow & Hrej).
  cbv zeta. unfold records in Hrow.
  split; [exact Hfirst |]. split; [exact Hrow |]. split; [exact Hrej |].
  split.
  - intros p Hp Hid.
    assert (E : id_or_null (payment body) = Some (po_id p)).
    { rewrite Hp. unfold id_or_null. apply String.eqb_neq in Hid.
      now rewrite Hid. }
    rewrite E in Hfirst, Hrow. split; [exact Hfirst | exact Hrow].
  - intros Hnone.
    assert (E : id_or_null (payment body) = None).
    { destruct Hnone as [-> | (p & -> & Hid)]; [reflexivity |].
      unfold id_or_null. now rewrite Hid. }
    rewrite E in Hfirst, Hrow. split; [exact Hfirst | exact Hrow].
Qed.

(* ================================================================== *)
(** * The conditional update *)

Lemma traced_step {W : Type} (h : Handler W) (s : Stmt) (w : W)
      (t : list Stmt) :
  traced h s (w, t) = (fst (h s w), (snd (h s w), t ++ [s])).
Proof. unfold traced. simpl. destruct (h s w); reflexivity. Qed.

Lemma update_status_rows (st id : string) (now : Z) (ps : list PaymentRow) :
  Forall2 (fun p p' =>
             same_but_status p p'
             /\ (p_asaas_payment_id p = id ->
                 p_status p' = st /\ p_updated_at p' = now)
             /\ (p_asaas_payment_id p <> id -> p' = p))
          ps (update_status st id now ps).
Proof.
  induction ps as [| p ps IH]; simpl; constructor; [| exact IH].
  unfold has_asaas_id. destruct (String.eqb_spec (p_asaas_payment_id p) id).
  - split; [repeat split | split]; simpl; auto. intros; contradiction.
  - split; [repeat split | split]; auto. intros; contradiction.
Qed.

(** C6. The UPDATE of [updatePaymentStatus] touches the payments table
    only: the rows whose asaas_payment_id is the one given get the new
    status and the current timestamp and keep every other column, the
    other rows are unchanged.  When the lookup has found the row with
    another status, that UPDATE is the next statement sent; and when it
    then reports zero affected rows, the function returns false: it
    sends nothing more (no second attempt) and it does not throw. *)
Theorem conditional_update_zero_rows :
  (forall (w : World) (st id : string),
      let w' := snd (mysql (UpdateStatus st id) w) in
      customers w' = customers w
      /\ webhook_logs w' = webhook_logs w
      /\ customer_features w' = customer_features w
      /\ Forall2 (fun p p' =>
                    same_but_status p p'
                    /\ (p_asaas_payment_id p = id ->
                        p_status p' = st /\ p_updated_at p' = db_now w)
                    /\ (p_asaas_payment_id p <> id -> p' = p))
                 (payments w) (payments w'))
  /\ (forall (W : Type) (h : Handler W) (w w1 : W) (id st : string)
             (row : PaymentRow) (rows : list PaymentRow),
         h (SelectPayment id) w = (Resolved (row :: rows), w1) ->
         p_status row <> st ->
         (exists t,
             snd (snd (interp (traced h) (updatePaymentStatus id st) (w, [])))
             = SelectPayment id :: UpdateStatus st id :: t)
         /\ forall (pkt : OkPacket) (w2 : W),
              h (UpdateStatus st id) w1 = (Resolved pkt, w2) ->
              affectedRows pkt = 0 ->
              interp (traced h) (updatePaymentStatus id st) (w, [])
              = (Resolved false,
                 (w2, [SelectPayment id; UpdateStatus st id]))).
Proof.
  split.
  - intros w st id. cbn. repeat split. apply update_status_rows.
  - intros W h w w1 id st row rows Hsel Hne.
    unfold updatePaymentStatus. cbn [tryCatch bind execute].
    rewrite interp_Await, traced_step, Hsel. cbn [fst snd tryCatch bind].
    apply String.eqb_neq in Hne. rewrite Hne. cbn [tryCatch bind].
    rewrite interp_Await, traced_step. cbn [fst snd app].
    split.
    + match goal with
      | |- context [interp ?hh ?p ?x] =>
          destruct (interp_traced h p (fst x) (snd x)) as (_ & _ & t' & Ht)
      end.
      cbn [fst snd] in Ht. rewrite Ht. eexists. reflexivity.
    + intros pkt w2 Hupd Hz. rewrite Hupd. cbn [fst snd tryCatch bind].
      rewrite Hz. reflexivity.
Qed.

(* ================================================================== *)
(** * Activation after a received payment *)

Lemma transition_frame (st id : string) (w : World) :
  customers (transition st id w) = customers w
  /\ webhook_logs (transition st id w) = webhook_logs w
  /\ customer_features (transition st id w) = customer_features w
  /\ db_now (transition st id w) = db_now w.
Proof.
  unfold transition.
  destruct (filter (has_asaas_id id) (payments w)) as [| row rest]; auto.
  destruct (String.eqb (p_status row) st); auto.
Qed.

Lemma transition_payments (st id : string) (w1 w2 : World) :
  payments w1 = payments w2 -> db_now w1 = db_now w2 ->
  payments (transition st id w1) = payments (transition st id w2).
Proof.
  intros Hp Hn. unfold transition. rewrite Hp.
  destruct (filter (has_asaas_id id) (payments w2)) as [| row rest]; auto.
  destruct (String.eqb (p_status row) st); auto.
  simpl. now rewrite Hn.
Qed.

Lemma dispatch_no_payment {W : Type} (h : Handler W) (e : EventType) (w : W) :
  interp h (dispatch (event_name e) None) w
  = (Rejected (TypeError "Cannot read properties of undefined (reading 'id')"),
     w).
Proof. destruct e; reflexivity. Qed.

(** What the switch of the route leaves of the tables: the payments of
    the transition, everything else as it was. *)
Lemma dispatch_mysql_frame (ev : string) (pay : option PaymentObj) (w : World) :
  let w' := snd (interp mysql (dispatch ev pay) w) in
  customers w' = customers w
  /\ webhook_logs w' = webhook_logs w
  /\ customer_features w' = customer_features w
  /\ db_now w' = db_now w.
Proof.
  cbv zeta. destruct (event_cases ev) as [(e & ->) | Hun].
  - destruct pay as [p |].
    + rewrite dispatch_mysql. apply transition_frame.
    + rewrite dispatch_no_payment. auto.
  - rewrite dispatch_unrecognized by exact Hun. auto.
Qed.

Lemma dispatch_mysql_payments (ev : string) (pay : option PaymentObj)
      (w1 w2 : World) :
  payments w1 = payments w2 -> db_now w1 = db_now w2 ->
  payments (snd (interp mysql (dispatch ev pay) w1))
  = payments (snd (interp mysql (dispatch ev pay) w2)).
Proof.
  intros Hp Hn. destruct (event_cases ev) as [(e & ->) | Hun].
  - destruct pay as [p |].
    + rewrite !dispatch_mysql. now apply transition_payments.
    + rewrite !dispatch_no_payment. exact Hp.
  - rewrite dispatch_unrecognized by exact Hun. exact Hp.
Qed.

(** No delivery writes to customer_features: the activation ends at the
    unbound helper before its first statement. *)
Lemma delivery_never_writes_features (w : World) (body : WebhookBody) :
  customer_features (snd (interp mysql (postAsaas body) w))
  = customer_features w.
Proof.
  rewrite postAsaas_mysql.
  destruct (dispatch_mysql_frame (event body) (payment body) (logged body w))
    as (_ & _ & Hf & _).
  destruct (interp mysql (dispatch (event body) (payment body)) (logged body w))
    as [[[] | e] w2]; cbn [snd] in *;
    match goal with
    | |- context [update_latest ?f ?g ?w0] =>
        destruct (update_latest_frame f g w0) as (_ & _ & -> & _)
    end; exact Hf.
Qed.

(** C7, at the scenario of the design.  A PAYMENT_RECEIVED delivery for
    pay_123, stored as PENDING for a customer on the ESSENCIAL plan, is
    answered with 200 and the payment becomes RECEIVED, but no feature
    row is written for the customer and no upsert is ever sent:
    [activateCustomerServices] is invoked and stops at its first line,
    the call of the helper the module does not define. *)
Theorem received_payment_leaves_no_feature_row :
  let r := interp (traced mysql) (postAsaas received_pay_123) (shop, []) in
  fst r = Resolved (mkResponse 200 WebhookProcessed)
  /\ status_of "pay_123" (payments shop) = Some "PENDING"
  /\ status_of "pay_123" (payments (fst (snd r))) = Some "RECEIVED"
  /\ customer_features (fst (snd r)) = Some []
  /\ forall cid name, ~ In (UpsertFeature cid name) (snd (snd r)).
Proof.
  cbv zeta. repeat split; try reflexivity.
  intros cid name H. vm_compute in H.
  repeat (destruct H as [H | H]; [discriminate |]). exact H.
Qed.

(** With a helper that returns, the same activation writes the feature
    row of the plan: the rest of the function is in place. *)
Example activation_with_a_helper :
  customer_features
    (snd (interp mysql (activateCustomerServicesWith (Ret tt) "pay_123") shop))
  = Some [mkFeature 1 "basic_features" true 20 None].
Proof. reflexivity. Qed.

(* ================================================================== *)
(** * Reprocessing a stored delivery *)

Lemma redispatch_reprocessable (ev : string) (pay : option PaymentObj) :
  reprocessable ev = true -> redispatch ev pay = dispatch ev pay.
Proof.
  unfold reprocessable, redispatch, dispatch. intros H.
  destruct (String.eqb_spec ev "PAYMENT_CREATED") as [-> | _]; [reflexivity |].
  destruct (String.eqb_spec ev "PAYMENT_RECEIVED") as [-> | _]; [reflexivity |].
  destruct (String.eqb_spec ev "PAYMENT_OVERDUE") as [-> | _]; [reflexivity |].
  discriminate.
Qed.

Lemma redispatch_other (ev : string) (pay : option PaymentObj) :
  reprocessable ev = false -> redispatch ev pay = Ret tt.
Proof.
  unfold reprocessable, redispatch. intros H.
  destruct (String.eqb ev "PAYMENT_CREATED"); [discriminate |].
  destruct (String.eqb ev "PAYMENT_RECEIVED"); [discriminate |].
  destruct (String.eqb ev "PAYMENT_OVERDUE"); [discriminate |].
  reflexivity.
Qed.

(** The reprocessing route on the tables, for a stored log row: when
    [JSON.parse] throws the route answers 500 and the tables are as
    they were; when it returns a payload the tables at the end are those
    the switch of the route leaves, and the answer is 500 as well, since
    the UPDATE that follows names a column webhook_logs does not have. *)
Lemma postReprocessWith_mysql
      (JSON_parse : WebhookBody -> Outcome WebhookBody) (id : nat) (w : World)
      (log : WebhookLogRow) (rest : list WebhookLogRow) :
  filter (fun r => Nat.eqb (l_id r) id) (webhook_logs w) = log :: rest ->
  interp mysql (postReprocessWith JSON_parse id) w
  = (Resolved (mkResponse 500 (ErrorJson "Erro ao reprocessar webhook")),
     match JSON_parse (l_payload log) with
     | Resolved payload =>
         snd (interp mysql (redispatch (event payload) (payment payload)) w)
     | Rejected _ => w
     end).
Proof.
  intros Hlog. unfold postReprocessWith.
  rewrite interp_tryCatch, interp_bind, interp_execute. cbn [mysql].
  rewrite Hlog, interp_bind.
  destruct (JSON_parse (l_payload log)) as [payload | e]; cbn [settle interp].
  - rewrite interp_bind.
    destruct (interp mysql (redispatch (event payload) (payment payload)) w)
      as [[[] | e] w2]; reflexivity.
  - reflexivity.
Qed.

Lemma postReprocess_mysql (id : nat) (w : World) (log : WebhookLogRow)
      (rest : list WebhookLogRow) :
  filter (fun r => Nat.eqb (l_id r) id) (webhook_logs w) = log :: rest ->
  interp mysql (postReprocess id) w
  = (Resolved (mkResponse 500 (ErrorJson "Erro ao reprocessar webhook")), w).
Proof.
  intros Hlog. unfold postReprocess.
  now rewrite (postReprocessWith_mysql _ id w log rest Hlog).
Qed.

Lemma postAsaas_mysql_frame (body : WebhookBody) (w : World) :
  payments (snd (interp mysql (postAsaas body) w))
  = payments (snd (interp mysql (dispatch (event body) (payment body)) w))
  /\ customer_features (snd (interp mysql (postAsaas body) w))
     = customer_features w
  /\ customers (snd (interp mysql (postAsaas body) w)) = customers w.
Proof.
  rewrite postAsaas_mysql.
  pose proof (dispatch_mysql_payments (event body) (payment body)
                (logged body w) w eq_refl eq_refl) as Hp.
  destruct (dispatch_mysql_frame (event body) (payment body) (logged body w))
    as (Hc & _ & Hf & _).
  destruct (interp mysql (dispatch (event body) (payment body)) (logged body w))
    as [[[] | e] w2]; cbn [snd] in *;
    match goal with
    | |- context [update_latest ?f ?g ?w0] =>
        destruct (update_latest_frame f g w0) as (-> & -> & -> & _)
    end; auto.
Qed.

(** C9 as stated fails: the stored delivery of PAYMENT_CONFIRMED for
    pay_123 moves the payment to CONFIRMED when delivered and leaves it
    PENDING when reprocessed. *)
Lemma reprocess_skips_confirmed : ~ reprocess_replays_delivery archive 1.
Proof.
  intros H. destruct (H _ _ eq_refl) as [Hp _].
  vm_compute in Hp. discriminate.
Qed.

(** C9, amended.  For a stored log row whose event is not one of
    PAYMENT_CREATED, PAYMENT_RECEIVED and PAYMENT_OVERDUE, the events the
    switch of the reprocessing route has a case for, reprocessing runs no
    handler: payments, customers and customer features are left as they
    were, whatever the delivery of that payload did to them.  This holds
    of the route as it runs, and of the route with any [JSON.parse] that
    throws or gives back the stored document. *)
Theorem reprocess_leaves_other_events_alone :
  forall (w : World) (id : nat) (log : WebhookLogRow)
         (rest : list WebhookLogRow),
    filter (fun r => Nat.eqb (l_id r) id) (webhook_logs w) = log :: rest ->
    reprocessable (event (l_payload log)) = false ->
    (let reprocessed := snd (interp mysql (postReprocess id) w) in
     payments reprocessed = payments w
     /\ customers reprocessed = customers w
     /\ customer_features reprocessed = customer_features w)
    /\ forall JSON_parse : WebhookBody -> Outcome WebhookBody,
        (forall payload,
            JSON_parse (l_payload log) = Resolved payload ->
            payload = l_payload log) ->
        let reprocessed :=
          snd (interp mysql (postReprocessWith JSON_parse id) w) in
        payments reprocessed = payments w
        /\ customers reprocessed = customers w
        /\ customer_features reprocessed = customer_features w.
Proof.
  intros w id log rest Hlog Hother. cbv zeta. split.
  - rewrite (postReprocess_mysql id w log rest Hlog). auto.
  - intros JSON_parse Hparse.
    rewrite (postReprocessWith_mysql JSON_parse id w log rest Hlog).
    destruct (JSON_parse (l_payload log)) as [payload | e]; cbn [snd]; auto.
    rewrite (Hparse payload eq_refl), (redispatch_other _ _ Hother). auto.
Qed.

(* ================================================================== *)
(** * Payment creation: find or create the customer *)

Lemma traced_bind_execute {W A : Type} (h : Handler W) (s : Stmt)
      (k : Reply s -> Prog A) (w : W) (t : list Stmt) :
  interp (traced h) (bind (execute s) k) (w, t)
  = match h s w with
    | (Resolved r, w') => interp (traced h) (k r) (w', t ++ [s])
    | (Rejected e, w') => (Rejected e, (w', t ++ [s]))
    end.
Proof.
  cbn [bind execute]. rewrite interp_Await, traced_step.
  destruct (h s w) as [[r | e] w']; reflexivity.
Qed.

(** The charge: two readings of the clock, the gateway call with the
    customer reference it was given, then at most the INSERT into
    payments.  The customers table is not touched. *)
Lemma createCharge_mysql (b : PaymentRequest) (cid : nat)
      (aid : option string) (w : World) (t : list Stmt) :
  let r := interp (traced mysql) (createCharge b cid aid) (w, t) in
  customers (fst (snd r)) = customers w
  /\ db_now (fst (snd r)) = db_now w
  /\ exists pd t',
      snd (snd r) = t ++ DateNow :: DateNow :: CreatePayment pd :: t'
      /\ pd_customer pd = aid
      /\ Forall (fun s => creates_customer s = false) t'.
Proof.
  cbv zeta. unfold createCharge.
  rewrite traced_bind_execute. cbn [mysql].
  rewrite traced_bind_execute. cbn [mysql].
  rewrite traced_bind_execute. cbn [mysql].
  rewrite <- !app_assoc. cbn [app].
  match goal with
  | |- context [asaas_createPayment w ?pd] =>
      destruct (asaas_createPayment w pd) as [ap | e]
  end.
  - destruct (ap_id ap) as [apid |].
    + destruct (String.eqb apid "").
      * cbn. repeat split. eexists _, []. repeat split. constructor.
      * rewrite traced_bind_execute. cbn [mysql].
        destruct (existsb (has_asaas_id apid) (payments w)
                  || negb (existsb (fun c => Nat.eqb (c_id c) cid)
                                   (customers w))).
        -- cbn. repeat split. rewrite <- app_assoc. cbn [app].
           eexists _, [_]. repeat split. repeat constructor.
        -- cbn. repeat split. rewrite <- app_assoc. cbn [app].
           eexists _, [_]. repeat split. repeat constructor.
    + cbn. repeat split. eexists _, []. repeat split. constructor.
  - cbn. repeat split. eexists _, []. repeat split. constructor.
Qed.

Lemma paymentFailed_mysql (env : option string) (b : PaymentRequest)
      (e : Exn) (w : World) (t : list Stmt) :
  let r := interp (traced mysql) (paymentFailed env b e) (w, t) in
  customers (fst (snd r)) = customers w
  /\ snd (snd r) = t ++ [InsertPaymentError (message e) b].
Proof.
  cbv zeta. unfold paymentFailed. cbn. split; reflexivity.
Qed.

Lemma findOrCreateCustomer_found (b : PaymentRequest) (w : World)
      (existing : CustomerRow) (others : list CustomerRow) :
  filter (matches_customer (email b) (cpf b)) (customers w)
  = existing :: others ->
  interp (traced mysql) (findOrCreateCustomer b) (w, [])
  = (Resolved (c_id existing, c_asaas_customer_id existing),
     (set_customers w
        (map (fun c => if Nat.eqb (c_id c) (c_id existing)
                       then refreshed (nome b) (telefone b) (db_now w) c
                       else c)
             (customers w)),
      [SelectCustomer (email b) (cpf b);
       UpdateCustomer (nome b) (telefone b) (c_id existing)])).
Proof.
  intros Hf. unfold findOrCreateCustomer.
  rewrite traced_bind_execute. cbn [mysql]. rewrite Hf.
  rewrite traced_bind_execute. cbn [mysql]. reflexivity.
Qed.

Lemma no_clash (b : PaymentRequest) (w : World) (aid : string) :
  filter (matches_customer (email b) (cpf b)) (customers w) = [] ->
  (forall c, In c (customers w) -> c_asaas_customer_id c <> Some aid) ->
  existsb (customer_clash (cpf b) (email b) aid) (customers w) = false.
Proof.
  intros Hf Hfresh.
  destruct (existsb (customer_clash (cpf b) (email b) aid) (customers w)) eqn:E;
    [| reflexivity].
  apply existsb_exists in E. destruct E as (c & Hin & Hc). exfalso.
  assert (Hm : matches_customer (email b) (cpf b) c = false).
  { destruct (matches_customer (email b) (cpf b) c) eqn:M; [| reflexivity].
    assert (Hin' : In c (filter (matches_customer (email b) (cpf b))
                                (customers w)))
      by (apply filter_In; auto).
    rewrite Hf in Hin'. destruct Hin'. }
  unfold matches_customer in Hm. apply orb_false_iff in Hm.
  destruct Hm as [He Hcp].
  unfold customer_clash in Hc. rewrite He, Hcp in Hc. cbn [orb] in Hc.
  specialize (Hfresh c Hin).
  destruct (c_asaas_customer_id c) as [x |]; [| discriminate].
  simpl in Hc. apply String.eqb_eq in Hc. congruence.
Qed.

Lemma findOrCreateCustomer_created (b : PaymentRequest) (w : World)
      (aid json : string) :
  filter (matches_customer (email b) (cpf b)) (customers w) = [] ->
  asaas_createCustomer w
    (mkCustomerData (nome b) (cpf b) (email b) (telefone b))
  = Resolved (mkAsaasCustomer (Some aid) json) ->
  aid <> "" ->
  (forall c, In c (customers w) -> c_asaas_customer_id c <> Some aid) ->
  interp (traced mysql) (findOrCreateCustomer b) (w, [])
  = (Resolved (next_id c_id (customers w), Some aid),
     (set_customers w
        (customers w
         ++ [mkCustomer (next_id c_id (customers w)) (nome b) (cpf b)
                        (email b) (telefone b) (Some aid)
                        (db_now w) (db_now w)]),
      [SelectCustomer (email b) (cpf b);
       CreateCustomer (mkCustomerData (nome b) (cpf b) (email b) (telefone b));
       InsertCustomer (nome b) (cpf b) (email b) (telefone b) aid])).
Proof.
  intros Hf Hgw Hne Hfresh. unfold findOrCreateCustomer.
  rewrite traced_bind_execute. cbn [mysql]. rewrite Hf.
  rewrite traced_bind_execute. cbn [mysql]. rewrite Hgw. cbn [ac_id].
  apply String.eqb_neq in Hne. rewrite Hne.
  rewrite traced_bind_execute. cbn [mysql].
  rewrite (no_clash b w aid Hf Hfresh). reflexivity.
Qed.

(** After the customer step, the rest of the handler leaves the
    customers table alone and creates no customer anywhere. *)
Lemma after_customer_step (env : option string) (b : PaymentRequest)
      (cid : nat) (aid : option string) (w : World) (t : list Stmt) :
  let r := interp (traced mysql)
                  (tryCatch (createCharge b cid aid) (paymentFailed env b))
                  (w, t) in
  customers (fst (snd r)) = customers w
  /\ exists pd t',
      snd (snd r) = t ++ DateNow :: DateNow :: CreatePayment pd :: t'
      /\ pd_customer pd = aid
      /\ Forall (fun s => creates_customer s = false) t'.
Proof.
  cbv zeta. rewrite interp_tryCatch.
  destruct (createCharge_mysql b cid aid w t)
    as (Hc & _ & pd & t' & Ht & Hpd & Hall).
  destruct (interp (traced mysql) (createCharge b cid aid) (w, t))
    as [[res | e] [w1 t1]]; cbn [fst snd] in *.
  - split; [exact Hc |]. exists pd, t'. auto.
  - destruct (paymentFailed_mysql env b e w1 t1) as (Hc' & Ht').
    split; [congruence |].
    exists pd, (t' ++ [InsertPaymentError (message e) b]).
    split; [| split; [exact Hpd |]].
    + rewrite Ht', Ht, <- app_assoc. reflexivity.
    + apply Forall_app. split; [exact Hall | repeat constructor].
Qed.

Lemma interp_tryCatch_bind {W A B : Type} (h : Handler W) (p : Prog A)
      (k : A -> Prog B) (c : Exn -> Prog B) (w w1 : W) (a : A) :
  interp h p w = (Resolved a, w1) ->
  interp h (tryCatch (bind p k) c) w = interp h (tryCatch (k a) c) w1.
Proof.
  intros H. rewrite !interp_tryCatch, interp_bind, H. reflexivity.
Qed.

Lemma paymentFailed_run (env : option string) (b : PaymentRequest) (e : Exn)
      (w : World) (t : list Stmt) :
  interp (traced mysql) (paymentFailed env b e) (w, t)
  = (Resolved (internal_error env e),
     (with_payment_error e b w, t ++ [InsertPaymentError (message e) b])).
Proof. reflexivity. Qed.

(** The rows of customers before and after the refresh of the customer
    [id]: that row has the name and phone given and the current
    timestamp, every other column and every other row is as it was. *)
Lemma refreshed_rows (id : nat) (nm tel : string) (now : Z)
      (cs : list CustomerRow) :
  Forall2 (fun c c' =>
             c_id c' = c_id c /\ c_cpf c' = c_cpf c
             /\ c_email c' = c_email c
             /\ c_asaas_customer_id c' = c_asaas_customer_id c
             /\ c_created_at c' = c_created_at c
             /\ (c_id c = id ->
                 c_nome c' = nm /\ c_telefone c' = tel
                 /\ c_updated_at c' = now)
             /\ (c_id c <> id -> c' = c))
          cs
          (map (fun c => if Nat.eqb (c_id c) id then refreshed nm tel now c
                         else c) cs).
Proof.
  induction cs as [| c cs IH]; cbn [map]; constructor; [| exact IH].
  destruct (Nat.eqb_spec (c_id c) id) as [E | E].
  - cbn. repeat split; auto. contradiction.
  - repeat split; auto; contradiction.
Qed.

(** C8 as stated fails: at a shop whose gateway answers the creation of
    a customer with the identifier a stored customer already carries, a
    valid request that matches no stored customer inserts no row. *)
Lemma same_reference_inserts_nothing :
  ~ inserted_when_new has_at shop_same_reference bia.
Proof.
  unfold inserted_when_new. intros H.
  assert (V : validate has_at bia = None) by reflexivity.
  assert (F : filter (matches_customer (email bia) (cpf bia))
                     (customers shop_same_reference) = []) by reflexivity.
  assert (G : exists aid json,
             aid <> ""
             /\ asaas_createCustomer shop_same_reference
                  (mkCustomerData (nome bia) (cpf bia) (email bia)
                                  (telefone bia))
                = Resolved (mkAsaasCustomer (Some aid) json)).
  { exists "cus_1", "{}". split; [discriminate | reflexivity]. }
  destruct (H V F G) as (row & E).
  apply (f_equal (@length CustomerRow)) in E.
  vm_compute in E. discriminate.
Qed.

(** C8, amended.  For a request that passes validation: when its email
    or its cpf is that of a stored customer, the handler inserts no
    customer: the table keeps its rows, the customer found gets the name
    and the phone of the request and the current timestamp and keeps
    every other column, the other rows are untouched, no customer is made
    at the gateway, and the charge is created with the remote reference
    stored for that customer.  When neither matches and the gateway
    answers the creation with an identifier: if no stored customer
    carries that identifier, exactly one row is added to customers,
    holding the request's data and the identifier, and the INSERT comes
    after the gateway call; if a stored customer carries it, the UNIQUE
    key on asaas_customer_id refuses the INSERT, no row is added and the
    answer is 500. *)
Theorem customer_found_or_created :
  forall (joi_email : string -> bool) (node_env : option string)
         (w : World) (b : PaymentRequest),
    validate joi_email b = None ->
    let r := interp (traced mysql)
                    (createPaymentHandler joi_email node_env b) (w, []) in
    let w' := fst (snd r) in
    let calls := snd (snd r) in
    (forall existing others,
        filter (matches_customer (email b) (cpf b)) (customers w)
        = existing :: others ->
        customers w'
        = map (fun c => if Nat.eqb (c_id c) (c_id existing)
                        then refreshed (nome b) (telefone b) (db_now w) c
                        else c)
              (customers w)
        /\ length (customers w') = length (customers w)
        /\ (exists pd t,
            calls = SelectCustomer (email b) (cpf b)
                    :: UpdateCustomer (nome b) (telefone b) (c_id existing)
                    :: DateNow :: DateNow :: CreatePayment pd :: t
            /\ pd_customer pd = c_asaas_customer_id existing
            /\ Forall (fun s => creates_customer s = false) t)
        /\ Forall2 (fun c c' =>
                      c_id c' = c_id c /\ c_cpf c' = c_cpf c
                      /\ c_email c' = c_email c
                      /\ c_asaas_customer_id c' = c_asaas_customer_id c
                      /\ c_created_at c' = c_created_at c
                      /\ (c_id c = c_id existing ->
                          c_nome c' = nome b /\ c_telefone c' = telefone b
                          /\ c_updated_at c' = db_now w)
                      /\ (c_id c <> c_id existing -> c' = c))
                   (customers w) (customers w'))
    /\ (filter (matches_customer (email b) (cpf b)) (customers w) = [] ->
        forall aid json,
          asaas_createCustomer w
            (mkCustomerData (nome b) (cpf b) (email b) (telefone b))
          = Resolved (mkAsaasCustomer (Some aid) json) ->
          aid <> "" ->
          (forall c, In c (customers w) -> c_asaas_customer_id c <> Some aid) ->
          customers w'
          = customers w
            ++ [mkCustomer (next_id c_id (customers w)) (nome b) (cpf b)
                           (email b) (telefone b) (Some aid)
                           (db_now w) (db_now w)]
          /\ exists pd t,
              calls = SelectCustomer (email b) (cpf b)
                      :: CreateCustomer (mkCustomerData (nome b) (cpf b)
                                                        (email b) (telefone b))
                      :: InsertCustomer (nome b) (cpf b) (email b)
                                        (telefone b) aid
                      :: DateNow :: DateNow :: CreatePayment pd :: t
              /\ pd_customer pd = Some aid
              /\ Forall (fun s => creates_customer s = false) t)
    /\ (filter (matches_customer (email b) (cpf b)) (customers w) = [] ->
        forall aid json c,
          asaas_createCustomer w
            (mkCustomerData (nome b) (cpf b) (email b) (telefone b))
          = Resolved (mkAsaasCustomer (Some aid) json) ->
          aid <> "" ->
          In c (customers w) -> c_asaas_customer_id c = Some aid ->
          customers w' = customers w
          /\ status_is_500 (fst r)
          /\ calls = [SelectCustomer (email b) (cpf b);
                      CreateCustomer (mkCustomerData (nome b) (cpf b)
                                                     (email b) (telefone b));
                      InsertCustomer (nome b) (cpf b) (email b)
                                     (telefone b) aid;
                      InsertPaymentError "Duplicate entry" b]).
Proof.
  intros joi_email node_env w b Hvalid. cbv zeta.
  unfold createPaymentHandler. rewrite Hvalid. split; [| split].
  - intros existing others Hf.
    rewrite (interp_tryCatch_bind _ _ _ _ _ _ _
               (findOrCreateCustomer_found b w existing others Hf)).
    cbn [fst snd].
    match goal with
    | |- context [interp _ (tryCatch (createCharge b ?cid ?aid) _) (?w1, ?t1)] =>
        destruct (after_customer_step node_env b cid aid w1 t1)
          as (Hc & pd & t' & Ht & Hpd & Hall)
    end.
    rewrite Hc. cbn [customers set_customers].
    split; [reflexivity |]. split; [apply length_map |].
    split; [exists pd, t'; auto |].
    apply (refreshed_rows (c_id existing) (nome b) (telefone b) (db_now w)).
  - intros Hf aid json Hgw Hne Hfresh.
    rewrite (interp_tryCatch_bind _ _ _ _ _ _ _
               (findOrCreateCustomer_created b w aid json Hf Hgw Hne Hfresh)).
    cbn [fst snd].
    match goal with
    | |- context [interp _ (tryCatch (createCharge b ?cid ?a) _) (?w1, ?t1)] =>
        destruct (after_customer_step node_env b cid a w1 t1)
          as (Hc & pd & t' & Ht & Hpd & Hall)
    end.
    rewrite Hc. cbn [customers set_customers].
    split; [reflexivity |].
    exists pd, t'. auto.
  - intros Hf aid json c Hgw Hne Hin Hc.
    assert (Hclash : existsb (customer_clash (cpf b) (email b) aid)
                             (customers w) = true).
    { apply existsb_exists. exists c. split; [exact Hin |].
      unfold customer_clash. rewrite Hc. cbn [opt_eqb].
      rewrite String.eqb_refl. now rewrite orb_true_r. }
    assert (Hstep : interp (traced mysql) (findOrCreateCustomer b) (w, [])
                    = (Rejected (SqlError "Duplicate entry"),
                       (w, [SelectCustomer (email b) (cpf b);
                            CreateCustomer
                              (mkCustomerData (nome b) (cpf b) (email b)
                                              (telefone b));
                            InsertCustomer (nome b) (cpf b) (email b)
                                           (telefone b) aid]))).
    { unfold findOrCreateCustomer.
      rewrite traced_bind_execute. cbn [mysql]. rewrite Hf.
      rewrite traced_bind_execute. cbn [mysql]. rewrite Hgw. cbn [ac_id].
      apply String.eqb_neq in Hne. rewrite Hne.
      rewrite traced_bind_execute. cbn [mysql]. rewrite Hclash. reflexivity. }
    rewrite interp_tryCatch, interp_bind, Hstep, paymentFailed_run.
    cbn [fst snd]. split; [reflexivity |].
    split; [eexists; reflexivity | reflexivity].
Qed.

(* ================================================================== *)
(** * The theorems at the example shop *)

Lemma status_transition_idempotent_witness :
  (exists row, In row (payments shop) /\ p_asaas_payment_id row = "pay_123")
  /\ fst (interp mysql (updatePaymentStatus "pay_123" "RECEIVED") shop)
     = Resolved true
  /\ interp mysql (dispatch "PAYMENT_RECEIVED"
                            (Some (mkPaymentObj "pay_123" None None)))
            (snd (interp mysql (dispatch "PAYMENT_RECEIVED"
                                  (Some (mkPaymentObj "pay_123" None None)))
                         shop))
     = (Resolved tt,
        snd (interp mysql (dispatch "PAYMENT_RECEIVED"
                             (Some (mkPaymentObj "pay_123" None None)))
                    shop)).
Proof.
  assert (H : exists row,
             In row (payments shop) /\ p_asaas_payment_id row = "pay_123").
  { exists pay_123. split; [simpl; auto | reflexivity]. }
  split; [exact H |].
  destruct (status_transition_idempotent shop "pay_123" H) as [H1 H2].
  split.
  - exact (proj1 (H1 "RECEIVED")).
  - exact (proj1 (H2 PAYMENT_RECEIVED (mkPaymentObj "pay_123" None None)
                     eq_refl)).
Defined.

Lemma delivery_status_matches_table_witness :
  (event received_pay_123 = event_name PAYMENT_RECEIVED
   /\ payment received_pay_123 = Some (mkPaymentObj "pay_123" None None)
   /\ (exists row, In row (payments shop) /\ p_asaas_payment_id row = "pay_123")
   /\ status_of "pay_123"
        (payments (snd (interp mysql (postAsaas received_pay_123) shop)))
      = Some "RECEIVED")
  /\ (unrecognized (event updated_pay_123)
      /\ payments (snd (interp mysql (postAsaas updated_pay_123) shop))
         = payments shop).
Proof.
  assert (H : exists row,
             In row (payments shop) /\ p_asaas_payment_id row = "pay_123").
  { exists pay_123. split; [simpl; auto | reflexivity]. }
  assert (U : unrecognized (event updated_pay_123)).
  { intros e. destruct e; discriminate. }
  split.
  - split; [reflexivity |]. split; [reflexivity |]. split; [exact H |].
    exact (proj1 (proj1 (delivery_status_matches_table shop received_pay_123)
                        PAYMENT_RECEIVED (mkPaymentObj "pay_123" None None)
                        eq_refl eq_refl H)).
  - split; [exact U |].
    exact (proj2 (delivery_status_matches_table shop updated_pay_123) U).
Defined.

Lemma unknown_payment_logged_and_acknowledged_witness :
  payment received_pay_999 = Some (mkPaymentObj "pay_999" None None)
  /\ (forall row, In row (payments shop) -> p_asaas_payment_id row <> "pay_999")
  /\ fst (interp mysql (postAsaas received_pay_999) shop)
     = Resolved (mkResponse 200 WebhookProcessed)
  /\ payments (snd (interp mysql (postAsaas received_pay_999) shop))
     = payments shop.
Proof.
  assert (H : forall row,
             In row (payments shop) -> p_asaas_payment_id row <> "pay_999").
  { intros row [<- | []]. discriminate. }
  split; [reflexivity |]. split; [exact H |].
  destruct (unknown_payment_logged_and_acknowledged
              shop received_pay_999 (mkPaymentObj "pay_999" None None)
              eq_refl H) as (H1 & _ & _ & H4 & _).
  split; [exact H1 | exact H4].
Defined.

Lemma signature_verification_witness :
  (Some "s3cret" = Some "s3cret"
   /\ configured (Some "s3cret") = true
   /\ verifyWebhookSignature
        event_text keyed_length (Some "s3cret")
        (Some (digest_hex (keyed_length "s3cret" (event_text received_pay_123))))
        received_pay_123
      = Next
   /\ (verifyWebhookSignature event_text keyed_length (Some "s3cret") None
                              received_pay_123 <> Next)
   /\ exists msg,
       verifyWebhookSignature event_text keyed_length (Some "s3cret") None
                              received_pay_123
       = Respond (mkResponse 401 (ErrorJson msg)))
  /\ (configured (Some "your_webhook_secret_here") = false
      /\ verifyWebhookSignature event_text keyed_length
           (Some "your_webhook_secret_here") None received_pay_123
         = Next).
Proof.
  split.
  - split; [reflexivity |]. split; [reflexivity |].
    split.
    + exact (proj2 (proj1 (proj1 (signature_verification
                                    event_text keyed_length (Some "s3cret")
                                    (Some (digest_hex
                                             (keyed_length
                                                "s3cret"
                                                (event_text received_pay_123))))
                                    received_pay_123)
                                 "s3cret" eq_refl eq_refl))
                   eq_refl).
    + assert (N : verifyWebhookSignature
                    event_text keyed_length (Some "s3cret") None
                    received_pay_123 <> Next)
        by discriminate.
      split; [exact N |].
      exact (proj2 (proj1 (signature_verification
                             event_text keyed_length
                             (Some "s3cret") None received_pay_123)
                          "s3cret" eq_refl eq_refl) N).
  - split; [reflexivity |].
    exact (proj2 (signature_verification
                    event_text keyed_length
                    (Some "your_webhook_secret_here") None received_pay_123)
                 eq_refl).
Defined.

Lemma delivery_logged_before_processing_witness :
  (verifyWebhookSignature event_text keyed_length None None received_pay_123
   = Next
   /\ mark_fails 0 = None
   /\ payment received_pay_123 = Some (mkPaymentObj "pay_123" None None)
   /\ "pay_123" <> ""
   /\ fst (interp (traced (faulty mark_fails mysql))
                  (asaasEndpoint event_text keyed_length None None
                                 received_pay_123)
                  ((0, shop), []))
      = Resolved (mkResponse 500 (ErrorJson "Erro ao processar webhook"))
   /\ exists row,
       In row (webhook_logs
                 (snd (fst (snd (interp (traced (faulty mark_fails mysql))
                                        (asaasEndpoint event_text keyed_length
                                                       None None
                                                       received_pay_123)
                                        ((0, shop), []))))))
       /\ l_payment_id row = Some "pay_123"
       /\ l_event_type row = "PAYMENT_RECEIVED"
       /\ l_payload row = received_pay_123)
  /\ (insert_fails 0 = Some (SqlError "Connection lost")
      /\ payments
           (snd (fst (snd (interp (traced (faulty insert_fails mysql))
                                  (asaasEndpoint event_text keyed_length
                                                 None None received_pay_123)
                                  ((0, shop), [])))))
         = payments shop)
  /\ (verifyWebhookSignature event_text keyed_length None None updated_nothing
      = Next
      /\ payment updated_nothing = None
      /\ exists t,
          snd (snd (interp (traced (faulty mark_fails mysql))
                           (asaasEndpoint event_text keyed_length None None
                                          updated_nothing)
                           ((0, shop), [])))
          = InsertWebhookLog None "PAYMENT_UPDATED" updated_nothing :: t).
Proof.
  assert (N : "pay_123" <> "") by discriminate.
  split; [| split].
  - split; [reflexivity |]. split; [reflexivity |]. split; [reflexivity |].
    split; [exact N |]. split; [reflexivity |].
    exact (proj2 (proj1 (proj2 (proj2 (proj2
                   (delivery_logged_before_processing
                      event_text keyed_length None None
                      mark_fails shop received_pay_123 eq_refl))))
                   (mkPaymentObj "pay_123" None None) eq_refl N)
                 eq_refl).
  - split; [reflexivity |].
    exact (proj1 (proj2 (proj1 (proj2 (proj2
                   (delivery_logged_before_processing
                      event_text keyed_length None None
                      insert_fails shop received_pay_123 eq_refl)))
                   (SqlError "Connection lost") eq_refl))).
  - split; [reflexivity |]. split; [reflexivity |].
    exact (proj1 (proj2 (proj2 (proj2 (proj2
                   (delivery_logged_before_processing
                      event_text keyed_length None None
                      mark_fails shop updated_nothing eq_refl))))
                   (or_introl eq_refl))).
Defined.

Lemma conditional_update_zero_rows_witness :
  interleaved deleted_meanwhile mysql (SelectPayment "pay_123") (0, shop)
  = (Resolved [pay_123], (1, shop))
  /\ p_status pay_123 <> "RECEIVED"
  /\ interleaved deleted_meanwhile mysql (UpdateStatus "RECEIVED" "pay_123")
                 (1, shop)
     = (Resolved (mkOk 0 0 0), (2, set_payments (set_payments shop []) []))
  /\ affectedRows (mkOk 0 0 0) = 0
  /\ interp (traced (interleaved deleted_meanwhile mysql))
            (updatePaymentStatus "pay_123" "RECEIVED") ((0, shop), [])
     = (Resolved false,
        ((2, set_payments (set_payments shop []) []),
         [SelectPayment "pay_123"; UpdateStatus "RECEIVED" "pay_123"])).
Proof.
  assert (N : p_status pay_123 <> "RECEIVED") by discriminate.
  split; [reflexivity |]. split; [exact N |].
  split; [reflexivity |]. split; [reflexivity |].
  exact (proj2 (proj2 conditional_update_zero_rows
                      (nat * World)%type
                      (interleaved deleted_meanwhile mysql)
                      (0, shop) (1, shop) "pay_123" "RECEIVED" pay_123 []
                      eq_refl N)
               (mkOk 0 0 0) (2, set_payments (set_payments shop []) [])
               eq_refl eq_refl).
Defined.

Lemma customer_found_or_created_witness :
  (validate has_at ana_again = None
   /\ filter (matches_customer (email ana_again) (cpf ana_again))
             (customers shop_online) = [ana]
   /\ customers (fst (snd (interp (traced mysql)
                                  (createPaymentHandler has_at None ana_again)
                                  (shop_online, []))))
      = [mkCustomer 1 "Ana Souza" "12345678901" "a@x.com" "11988887777"
                    (Some "cus_1") 10 20])
  /\ (validate has_at bia = None
      /\ filter (matches_customer (email bia) (cpf bia)) (customers shop_online)
         = []
      /\ asaas_createCustomer shop_online
           (mkCustomerData (nome bia) (cpf bia) (email bia) (telefone bia))
         = Resolved (mkAsaasCustomer (Some "cus_2") "{}")
      /\ "cus_2" <> ""
      /\ (forall c, In c (customers shop_online) ->
                    c_asaas_customer_id c <> Some "cus_2")
      /\ customers (fst (snd (interp (traced mysql)
                                     (createPaymentHandler has_at None bia)
                                     (shop_online, []))))
         = [ana;
            mkCustomer 2 "Bia" "98765432100" "b@x.com" "11977776666"
                       (Some "cus_2") 20 20])
  /\ (filter (matches_customer (email bia) (cpf bia))
             (customers shop_same_reference) = []
      /\ asaas_createCustomer shop_same_reference
           (mkCustomerData (nome bia) (cpf bia) (email bia) (telefone bia))
         = Resolved (mkAsaasCustomer (Some "cus_1") "{}")
      /\ "cus_1" <> ""
      /\ In ana (customers shop_same_reference)
      /\ c_asaas_customer_id ana = Some "cus_1"
      /\ customers (fst (snd (interp (traced mysql)
                                     (createPaymentHandler has_at None bia)
                                     (shop_same_reference, []))))
         = [ana]).
Proof.
  split; [| split].
  - split; [reflexivity |]. split; [reflexivity |].
    exact (proj1 (proj1 (customer_found_or_created
                           has_at None shop_online ana_again eq_refl)
                        ana [] eq_refl)).
  - assert (N : "cus_2" <> "") by discriminate.
    assert (F : forall c, In c (customers shop_online) ->
                          c_asaas_customer_id c <> Some "cus_2").
    { intros c [<- | []]. discriminate. }
    split; [reflexivity |]. split; [reflexivity |]. split; [reflexivity |].
    split; [exact N |]. split; [exact F |].
    exact (proj1 (proj1 (proj2 (customer_found_or_created
                                  has_at None shop_online bia eq_refl))
                        eq_refl "cus_2" "{}" eq_refl N F)).
  - assert (N : "cus_1" <> "") by discriminate.
    assert (I : In ana (customers shop_same_reference)) by (left; reflexivity).
    split; [reflexivity |]. split; [reflexivity |]. split; [exact N |].
    split; [exact I |]. split; [reflexivity |].
    exact (proj1 (proj2 (proj2 (customer_found_or_created
                                  has_at None shop_same_reference bia eq_refl))
                        eq_refl "cus_1" "{}" ana eq_refl N I eq_refl)).
Defined.

Lemma reprocess_leaves_other_events_alone_witness :
  filter (fun r => Nat.eqb (l_id r) 1) (webhook_logs archive)
  = [mkLog 1 (Some "pay_123") "PAYMENT_CONFIRMED" confirmed_pay_123
           false None 15]
  /\ reprocessable "PAYMENT_CONFIRMED" = false
  /\ payments (snd (interp mysql (postReprocess 1) archive))
     = payments archive
  /\ customers (snd (interp mysql (postReprocess 1) archive))
     = customers archive
  /\ customer_features (snd (interp mysql (postReprocess 1) archive))
     = customer_features archive.
Proof.
  split; [reflexivity |]. split; [reflexivity |].
  exact (proj1 (reprocess_leaves_other_events_alone
                  archive 1 _ [] eq_refl eq_refl)).
Defined.

Lemma updatePaymentStatus_never_throws_witness :
  (forall (s : Stmt) (w : World),
      is_logging s = true ->
      exists r w',
        rejecting on_payments (SqlError "Connection lost") mysql s w
        = (Resolved r, w'))
  /\ payment received_pay_123 = Some (mkPaymentObj "pay_123" None None)
  /\ (exists b w',
         interp (rejecting on_payments (SqlError "Connection lost") mysql)
                (updatePaymentStatus "pay_123" "RECEIVED") shop
         = (Resolved b, w'))
  /\ exists w',
      interp (rejecting on_payments (SqlError "Connection lost") mysql)
             (postAsaas received_pay_123) shop
      = (Resolved (mkResponse 200 WebhookProcessed), w').
Proof.
  assert (L : forall (s : Stmt) (w : World),
             is_logging s = true ->
             exists r w',
               rejecting on_payments (SqlError "Connection lost") mysql s w
               = (Resolved r, w')).
  { intros s w Hs. destruct s; try discriminate; unfold rejecting; cbn.
    - eauto.
    - unfold update_latest. destruct (latest _ (webhook_logs w) 0 None)
        as [[i c] |]; eauto. }
  split; [exact L |]. split; [reflexivity |].
  destruct (updatePaymentStatus_never_throws
              World (rejecting on_payments (SqlError "Connection lost") mysql))
    as [H1 H2].
  split.
  - destruct (H1 shop "pay_123" "RECEIVED") as (b & w' & H & _).
    exists b, w'. exact H.
  - exact (H2 L shop received_pay_123 (mkPaymentObj "pay_123" None None)
              eq_refl).
Defined.

(** The two library functions of the middleware stay abstract; the
    calendar arithmetic of the due date is checked on two days. *)
Example iso_date_example :
  iso_date (1700000100000 + 86400000)%Z = "2023-11-15".
Proof. reflexivity. Qed.

Example iso_date_leap : iso_date 1709164800000 = "2024-02-29".
Proof. reflexivity. Qed.

(** A rejected lookup makes the engine return false, and the delivery
    is still answered with 200. *)
Example engine_down_still_200 :
  fst (interp (rejecting on_payments (SqlError "Connection lost") mysql)
              (postAsaas received_pay_123) shop)
  = Resolved (mkResponse 200 WebhookProcessed).
Proof. reflexivity. Qed.

(** A known event without a payment object is the one way a handler
    throws: the answer is 500 and the delivery is in the log. *)
Example created_without_payment :
  let r := interp mysql (postAsaas (mkBody "PAYMENT_CREATED" None)) shop in
  status match fst r with
         | Resolved res => res
         | Rejected _ => mkResponse 0 WebhookProcessed
         end = 500
  /\ length (webhook_logs (snd r)) = 1.
Proof. split; reflexivity. Qed.

(* ================================================================== *)
(** * More on the webhook log *)

Lemma latest_none (f : WebhookLogRow -> bool) (rows : list WebhookLogRow)
      (i : nat) :
  (forall r, In r rows -> f r = false) -> latest f rows i None = None.
Proof.
  revert i. induction rows as [| r rows IH]; intros i H; simpl; [reflexivity |].
  rewrite (H r (or_introl eq_refl)). apply IH. intros x Hx. apply H. now right.
Qed.

Lemma latest_snoc (f : WebhookLogRow -> bool) (rows : list WebhookLogRow)
      (r : WebhookLogRow) (i : nat) (best : option (nat * Z)) :
  latest f (rows ++ [r]) i best
  = if f r then
      match latest f rows i best with
      | None => Some (i + length rows, l_created_at r)
      | Some (j, c) =>
          if Z.leb c (l_created_at r)
          then Some (i + length rows, l_created_at r)
          else Some (j, c)
      end
    else latest f rows i best.
Proof.
  revert i best. induction rows as [| x rows IH]; intros i best; simpl.
  - rewrite Nat.add_0_r. destruct (f r); [| reflexivity].
    destruct best as [[j c] |]; reflexivity.
  - rewrite IH. now rewrite Nat.add_succ_r.
Qed.

Lemma latest_older (f : WebhookLogRow -> bool) (rows : list WebhookLogRow)
      (now : Z) (i : nat) (best : option (nat * Z)) :
  (forall r, In r rows -> (l_created_at r < now)%Z) ->
  (forall j c, best = Some (j, c) -> (c < now)%Z) ->
  forall j c, latest f rows i best = Some (j, c) -> (c < now)%Z.
Proof.
  revert i best. induction rows as [| x rows IH]; intros i best Hrows Hbest j c;
    simpl.
  - apply Hbest.
  - apply IH.
    + intros r Hr. apply Hrows. now right.
    + intros j' c' E. destruct (f x).
      * destruct best as [[k d] |].
        -- destruct (Z.leb d (l_created_at x)).
           ++ injection E as _ <-. apply Hrows. now left.
           ++ now apply (Hbest j').
        -- injection E as _ <-. apply Hrows. now left.
      * now apply (Hbest j').
Qed.

Lemma update_at_last {R : Type} (g : R -> R) (rows : list R) (r : R) :
  update_at (length rows) g (rows ++ [r]) = rows ++ [g r].
Proof. induction rows as [| x rows IH]; simpl; [reflexivity | now rewrite IH]. Qed.

Lemma opt_eqb_null (x : option string) : opt_eqb x None = false.
Proof. destruct x; reflexivity. Qed.

(** The route on the tables, answer included. *)
Lemma postAsaas_mysql_answer (body : WebhookBody) (w : World) :
  fst (interp mysql (postAsaas body) w)
  = match fst (interp mysql (dispatch (event body) (payment body))
                      (logged body w)) with
    | Resolved _ => Resolved (mkResponse 200 WebhookProcessed)
    | Rejected _ =>
        Resolved (mkResponse 500 (ErrorJson "Erro ao processar webhook"))
    end.
Proof.
  rewrite postAsaas_mysql.
  destruct (interp mysql (dispatch (event body) (payment body)) (logged body w))
    as [[[] | e] w2]; reflexivity.
Qed.

(** X1. A delivery without a payment object is logged with a NULL
    payment id and that row is never touched again: the UPDATEs of the
    route compare payment_id with NULL and match nothing, so the row stays
    unprocessed and without error message.  The answer is 500 when the
    event is one of the eight handled (the handler reads [payment.id])
    and 200 otherwise; the payments are as before. *)
Theorem delivery_without_payment_stays_unprocessed :
  forall (w : World) (body : WebhookBody),
    payment body = None ->
    let r := interp mysql (postAsaas body) w in
    webhook_logs (snd r)
    = webhook_logs w
      ++ [mkLog (next_id l_id (webhook_logs w)) None (event body) body
                false None (db_now w)]
    /\ payments (snd r) = payments w
    /\ ((exists e, event body = event_name e) ->
        fst r = Resolved (mkResponse 500
                            (ErrorJson "Erro ao processar webhook")))
    /\ (unrecognized (event body) ->
        fst r = Resolved (mkResponse 200 WebhookProcessed)).
Proof.
  intros w body Hp. cbv zeta.
  rewrite postAsaas_mysql_answer, postAsaas_mysql, Hp.
  assert (Hnone : forall (f : WebhookLogRow -> bool)
                         (g : WebhookLogRow -> WebhookLogRow) (w0 : World),
             (forall r, f r = false) ->
             snd (update_latest f g w0) = w0).
  { intros f g w0 Hf. unfold update_latest.
    rewrite latest_none by (intros r _; apply Hf). reflexivity. }
  destruct (event_cases (event body)) as [(e & He) | Hun].
  - rewrite He, dispatch_no_payment. cbn [fst snd id_or_null].
    rewrite Hnone by (intros r; apply opt_eqb_null).
    unfold logged. rewrite Hp. cbn. rewrite ?He.
    split; [reflexivity |]. split; [reflexivity |]. split; [reflexivity |].
    intros Hun. exfalso. now apply (Hun e).
  - rewrite (dispatch_unrecognized _ None Hun). cbn [interp fst snd id_or_null].
    rewrite Hnone by (intros r; rewrite opt_eqb_null; reflexivity).
    unfold logged. rewrite Hp. cbn.
    split; [reflexivity |]. split; [reflexivity |]. split; [| reflexivity].
    intros (e & He). exfalso. apply (Hun e He).
Qed.

(** X2. A delivery with a payment id, arriving when every stored log
    row is older than the current timestamp, ends with exactly one row
    more in webhook_logs, and that row, the one of this delivery, is the
    one marked processed; the earlier rows are as they were. *)
Theorem delivery_marks_its_own_row :
  forall (w : World) (body : WebhookBody) (p : PaymentObj),
    payment body = Some p ->
    po_id p <> "" ->
    (forall r, In r (webhook_logs w) -> (l_created_at r < db_now w)%Z) ->
    webhook_logs (snd (interp mysql (postAsaas body) w))
    = webhook_logs w
      ++ [mkLog (next_id l_id (webhook_logs w)) (Some (po_id p)) (event body)
                body true None (db_now w)].
Proof.
  intros w body p Hp Hid Hold.
  rewrite postAsaas_mysql, Hp.
  destruct (dispatch_returns mysql (logged body w) (event body) p) as (w2 & Hd).
  pose proof (dispatch_mysql_frame (event body) (Some p) (logged body w)) as Hfr.
  cbv zeta in Hfr. rewrite Hd in *. cbn [snd] in *.
  destruct Hfr as (_ & Hlogs & _ & _).
  apply String.eqb_neq in Hid.
  assert (Hnull : id_or_null (Some p) = Some (po_id p))
    by (unfold id_or_null; now rewrite Hid).
  rewrite Hnull. unfold update_latest. rewrite Hlogs.
  unfold logged at 1. rewrite Hp, Hnull. cbn [webhook_logs set_webhook_logs].
  rewrite latest_snoc. cbn [l_payment_id l_event_type l_created_at opt_eqb].
  rewrite !String.eqb_refl. cbn [andb].
  assert (Hbest : forall j c,
             latest (fun r => opt_eqb (l_payment_id r) (Some (po_id p))
                              && String.eqb (l_event_type r) (event body))
                    (webhook_logs w) 0 None = Some (j, c) ->
             (c < db_now w)%Z).
  { apply latest_older; [exact Hold | discriminate]. }
  destruct (latest _ (webhook_logs w) 0 None) as [[j c] |].
  - specialize (Hbest j c eq_refl).
    destruct (Z.leb_spec c (db_now w)) as [_ | Hgt]; [| lia].
    cbn. rewrite Hp, Hnull, update_at_last. reflexivity.
  - cbn. rewrite Hp, Hnull, update_at_last. reflexivity.
Qed.

(* ================================================================== *)
(** * More on reprocessing *)

(** X3. Whatever the database is, reprocessing an id the lookup finds
    no row for answers 404 after that one SELECT, and a rejected lookup
    answers 500: in both cases nothing else is sent, no handler runs and
    nothing is marked. *)
Theorem reprocess_unknown_log :
  forall (W : Type) (h : Handler W) (w w1 : W) (webhookId : nat),
    (h (SelectWebhookLog webhookId) w = (Resolved [], w1) ->
     interp (traced h) (postReprocess webhookId) (w, [])
     = (Resolved (mkResponse 404 (ErrorJson "Webhook não encontrado")),
        (w1, [SelectWebhookLog webhookId])))
    /\ (forall e,
           h (SelectWebhookLog webhookId) w = (Rejected e, w1) ->
           interp (traced h) (postReprocess webhookId) (w, [])
           = (Resolved (mkResponse 500
                          (ErrorJson "Erro ao reprocessar webhook")),
              (w1, [SelectWebhookLog webhookId]))).
Proof.
  intros W h w w1 webhookId. unfold postReprocess, postReprocessWith.
  cbn [tryCatch bind execute]. rewrite interp_Await, traced_step.
  split; [intros H | intros e H]; rewrite H; reflexivity.
Qed.

(** X4. On the tables of [createTables], reprocessing a stored delivery
    never answers 200 and never marks the row: the route answers 500 and
    webhook_logs is left as it was.  As the route runs, it ends at
    [JSON.parse]; and with any [JSON.parse], also one that returns a
    payload, the UPDATE that should mark the row comes after the handler
    and names the column updated_at, which webhook_logs does not have. *)
Theorem reprocess_never_marks :
  forall (w : World) (webhookId : nat) (log : WebhookLogRow)
         (rest : list WebhookLogRow),
    filter (fun r => Nat.eqb (l_id r) webhookId) (webhook_logs w)
    = log :: rest ->
    (fst (interp mysql (postReprocess webhookId) w)
     = Resolved (mkResponse 500 (ErrorJson "Erro ao reprocessar webhook"))
     /\ webhook_logs (snd (interp mysql (postReprocess webhookId) w))
        = webhook_logs w)
    /\ forall JSON_parse : WebhookBody -> Outcome WebhookBody,
        fst (interp mysql (postReprocessWith JSON_parse webhookId) w)
        = Resolved (mkResponse 500 (ErrorJson "Erro ao reprocessar webhook"))
        /\ webhook_logs
             (snd (interp mysql (postReprocessWith JSON_parse webhookId) w))
           = webhook_logs w.
Proof.
  intros w webhookId log rest Hlog. split.
  - rewrite (postReprocess_mysql webhookId w log rest Hlog). auto.
  - intros JSON_parse.
    rewrite (postReprocessWith_mysql JSON_parse webhookId w log rest Hlog).
    split; [reflexivity |]. cbn [snd].
    destruct (JSON_parse (l_payload log)) as [payload | e]; [| reflexivity].
    destruct (reprocessable (event payload)) eqn:Hr.
    + rewrite (redispatch_reprocessable _ _ Hr).
      apply dispatch_mysql_frame.
    + rewrite (redispatch_other _ _ Hr). reflexivity.
Qed.

(** X25. As the route runs, reprocessing never gets past reading the
    log row: whatever the database is, when the lookup returns a row the
    route answers 500 having sent that one SELECT and nothing else, so no
    handler runs and nothing is written, for any event and payload. *)
Theorem reprocess_stored_log_always_fails :
  forall (W : Type) (h : Handler W) (w w1 : W) (webhookId : nat)
         (log : WebhookLogRow) (rest : list WebhookLogRow),
    h (SelectWebhookLog webhookId) w = (Resolved (log :: rest), w1) ->
    interp (traced h) (postReprocess webhookId) (w, [])
    = (Resolved (mkResponse 500 (ErrorJson "Erro ao reprocessar webhook")),
       (w1, [SelectWebhookLog webhookId])).
Proof.
  intros W h w w1 webhookId log rest H.
  unfold postReprocess, postReprocessWith.
  cbn [tryCatch bind execute]. rewrite interp_Await, traced_step, H.
  cbn [fst snd app]. unfold JSON_parse_column. reflexivity.
Qed.

(* ================================================================== *)
(** * More on the [/asaas] endpoint *)

Lemma verdict_cases (JSON_stringify : WebhookBody -> string)
      (hmac_sha256 : string -> string -> Z) (secret signature : option string)
      (body : WebhookBody) :
  verifyWebhookSignature JSON_stringify hmac_sha256 secret signature body = Next
  \/ exists msg,
      verifyWebhookSignature JSON_stringify hmac_sha256 secret signature body
      = Respond (mkResponse 401 (ErrorJson msg)).
Proof.
  unfold verifyWebhookSignature.
  destruct secret as [s |]; [| now left].
  destruct (String.eqb s "" || String.eqb s "your_webhook_secret_here");
    [now left |].
  destruct signature as [sig |]; [| right; eauto].
  destruct (String.eqb sig ""); [right; eauto |].
  destruct (negb _); [right; eauto | now left].
Qed.

(** X5. A request the signature middleware does not let through never
    reaches the database: whatever the handler, the endpoint answers 401
    without sending a single statement, so the request is not even
    logged. *)
Theorem rejected_request_sends_nothing :
  forall (JSON_stringify : WebhookBody -> string)
         (hmac_sha256 : string -> string -> Z)
         (secret signature : option string) (body : WebhookBody)
         (W : Type) (h : Handler W) (w : W),
    verifyWebhookSignature JSON_stringify hmac_sha256 secret signature body
    <> Next ->
    exists msg,
      interp (traced h)
             (asaasEndpoint JSON_stringify hmac_sha256 secret signature body)
             (w, [])
      = (Resolved (mkResponse 401 (ErrorJson msg)), (w, [])).
Proof.
  intros JSON_stringify hmac_sha256 secret signature body W h w Hno.
  unfold asaasEndpoint.
  destruct (verdict_cases JSON_stringify hmac_sha256 secret signature body)
    as [Hn | (msg & Hr)]; [contradiction |].
  rewrite Hr. exists msg. reflexivity.
Qed.

(** X6. [updatePaymentStatus] writes only after it has found the row in
    another status: whatever the database answers, an UPDATE among the
    statements it sends carries the status and the id it was called
    with, and the lookup before it resolved with a first row whose
    status is not the target.  A lookup that is rejected, finds nothing
    or finds the target status is followed by no write. *)
Theorem update_only_after_found :
  forall (W : Type) (h : Handler W) (w : W) (id st st' id' : string),
    In (UpdateStatus st' id')
       (snd (snd (interp (traced h) (updatePaymentStatus id st) (w, [])))) ->
    st' = st /\ id' = id
    /\ exists row rows w1,
        h (SelectPayment id) w = (Resolved (row :: rows), w1)
        /\ p_status row <> st.
Proof.
  intros W h w id st st' id'. unfold updatePaymentStatus.
  cbn [tryCatch bind execute]. rewrite interp_Await, traced_step.
  destruct (h (SelectPayment id) w) as [[rows | e] w1] eqn:Hsel;
    cbn [fst snd tryCatch bind app].
  - destruct rows as [| row rows]; cbn [tryCatch bind].
    + rewrite interp_Await, traced_step.
      destruct (h SelectRecentPayments w1) as [[r | e] w2]; cbn;
        intros [H | [H | []]]; discriminate.
    + destruct (String.eqb_spec (p_status row) st) as [Heq | Hne];
        cbn [tryCatch bind].
      * cbn. intros [H | []]. discriminate.
      * rewrite interp_Await, traced_step.
        assert (Hfound : exists row0 rows0 w0,
                   (Resolved (row :: rows), w1)
                   = (Resolved (row0 :: rows0), w0)
                   /\ p_status row0 <> st) by eauto.
        destruct (h (UpdateStatus st id) w1) as [[pkt | e] w2];
          cbn [fst snd tryCatch bind app].
        -- destruct (Nat.eqb (affectedRows pkt) 0); cbn [tryCatch bind].
           ++ cbn. intros [H | [H | []]]; [discriminate |].
              injection H as <- <-. auto.
           ++ rewrite interp_Await, traced_step.
              destruct (h (SelectStatus id) w2) as [[r | e] w3]; cbn;
                intros [H | [H | [H | []]]]; try discriminate;
                injection H as <- <-; auto.
        -- cbn. intros [H | [H | []]]; [discriminate |].
           injection H as <- <-. auto.
  - cbn. intros [H | []]. discriminate.
Qed.

Lemma update_latest_logs_length (f : WebhookLogRow -> bool)
      (g : WebhookLogRow -> WebhookLogRow) (w : World) :
  length (webhook_logs (snd (update_latest f g w))) = length (webhook_logs w)
  /\ db_now (snd (update_latest f g w)) = db_now w.
Proof.
  unfold update_latest. destruct (latest f (webhook_logs w) 0 None) as [[i c] |];
    simpl; auto using update_at_length.
Qed.

Lemma postAsaas_mysql_logs (body : WebhookBody) (w : World) :
  length (webhook_logs (snd (interp mysql (postAsaas body) w)))
  = S (length (webhook_logs w))
  /\ db_now (snd (interp mysql (postAsaas body) w)) = db_now w.
Proof.
  rewrite postAsaas_mysql.
  destruct (dispatch_mysql_frame (event body) (payment body) (logged body w))
    as (_ & Hl & _ & Hn).
  assert (Hlen : length (webhook_logs (logged body w))
                 = S (length (webhook_logs w))).
  { unfold logged. simpl. rewrite length_app. simpl. lia. }
  destruct (interp mysql (dispatch (event body) (payment body)) (logged body w))
    as [[[] | e] w2]; cbn [snd] in *;
    match goal with
    | |- context [update_latest ?f ?g ?w0] =>
        destruct (update_latest_logs_length f g w0) as (-> & ->)
    end; rewrite Hl, Hn; auto.
Qed.

Lemma dispatch_mysql_answer (ev : string) (pay : option PaymentObj)
      (w1 w2 : World) :
  fst (interp mysql (dispatch ev pay) w1) = fst (interp mysql (dispatch ev pay) w2).
Proof.
  destruct (event_cases ev) as [(e & ->) | Hun].
  - destruct pay as [p |].
    + now rewrite !dispatch_mysql.
    + now rewrite !dispatch_no_payment.
  - now rewrite dispatch_unrecognized.
Qed.

Lemma dispatch_mysql_twice (ev : string) (pay : option PaymentObj) (w : World) :
  payments (snd (interp mysql (dispatch ev pay)
                        (snd (interp mysql (dispatch ev pay) w))))
  = payments (snd (interp mysql (dispatch ev pay) w)).
Proof.
  destruct (event_cases ev) as [(e & ->) | Hun].
  - destruct pay as [p |].
    + rewrite !dispatch_mysql. cbn [snd]. now rewrite transition_fixed.
    + now rewrite !dispatch_no_payment.
  - now rewrite dispatch_unrecognized.
Qed.

(** X7. A duplicate delivery is absorbed: delivering the same body a
    second time gets the same answer and leaves the payments table
    exactly as the first delivery left it (no row is written again),
    while webhook_logs gains one row per delivery, two in all. *)
Theorem redelivery_is_absorbed :
  forall (w : World) (body : WebhookBody),
    let first := interp mysql (postAsaas body) w in
    let second := interp mysql (postAsaas body) (snd first) in
    fst second = fst first
    /\ payments (snd second) = payments (snd first)
    /\ length (webhook_logs (snd second)) = 2 + length (webhook_logs w).
Proof.
  intros w body. cbv zeta.
  destruct (postAsaas_mysql_logs body w) as (Hlen & Hnow).
  destruct (postAsaas_mysql_logs body (snd (interp mysql (postAsaas body) w)))
    as (Hlen2 & _).
  destruct (postAsaas_mysql_frame body w) as (Hp & _ & _).
  destruct (postAsaas_mysql_frame body (snd (interp mysql (postAsaas body) w)))
    as (Hp2 & _ & _).
  destruct (dispatch_mysql_frame (event body) (payment body) w)
    as (_ & _ & _ & Hn).
  split; [| split].
  - rewrite !postAsaas_mysql_answer.
    now rewrite (dispatch_mysql_answer (event body) (payment body)
                   (logged body (snd (interp mysql (postAsaas body) w)))
                   (logged body w)).
  - rewrite Hp2.
    rewrite (dispatch_mysql_payments (event body) (payment body)
               (snd (interp mysql (postAsaas body) w))
               (snd (interp mysql (dispatch (event body) (payment body)) w)))
      by congruence.
    now rewrite dispatch_mysql_twice.
  - rewrite Hlen2, Hlen. reflexivity.
Qed.

(** X8. No delivery, whatever its event and payment, changes the
    customers table or customer_features: activation stops at the
    helper that is not defined, and deactivation after a refund only
    reads.  In particular a refund takes no feature away. *)
Theorem delivery_leaves_customers_and_features :
  forall (w : World) (body : WebhookBody),
    customers (snd (interp mysql (postAsaas body) w)) = customers w
    /\ customer_features (snd (interp mysql (postAsaas body) w))
       = customer_features w.
Proof.
  intros w body. destruct (postAsaas_mysql_frame body w) as (_ & Hf & Hc).
  auto.
Qed.

(* ================================================================== *)
(** * More on activation *)

Lemma tryVariations_mysql (w : World) (id : string) (t : list Stmt) :
  interp (traced mysql) (tryVariations queryVariations id) (w, t)
  = match join_customer id w with
    | [] =>
        (Resolved None,
         (w, t ++ [SelectPaymentCustomer ByName id;
                   SelectPaymentCustomer ByNome id;
                   SelectPaymentCustomer NoName id]))
    | _ :: _ =>
        (Resolved (Some (join_customer id w)),
         (w, t ++ [SelectPaymentCustomer ByName id;
                   SelectPaymentCustomer ByNome id]))
    end.
Proof.
  unfold queryVariations.
  cbn [tryVariations tryCatch bind execute].
  rewrite interp_Await, traced_step. cbn [mysql fst snd tryCatch bind].
  rewrite interp_Await, traced_step. cbn [mysql fst snd].
  destruct (join_customer id w) as [| r rows] eqn:E; cbn [tryCatch bind].
  - rewrite interp_Await, traced_step. cbn [mysql fst snd]. rewrite E. cbn.
    now rewrite <- !app_assoc.
  - cbn. now rewrite <- !app_assoc.
Qed.

Lemma plan_helpers_mysql (w : World) (payment : PaymentRow * CustomerRow) :
  interp mysql (activateEssentialPlan payment) w
  = (Resolved tt,
     with_feature (p_customer_id (fst payment)) "basic_features" w)
  /\ interp mysql (activateCompletePlan payment) w
     = (Resolved tt,
        with_feature (p_customer_id (fst payment)) "premium_features" w).
Proof.
  unfold activateEssentialPlan, activateCompletePlan, with_feature.
  split; cbn; destruct (customer_features w); reflexivity.
Qed.

(** X9. The loop over the query variations never lets an error out and
    never hands back an empty result, whatever the database answers.  On
    the tables of [createTables] the first query is always rejected
    (customers has nome, not name) and the second one decides: its rows
    are returned when there are any, otherwise the third is tried as
    well and the result is null. *)
Theorem tryVariations_first_rows :
  (forall (W : Type) (h : Handler W) (vs : list Variation) (id : string)
          (w : W),
      exists found w',
        interp h (tryVariations vs id) w = (Resolved found, w')
        /\ found <> Some [])
  /\ (forall (w : World) (id : string) (t : list Stmt),
         interp (traced mysql) (tryVariations queryVariations id) (w, t)
         = match join_customer id w with
           | [] =>
               (Resolved None,
                (w, t ++ [SelectPaymentCustomer ByName id;
                          SelectPaymentCustomer ByNome id;
                          SelectPaymentCustomer NoName id]))
           | _ :: _ =>
               (Resolved (Some (join_customer id w)),
                (w, t ++ [SelectPaymentCustomer ByName id;
                          SelectPaymentCustomer ByNome id]))
           end).
Proof.
  split.
  - intros W h vs id. induction vs as [| v vs IH]; intros w.
    + exists None, w. split; [reflexivity | discriminate].
    + cbn [tryVariations tryCatch bind execute]. rewrite interp_Await.
      destruct (h (SelectPaymentCustomer v id) w) as [[rows | e] w1];
        cbn [fst snd tryCatch bind].
      * destruct rows as [| r rows]; cbn [tryCatch bind].
        -- apply IH.
        -- eexists _, w1. split; [reflexivity | discriminate].
      * apply IH.
  - apply tryVariations_mysql.
Qed.

Lemma is_feature_activated (cid : nat) (name : string) (now : Z) (f : FeatureRow) :
  is_feature cid name
             (mkFeature (f_customer_id f) (f_feature_name f) true
                        (f_created_at f) (Some now))
  = is_feature cid name f.
Proof. reflexivity. Qed.

Lemma count_activated (cid : nat) (name : string) (now : Z)
      (fs : list FeatureRow) :
  count (is_feature cid name)
        (map (fun f => if is_feature cid name f
                       then mkFeature (f_customer_id f) (f_feature_name f) true
                                      (f_created_at f) (Some now)
                       else f) fs)
  = count (is_feature cid name) fs.
Proof.
  unfold count. induction fs as [| f fs IH]; simpl; [reflexivity |].
  destruct (is_feature cid name f) eqn:E.
  - rewrite is_feature_activated, E. simpl. now rewrite IH.
  - rewrite E. exact IH.
Qed.

Lemma existsb_count {R : Type} (f : R -> bool) (rows : list R) :
  existsb f rows = negb (Nat.eqb (count f rows) 0).
Proof.
  unfold count. induction rows as [| r rows IH]; simpl; [reflexivity |].
  destruct (f r); simpl; [reflexivity | exact IH].
Qed.

(** The upsert of a feature: afterwards the key is present, every row
    of the key is active, the key has as many rows as before or one if
    it had none, and the rows of other keys are the same. *)
Lemma upsert_feature_spec (cid : nat) (name : string) (now : Z)
      (fs : list FeatureRow) :
  let fs' := upsert_feature cid name now fs in
  (forall f, In f fs' -> is_feature cid name f = true -> f_is_active f = true)
  /\ count (is_feature cid name) fs' = Nat.max 1 (count (is_feature cid name) fs)
  /\ filter (fun f => negb (is_feature cid name f)) fs'
     = filter (fun f => negb (is_feature cid name f)) fs.
Proof.
  cbv zeta. unfold upsert_feature. rewrite existsb_count.
  destruct (Nat.eqb_spec (count (is_feature cid name) fs) 0) as [Hz | Hnz];
    cbn [negb].
  - split; [| split].
    + intros f Hin Hf. apply in_app_or in Hin. destruct Hin as [Hin | [<- | []]].
      * exfalso. unfold count in Hz.
        assert (Hin' : In f (filter (is_feature cid name) fs))
          by (apply filter_In; auto).
        destruct (filter (is_feature cid name) fs); [destruct Hin' | discriminate].
      * reflexivity.
    + unfold count in *. rewrite filter_app, length_app, Hz. simpl.
      unfold is_feature. now rewrite Nat.eqb_refl, String.eqb_refl.
    + rewrite filter_app. simpl. unfold is_feature at 2.
      rewrite Nat.eqb_refl, String.eqb_refl. simpl. apply app_nil_r.
  - split; [| split].
    + intros f Hin Hf. apply in_map_iff in Hin. destruct Hin as (x & <- & _).
      destruct (is_feature cid name x) eqn:E; [reflexivity |]. congruence.
    + rewrite count_activated. lia.
    + induction fs as [| f fs' IH]; simpl; [reflexivity |].
      assert (Hrest : filter (fun f0 => negb (is_feature cid name f0))
                        (map (fun f0 => if is_feature cid name f0
                                        then mkFeature (f_customer_id f0)
                                               (f_feature_name f0) true
                                               (f_created_at f0) (Some now)
                                        else f0) fs')
                      = filter (fun f0 => negb (is_feature cid name f0)) fs').
      { clear. induction fs' as [| g gs IHg]; simpl; [reflexivity |].
        destruct (is_feature cid name g) eqn:E.
        - rewrite is_feature_activated, E. simpl. exact IHg.
        - rewrite E. simpl. now rewrite IHg. }
      destruct (is_feature cid name f) eqn:E.
      * rewrite is_feature_activated, E. simpl. exact Hrest.
      * rewrite E. simpl. now rewrite Hrest.
Qed.

(** X10. On the tables, the two plan helpers always resolve and
    differ only in the feature they switch on, basic_features for
    ESSENCIAL and premium_features for COMPLETO, for the customer of the
    payment.  With
    customer_features in place the effect is an upsert: afterwards every
    row of that customer and feature is active, there is exactly one if
    there was none and as many as before otherwise, and all other rows
    are untouched.  On the tables [createTables] makes alone, where
    customer_features is missing, the rejection is swallowed and nothing
    changes. *)
Theorem plan_helpers_upsert :
  forall (w : World) (payment : PaymentRow * CustomerRow),
    let cid := p_customer_id (fst payment) in
    interp mysql (activateEssentialPlan payment) w
    = (Resolved tt, with_feature cid "basic_features" w)
    /\ interp mysql (activateCompletePlan payment) w
       = (Resolved tt, with_feature cid "premium_features" w)
    /\ (customer_features w = None ->
        forall name, with_feature cid name w = w)
    /\ (forall fs name,
           customer_features w = Some fs ->
           exists fs',
             customer_features (with_feature cid name w) = Some fs'
             /\ payments (with_feature cid name w) = payments w
             /\ customers (with_feature cid name w) = customers w
             /\ (forall f, In f fs' -> is_feature cid name f = true ->
                           f_is_active f = true)
             /\ count (is_feature cid name) fs'
                = Nat.max 1 (count (is_feature cid name) fs)
             /\ filter (fun f => negb (is_feature cid name f)) fs'
                = filter (fun f => negb (is_feature cid name f)) fs).
Proof.
  intros w payment cid. subst cid.
  destruct (plan_helpers_mysql w payment) as [He Hc].
  split; [exact He |]. split; [exact Hc |]. unfold with_feature. split.
  - intros H name. now rewrite H.
  - intros fs name H. rewrite H. eexists. split; [reflexivity |].
    split; [reflexivity |]. split; [reflexivity |].
    apply upsert_feature_spec.
Qed.

(** X11. The body of [activateCustomerServices] after its first line:
    if the helper returned (here: any helper that resolves and leaves
    the tables alone), activation would upsert basic_features for a
    payment on the ESSENCIAL plan and premium_features for one on the
    COMPLETO plan, for the customer of the first row found, and would do
    nothing for a payment that is not found, has no customer or has
    another plan.  It never throws. *)
Theorem activation_by_plan :
  forall (debugTable : Prog unit) (w : World) (id : string),
    interp mysql debugTable w = (Resolved tt, w) ->
    interp mysql (activateCustomerServicesWith debugTable id) w
    = (Resolved tt,
       match join_customer id w with
       | [] => w
       | payment :: _ =>
           if String.eqb (p_plan_type (fst payment)) "ESSENCIAL"
           then with_feature (p_customer_id (fst payment)) "basic_features" w
           else if String.eqb (p_plan_type (fst payment)) "COMPLETO"
           then with_feature (p_customer_id (fst payment)) "premium_features" w
           else w
       end).
Proof.
  intros debugTable w id Hdbg. unfold activateCustomerServicesWith.
  rewrite interp_tryCatch, interp_bind, Hdbg, interp_bind.
  pose proof (interp_traced mysql (tryVariations queryVariations id) w [])
    as (H1 & H2 & _).
  rewrite tryVariations_mysql in H1, H2.
  destruct (interp mysql (tryVariations queryVariations id) w) as [o w1].
  cbn [fst snd] in H1, H2.
  destruct (join_customer id w) as [| payment rows]; cbn [fst snd] in H1, H2;
    subst o w1.
  - reflexivity.
  - destruct (String.eqb (p_plan_type (fst payment)) "ESSENCIAL").
    + now rewrite (proj1 (plan_helpers_mysql w payment)).
    + destruct (String.eqb (p_plan_type (fst payment)) "COMPLETO").
      * now rewrite (proj2 (plan_helpers_mysql w payment)).
      * reflexivity.
Qed.

(* ================================================================== *)
(** * More on payment creation *)

Lemma validate_acceptable (joi_email : string -> bool) (b : PaymentRequest) :
  validate joi_email b = None <-> acceptable joi_email b.
Proof.
  unfold validate, acceptable.
  repeat match goal with
         | |- context [if ?c then Some _ else _] => destruct c eqn:?
         end;
    (split; [try discriminate | intros Hacc; try reflexivity; exfalso]);
    repeat match goal with
           | H : negb _ = true |- _ => apply negb_true_iff in H
           | H : negb _ = false |- _ => apply negb_false_iff in H
           | H : (_ && _)%bool = true |- _ =>
               apply andb_true_iff in H; destruct H
           | H : (_ || _)%bool = true |- _ => apply orb_true_iff in H
           | H : Nat.ltb _ _ = true |- _ => apply Nat.ltb_lt in H
           | H : Nat.ltb _ _ = false |- _ => apply Nat.ltb_ge in H
           | H : Z.ltb _ _ = true |- _ => apply Z.ltb_lt in H
           | H : Z.ltb _ _ = false |- _ => apply Z.ltb_ge in H
           | H : Nat.eqb _ _ = true |- _ => apply Nat.eqb_eq in H
           | H : String.eqb _ _ = true |- _ => apply String.eqb_eq in H
           | H : String.eqb _ _ = false |- _ => apply String.eqb_neq in H
           end.
  all: try (destruct Hacc as (Hn & Hcd & Hcl & He & Hj & Hel & Ht & Htd
                              & Hm & Hp & Ha)).
  all: try (match goal with
            | H : nome _ = "" |- _ => rewrite H in Hn; cbv in Hn; lia
            | H : cpf _ = "" |- _ => rewrite H in Hcl; discriminate
            | H : telefone _ = "" |- _ => rewrite H in Ht; cbv in Ht; lia
            end).
  all: unfold MAX_SAFE_INTEGER in *.
  all: try lia.
  all: try congruence.
  all: try (match goal with
            | H : (_ && _)%bool = false |- _ =>
                apply andb_false_iff in H; destruct H as [H | H];
                [congruence | apply Nat.eqb_neq in H; congruence]
            end).
  all: try (match goal with
            | H : (_ || _)%bool = false |- _ =>
                apply orb_false_iff in H; destruct H as [H1 H2];
                apply String.eqb_neq in H1, H2; tauto
            end).
  intros _. rewrite !String.eqb_eq in *.
  match goal with
  | H : (_ || _)%bool = false |- _ =>
      apply orb_false_iff in H; destruct H as [Hhi Hlo];
      apply Z.ltb_ge in Hhi, Hlo
  end.
  repeat split; try lia; try assumption; try congruence.
Qed.

(** [value.length] on a name of one accented letter (two bytes), on one
    emoji (four bytes, a surrogate pair) and on eleven digits. *)
Example js_length_examples :
  js_length "é" = 1 /\ js_length "😀" = 2 /\ js_length "12345678901" = 11.
Proof. repeat split. Qed.

(** X12. Validation comes before everything else in the payment route,
    whatever the database and the gateway are.  A request that breaks a
    rule of [paymentSchema] (a name of fewer than 2 or more than 255
    UTF-16 units, a cpf that is not 11 digits, an email that is empty,
    fails the address check or has more than 255 units, a phone that is
    not 10 or 11 digits, a method other than PIX and CREDIT_CARD, a plan
    other than ESSENCIAL and COMPLETO, an amount that is not positive or
    exceeds the largest safe integer) is answered 400 with one detail
    and not a single call is made.  A request that keeps every rule is
    not answered by validation: the route goes on to look the customer
    up, and that SELECT is its first call. *)
Theorem invalid_request_touches_nothing :
  forall (joi_email : string -> bool) (node_env : option string)
         (b : PaymentRequest) (W : Type) (h : Handler W) (w : W),
    let r := interp (traced h) (createPaymentHandler joi_email node_env b)
                    (w, []) in
    (~ (2 <= js_length (nome b) <= 255
        /\ all_digits (cpf b) = true /\ js_length (cpf b) = 11
        /\ email b <> "" /\ joi_email (email b) = true
        /\ js_length (email b) <= 255
        /\ 10 <= js_length (telefone b) <= 11
        /\ all_digits (telefone b) = true
        /\ (paymentMethod b = "PIX" \/ paymentMethod b = "CREDIT_CARD")
        /\ (planType b = "ESSENCIAL" \/ planType b = "COMPLETO")
        /\ (0 < amount b <= 9007199254740991)%Z) ->
     exists detail,
       r = (Resolved (mkResponse 400 (InvalidData [detail])), (w, [])))
    /\ (2 <= js_length (nome b) <= 255
        /\ all_digits (cpf b) = true /\ js_length (cpf b) = 11
        /\ email b <> "" /\ joi_email (email b) = true
        /\ js_length (email b) <= 255
        /\ 10 <= js_length (telefone b) <= 11
        /\ all_digits (telefone b) = true
        /\ (paymentMethod b = "PIX" \/ paymentMethod b = "CREDIT_CARD")
        /\ (planType b = "ESSENCIAL" \/ planType b = "COMPLETO")
        /\ (0 < amount b <= 9007199254740991)%Z ->
        exists rest,
          snd (snd r) = SelectCustomer (email b) (cpf b) :: rest).
Proof.
  intros joi_email node_env b W h w. cbv zeta.
  pose proof (validate_acceptable joi_email b) as Hva.
  unfold acceptable, MAX_SAFE_INTEGER in Hva.
  unfold createPaymentHandler. split.
  - intros Hbad. destruct (validate joi_email b) as [detail |].
    + exists detail. reflexivity.
    + exfalso. apply Hbad. now apply Hva.
  - intros Hok. apply Hva in Hok. rewrite Hok.
    unfold findOrCreateCustomer. cbn [tryCatch bind execute].
    rewrite interp_Await, traced_step.
    match goal with
    | |- context [interp (traced h) ?p ?x] =>
        destruct (interp_traced h p (fst x) (snd x)) as (_ & _ & t1 & Ht1)
    end.
    cbn [fst snd app] in Ht1. cbn [fst snd app]. rewrite Ht1.
    exists t1. reflexivity.
Qed.

(** The charge step on the tables when the gateway gives no payment. *)
Lemma createCharge_fails (b : PaymentRequest) (cid : nat)
      (aid : option string) (w : World) (t : list Stmt) (e : Exn) :
  charge_error (asaas_createPayment w (paymentDataAt b aid (js_now w)))
  = Some e ->
  interp (traced mysql) (createCharge b cid aid) (w, t)
  = (Rejected e,
     (w, t ++ [DateNow; DateNow;
               CreatePayment (paymentDataAt b aid (js_now w))])).
Proof.
  intros He. unfold createCharge.
  rewrite traced_bind_execute. cbn [mysql].
  rewrite traced_bind_execute. cbn [mysql].
  rewrite traced_bind_execute. cbn [mysql].
  rewrite <- !app_assoc. cbn [app].
  fold (paymentDataAt b aid (js_now w)).
  unfold charge_error in He.
  destruct (asaas_createPayment w (paymentDataAt b aid (js_now w)))
    as [ap | e0].
  - destruct (ap_id ap) as [apid |].
    + destruct (String.eqb apid ""); [| discriminate].
      injection He as <-. reflexivity.
    + injection He as <-. reflexivity.
  - injection He as <-. reflexivity.
Qed.

(** The charge step on the tables when the gateway gives a payment
    whose id is new and the customer exists. *)
Lemma createCharge_succeeds (b : PaymentRequest) (cid : nat)
      (aid : option string) (w : World) (t : list Stmt) (ap : AsaasPayment)
      (apid : string) :
  asaas_createPayment w (paymentDataAt b aid (js_now w)) = Resolved ap ->
  ap_id ap = Some apid ->
  apid <> "" ->
  existsb (has_asaas_id apid) (payments w) = false ->
  existsb (fun c => Nat.eqb (c_id c) cid) (customers w) = true ->
  interp (traced mysql) (createCharge b cid aid) (w, t)
  = (Resolved (mkResponse 200
                 (PaymentCreated
                    (created_json b ap (next_id p_id (payments w)) apid))),
     (set_payments w
        (payments w
         ++ [mkPayment (next_id p_id (payments w)) cid apid (planType b)
                       (paymentMethod b) (amount b) "PENDING"
                       (Some (planType b ++ "_" ++ decimal (js_now w))%string)
                       (db_now w) (db_now w)]),
      t ++ [DateNow; DateNow;
            CreatePayment (paymentDataAt b aid (js_now w));
            InsertPayment cid apid (planType b) (paymentMethod b) (amount b)
                          (planType b ++ "_" ++ decimal (js_now w))%string])).
Proof.
  intros Hgw Hid Hne Hfresh Hfk. unfold createCharge.
  rewrite traced_bind_execute. cbn [mysql].
  rewrite traced_bind_execute. cbn [mysql].
  rewrite traced_bind_execute. cbn [mysql].
  fold (paymentDataAt b aid (js_now w)). rewrite Hgw, Hid.
  apply String.eqb_neq in Hne. rewrite Hne.
  rewrite traced_bind_execute. cbn [mysql].
  rewrite Hfresh, Hfk. cbn [orb negb interp].
  rewrite <- !app_assoc. reflexivity.
Qed.

(** X13. When no stored customer matches and the gateway does not give
    a customer id (the call is rejected, or its answer has no id), the
    request is answered 500 and nothing is created: customers and
    payments are as before, no charge is attempted, and the only write is
    one payment_errors row with the error message and the request. *)
Theorem customer_creation_failure_is_recorded :
  forall (joi_email : string -> bool) (node_env : option string)
         (w : World) (b : PaymentRequest) (e : Exn),
    validate joi_email b = None ->
    filter (matches_customer (email b) (cpf b)) (customers w) = [] ->
    customer_creation_error
      (asaas_createCustomer w
         (mkCustomerData (nome b) (cpf b) (email b) (telefone b)))
    = Some e ->
    interp (traced mysql) (createPaymentHandler joi_email node_env b) (w, [])
    = (Resolved (internal_error node_env e),
       (with_payment_error e b w,
        [SelectCustomer (email b) (cpf b);
         CreateCustomer (mkCustomerData (nome b) (cpf b) (email b)
                                        (telefone b));
         InsertPaymentError (message e) b])).
Proof.
  intros joi_email node_env w b e Hv Hf He.
  unfold createPaymentHandler. rewrite Hv.
  rewrite interp_tryCatch, interp_bind.
  assert (Hstep : interp (traced mysql) (findOrCreateCustomer b) (w, [])
                  = (Rejected e,
                     (w, [SelectCustomer (email b) (cpf b);
                          CreateCustomer
                            (mkCustomerData (nome b) (cpf b) (email b)
                                            (telefone b))]))).
  { unfold findOrCreateCustomer.
    rewrite traced_bind_execute. cbn [mysql]. rewrite Hf.
    rewrite traced_bind_execute. cbn [mysql].
    unfold customer_creation_error in He.
    destruct (asaas_createCustomer w _) as [ac | e0].
    - destruct (ac_id ac) as [id |].
      + destruct (String.eqb id ""); [| discriminate].
        injection He as <-. reflexivity.
      + injection He as <-. reflexivity.
    - injection He as <-. reflexivity. }
  rewrite Hstep. apply paymentFailed_run.
Qed.

(** X14. Nothing is rolled back when the charge fails after the
    customer step.  For a new customer whose creation succeeded: if the
    gateway then gives no payment (rejection, or an answer without id),
    the request is answered 500 and recorded in payment_errors, no
    payments row is written, and the customer row just inserted stays in
    the table. *)
Theorem new_customer_survives_failed_charge :
  forall (joi_email : string -> bool) (node_env : option string)
         (w : World) (b : PaymentRequest) (aid json : string) (e : Exn),
    validate joi_email b = None ->
    filter (matches_customer (email b) (cpf b)) (customers w) = [] ->
    asaas_createCustomer w
      (mkCustomerData (nome b) (cpf b) (email b) (telefone b))
    = Resolved (mkAsaasCustomer (Some aid) json) ->
    aid <> "" ->
    (forall c, In c (customers w) -> c_asaas_customer_id c <> Some aid) ->
    charge_error (asaas_createPayment w (paymentDataAt b (Some aid) (js_now w)))
    = Some e ->
    let r := interp (traced mysql)
                    (createPaymentHandler joi_email node_env b) (w, []) in
    fst r = Resolved (internal_error node_env e)
    /\ customers (fst (snd r))
       = customers w
         ++ [mkCustomer (next_id c_id (customers w)) (nome b) (cpf b)
                        (email b) (telefone b) (Some aid)
                        (db_now w) (db_now w)]
    /\ payments (fst (snd r)) = payments w
    /\ payment_errors (fst (snd r))
       = payment_errors w
         ++ [mkPaymentError (next_id e_id (payment_errors w)) (message e) b
                            (db_now w)].
Proof.
  intros joi_email node_env w b aid json e Hv Hf Hgw Hne Hfresh He. cbv zeta.
  unfold createPaymentHandler. rewrite Hv.
  rewrite (interp_tryCatch_bind _ _ _ _ _ _ _
             (findOrCreateCustomer_created b w aid json Hf Hgw Hne Hfresh)).
  cbn [fst snd]. rewrite interp_tryCatch.
  rewrite (createCharge_fails b _ (Some aid) _ _ e) by exact He.
  rewrite paymentFailed_run. cbn. repeat split.
Qed.

(** What the customer step leaves alone, and what it guarantees when
    it resolves: the customer whose id it returns is in the table. *)
Lemma findOrCreateCustomer_frame (b : PaymentRequest) (w w1 : World)
      (t t1 : list Stmt) (o : Outcome (nat * option string)) :
  interp (traced mysql) (findOrCreateCustomer b) (w, t) = (o, (w1, t1)) ->
  payments w1 = payments w
  /\ payment_errors w1 = payment_errors w
  /\ db_now w1 = db_now w /\ js_now w1 = js_now w
  /\ asaas_createPayment w1 = asaas_createPayment w
  /\ forall cid aid,
      o = Resolved (cid, aid) ->
      existsb (fun c => Nat.eqb (c_id c) cid) (customers w1) = true.
Proof.
  unfold findOrCreateCustomer.
  rewrite traced_bind_execute. cbn [mysql].
  destruct (filter (matches_customer (email b) (cpf b)) (customers w))
    as [| existing others] eqn:Hf.
  - rewrite traced_bind_execute. cbn [mysql].
    destruct (asaas_createCustomer w _) as [ac | e].
    + destruct (ac_id ac) as [id |].
      * destruct (String.eqb id "").
        -- cbn. intros H. injection H as <- <- _. repeat split. discriminate.
        -- rewrite traced_bind_execute. cbn [mysql].
           destruct (existsb (customer_clash (cpf b) (email b) id) (customers w)).
           ++ intros H. injection H as <- <- _. repeat split. discriminate.
           ++ cbn. intros H. injection H as <- <- _. repeat split.
              intros cid aid E. injection E as <- _. cbn.
              rewrite existsb_app. cbn. rewrite Nat.eqb_refl.
              now rewrite orb_true_r.
      * cbn. intros H. injection H as <- <- _. repeat split. discriminate.
    + intros H. injection H as <- <- _. repeat split. discriminate.
  - rewrite traced_bind_execute. cbn [mysql interp].
    intros H. injection H as <- <- _. repeat split.
    intros cid aid E. injection E as <- _. cbn.
    apply existsb_exists.
    assert (Hin : In existing (customers w)).
    { assert (H : In existing (filter (matches_customer (email b) (cpf b))
                                      (customers w)))
        by (rewrite Hf; now left).
      apply filter_In in H. tauto. }
    exists (refreshed (nome b) (telefone b) (db_now w) existing). split.
    + apply in_map_iff. exists existing. split; [| exact Hin].
      now rewrite Nat.eqb_refl.
    + cbn. apply Nat.eqb_refl.
Qed.

(** The charge step on the tables: either it throws and has written
    nothing, or it has appended the PENDING row of the payment it
    reports. *)
Lemma createCharge_cases (b : PaymentRequest) (cid : nat)
      (aid : option string) (w : World) (t : list Stmt) :
  (exists e t',
      interp (traced mysql) (createCharge b cid aid) (w, t)
      = (Rejected e, (w, t')))
  \/ (exists ap apid t',
         existsb (has_asaas_id apid) (payments w) = false
         /\ interp (traced mysql) (createCharge b cid aid) (w, t)
            = (Resolved (mkResponse 200
                           (PaymentCreated
                              (created_json b ap (next_id p_id (payments w))
                                            apid))),
               (set_payments w
                  (payments w
                   ++ [mkPayment (next_id p_id (payments w)) cid apid
                                 (planType b) (paymentMethod b) (amount b)
                                 "PENDING"
                                 (Some (planType b ++ "_"
                                        ++ decimal (js_now w))%string)
                                 (db_now w) (db_now w)]),
                t'))).
Proof.
  destruct (charge_error (asaas_createPayment w (paymentDataAt b aid (js_now w))))
    as [e |] eqn:He.
  - left. eexists _, _. apply createCharge_fails. exact He.
  - unfold charge_error in He.
    destruct (asaas_createPayment w (paymentDataAt b aid (js_now w)))
      as [ap | e0] eqn:Hgw; [| discriminate].
    destruct (ap_id ap) as [apid |] eqn:Hid; [| discriminate].
    destruct (String.eqb_spec apid "") as [| Hne]; [discriminate |].
    destruct (existsb (has_asaas_id apid) (payments w)) eqn:Hdup;
      [| destruct (existsb (fun c => Nat.eqb (c_id c) cid) (customers w))
           eqn:Hfk].
    + left. unfold createCharge.
      rewrite traced_bind_execute. cbn [mysql].
      rewrite traced_bind_execute. cbn [mysql].
      rewrite traced_bind_execute. cbn [mysql].
      fold (paymentDataAt b aid (js_now w)). rewrite Hgw, Hid.
      apply String.eqb_neq in Hne. rewrite Hne.
      rewrite traced_bind_execute. cbn [mysql]. rewrite Hdup. cbn [orb].
      eexists _, _. reflexivity.
    + right. exists ap, apid. eexists. split; [exact Hdup |].
      now apply createCharge_succeeds.
    + left. unfold createCharge.
      rewrite traced_bind_execute. cbn [mysql].
      rewrite traced_bind_execute. cbn [mysql].
      rewrite traced_bind_execute. cbn [mysql].
      fold (paymentDataAt b aid (js_now w)). rewrite Hgw, Hid.
      apply String.eqb_neq in Hne. rewrite Hne.
      rewrite traced_bind_execute. cbn [mysql]. rewrite Hdup, Hfk. cbn [orb negb].
      eexists _, _. reflexivity.
Qed.

(** Every 200 of the payment route, on the tables. *)
Lemma created_means_inserted (joi_email : string -> bool)
      (node_env : option string) (w w' : World) (b : PaymentRequest)
      (res : Response) (calls : list Stmt) :
  interp (traced mysql) (createPaymentHandler joi_email node_env b) (w, [])
  = (Resolved res, (w', calls)) ->
  status res = 200 ->
  exists data cid ref,
    json res = PaymentCreated data
    /\ payments w'
       = payments w
         ++ [mkPayment (r_paymentId data) cid (r_asaasPaymentId data)
                       (planType b) (paymentMethod b) (amount b) "PENDING"
                       (Some ref) (db_now w) (db_now w)]
    /\ existsb (has_asaas_id (r_asaasPaymentId data)) (payments w) = false
    /\ existsb (fun c => Nat.eqb (c_id c) cid) (customers w') = true
    /\ payment_errors w' = payment_errors w.
Proof.
  unfold createPaymentHandler.
  destruct (validate joi_email b) as [d |].
  { cbn. intros H. injection H as <- _ _. discriminate. }
  rewrite interp_tryCatch, interp_bind.
  destruct (interp (traced mysql) (findOrCreateCustomer b) (w, []))
    as [[[cid aid] | e] [w1 t1]] eqn:Hstep.
  - destruct (findOrCreateCustomer_frame b w w1 [] t1 _ Hstep)
      as (Hp & Hpe & Hn & Hj & _ & Hex).
    specialize (Hex cid aid eq_refl). cbn [fst snd].
    destruct (createCharge_cases b cid aid w1 t1)
      as [(e & t' & ->) | (ap & apid & t' & Hfresh & ->)].
    + rewrite paymentFailed_run. intros H. injection H as <- _ _. discriminate.
    + intros H _. injection H as <- <- _.
      eexists _, cid, _. cbn. rewrite Hp, Hn in *.
      repeat split; auto.
  - rewrite paymentFailed_run. intros H. injection H as <- _ _. discriminate.
Qed.

Lemma status_of_last (id : string) (ps : list PaymentRow) (row : PaymentRow) :
  existsb (has_asaas_id id) ps = false ->
  p_asaas_payment_id row = id ->
  status_of id (ps ++ [row]) = Some (p_status row).
Proof.
  intros Hno Hid. unfold status_of. rewrite filter_app.
  assert (E : filter (has_asaas_id id) ps = []).
  { induction ps as [| x xs IH]; [reflexivity |].
    cbn in *. apply orb_false_iff in Hno as [Hx Hxs].
    rewrite Hx. now apply IH. }
  rewrite E. cbn. unfold has_asaas_id. rewrite Hid, String.eqb_refl.
  reflexivity.
Qed.

(** X15. A 200 of the payment route always stands for one new row:
    whenever the route answers 200, the body is the created payment,
    the payments table has grown by exactly one row that carries the
    ids of the answer, the plan, method and amount of the request, the
    status PENDING and the id of a customer that is in the customers
    table, and nothing was written to payment_errors. *)
Theorem created_answer_has_its_row :
  forall (joi_email : string -> bool) (node_env : option string)
         (w w' : World) (b : PaymentRequest) (res : Response)
         (calls : list Stmt),
    interp (traced mysql) (createPaymentHandler joi_email node_env b) (w, [])
    = (Resolved res, (w', calls)) ->
    status res = 200 ->
    exists data cid ref,
      json res = PaymentCreated data
      /\ payments w'
         = payments w
           ++ [mkPayment (r_paymentId data) cid (r_asaasPaymentId data)
                         (planType b) (paymentMethod b) (amount b) "PENDING"
                         (Some ref) (db_now w) (db_now w)]
      /\ existsb (fun c => Nat.eqb (c_id c) cid) (customers w') = true
      /\ status_of (r_asaasPaymentId data) (payments w') = Some "PENDING"
      /\ payment_errors w' = payment_errors w.
Proof.
  intros joi_email node_env w w' b res calls Hrun H200.
  destruct (created_means_inserted _ _ _ _ _ _ _ Hrun H200)
    as (data & cid & ref & Hj & Hp & Hfresh & Hc & He).
  exists data, cid, ref. repeat split; try assumption.
  rewrite Hp. apply status_of_last; [exact Hfresh | reflexivity].
Qed.

(** The stored status after a delivery of a known event for a payment
    that has a row. *)
Lemma delivery_sets_status (w : World) (body : WebhookBody) (e : EventType)
      (p : PaymentObj) :
  event body = event_name e -> payment body = Some p ->
  (exists row, In row (payments w) /\ p_asaas_payment_id row = po_id p) ->
  status_of (po_id p) (payments (snd (interp mysql (postAsaas body) w)))
  = Some (table_status e).
Proof.
  intros He Hp Hrow.
  destruct (postAsaas_mysql_frame body w) as (-> & _).
  rewrite He, Hp, dispatch_mysql. cbn [snd].
  now apply status_of_transition.
Qed.

(** X16. Creation and notification meet on the gateway id.  After a
    200 of the payment route, a delivery of any event of the table of
    section 4.3 whose payment id is the asaasPaymentId of the answer
    finds the row the route wrote and leaves it with the status of the
    table for that event. *)
Theorem created_payment_is_reached_by_webhook :
  forall (joi_email : string -> bool) (node_env : option string)
         (w w' : World) (b : PaymentRequest) (res : Response)
         (calls : list Stmt) (data : PaymentJson)
         (body : WebhookBody) (e : EventType) (p : PaymentObj),
    interp (traced mysql) (createPaymentHandler joi_email node_env b) (w, [])
    = (Resolved res, (w', calls)) ->
    status res = 200 ->
    json res = PaymentCreated data ->
    event body = event_name e ->
    payment body = Some p ->
    po_id p = r_asaasPaymentId data ->
    status_of (r_asaasPaymentId data)
              (payments (snd (interp mysql (postAsaas body) w')))
    = Some (table_status e).
Proof.
  intros joi_email node_env w w' b res calls data body e p
         Hrun H200 Hj He Hp Hid.
  destruct (created_means_inserted _ _ _ _ _ _ _ Hrun H200)
    as (data' & cid & ref & Hj' & Hpay & _).
  rewrite Hj in Hj'. injection Hj' as <-.
  rewrite <- Hid. apply delivery_sets_status; try assumption.
  eexists. split.
  - rewrite Hpay. apply in_or_app. right. left. reflexivity.
  - cbn. now rewrite Hid.
Qed.

(** The charge step under any database and gateway: what it can answer. *)
Lemma createCharge_answers {W : Type} (h : Handler W) (w w' : W)
      (b : PaymentRequest) (cid : nat) (aid : option string)
      (res : Response) :
  interp h (createCharge b cid aid) w = (Resolved res, w') ->
  exists data,
    res = mkResponse 200 (PaymentCreated data)
    /\ (r_creditCard data <> None <-> paymentMethod b = "CREDIT_CARD")
    /\ (r_pix data <> None -> paymentMethod b = "PIX").
Proof.
  unfold createCharge. cbv zeta.
  rewrite interp_bind, interp_execute.
  destruct (h DateNow w) as [[d1 | e] w1]; [| discriminate].
  rewrite interp_bind, interp_execute.
  destruct (h DateNow w1) as [[d2 | e] w2]; [| discriminate].
  rewrite interp_bind, interp_execute.
  destruct (h (CreatePayment _) w2) as [[ap | e] w3]; [| discriminate].
  destruct (ap_id ap) as [apid |]; [| discriminate].
  destruct (String.eqb apid ""); [discriminate |].
  rewrite interp_bind, interp_execute.
  destruct (h (InsertPayment _ _ _ _ _ _) w3) as [[pkt | e] w4];
    [| discriminate].
  cbn [interp]. intros H. injection H as <- _. eexists.
  split; [reflexivity |].
  cbn [r_creditCard r_pix].
  destruct (String.eqb_spec (paymentMethod b) "CREDIT_CARD") as [Hc | Hc];
    destruct (String.eqb_spec (paymentMethod b) "PIX") as [Hx | Hx].
  - rewrite Hc in Hx. discriminate.
  - split; [split; [auto | discriminate] | intros H; now contradiction H].
  - split; [split; [intros H; now contradiction H | contradiction] | auto].
  - split; [split; [intros H; now contradiction H | contradiction] |
            intros H; now contradiction H].
Qed.

Lemma paymentFailed_returns {W : Type} (h : Handler W) (w : W)
      (node_env : option string) (b : PaymentRequest) (e : Exn) :
  exists w',
    interp h (paymentFailed node_env b e) w
    = (Resolved (internal_error node_env e), w').
Proof.
  unfold paymentFailed. cbn [bind tryCatch execute interp].
  destruct (h (InsertPaymentError (message e) b) w) as [[r | e'] w1];
    cbn; eexists; reflexivity.
Qed.

(** X17. The payment route always answers, whatever the database and
    the gateway do: with 200, 400 or 500.  A 200 carries the created
    payment, whose creditCard block is present exactly when the method
    of the request is CREDIT_CARD and whose pix block is present only
    when it is PIX, so never both; a 400 is a validation error and a
    500 an internal error. *)
Theorem createPaymentHandler_always_answers :
  forall (W : Type) (h : Handler W) (w : W) (joi_email : string -> bool)
         (node_env : option string) (b : PaymentRequest),
  exists res w',
    interp h (createPaymentHandler joi_email node_env b) w = (Resolved res, w')
    /\ ((exists data,
            res = mkResponse 200 (PaymentCreated data)
            /\ validate joi_email b = None
            /\ (r_creditCard data <> None
                <-> paymentMethod b = "CREDIT_CARD")
            /\ (r_pix data <> None -> paymentMethod b = "PIX")
            /\ (r_pix data = None \/ r_creditCard data = None))
        \/ (exists d,
               res = mkResponse 400 (InvalidData [d])
               /\ validate joi_email b = Some d)
        \/ (exists e,
               res = internal_error node_env e
               /\ validate joi_email b = None)).
Proof.
  intros W h w joi_email node_env b. unfold createPaymentHandler.
  rewrite interp_tryCatch.
  destruct (validate joi_email b) as [d |] eqn:Hv.
  - cbn. eexists _, _. split; [reflexivity |]. right. left. eauto.
  - rewrite interp_bind.
    destruct (interp h (findOrCreateCustomer b) w) as [[ids | e] w1].
    + destruct (interp h (createCharge b (fst ids) (snd ids)) w1)
        as [[res | e] w2] eqn:Hc.
      * destruct (createCharge_answers h _ _ _ _ _ _ Hc)
          as (data & -> & Hcard & Hpix).
        eexists _, _. split; [reflexivity |]. left. exists data.
        repeat split; try tauto.
        destruct (r_pix data) as [px |]; [| now left]. right.
        destruct (r_creditCard data) as [cc |]; [| reflexivity].
        exfalso.
        assert (H1 : paymentMethod b = "PIX") by (apply Hpix; discriminate).
        assert (H2 : paymentMethod b = "CREDIT_CARD")
          by (apply Hcard; discriminate).
        rewrite H1 in H2. discriminate.
      * destruct (paymentFailed_returns h w2 node_env b e) as (w3 & ->).
        eexists _, _. split; [reflexivity |]. right. right. eauto.
    + destruct (paymentFailed_returns h w1 node_env b e) as (w3 & ->).
      eexists _, _. split; [reflexivity |]. right. right. eauto.
Qed.

(* ================================================================== *)
(** * GET /payment-status/:id *)

Lemma join_by_id_In (id : nat) (w : World) (p : PaymentRow) (c : CustomerRow) :
  In (p, c) (join_by_id id w) ->
  In p (payments w) /\ p_id p = id
  /\ In c (customers w) /\ c_id c = p_customer_id p.
Proof.
  unfold join_by_id. intros H. apply in_flat_map in H as (p' & Hp & Hc).
  apply filter_In in Hp as (Hp & Hid). apply Nat.eqb_eq in Hid.
  apply in_map_iff in Hc as (c' & E & Hc). injection E as <- <-.
  apply filter_In in Hc as (Hc & Hcid). apply Nat.eqb_eq in Hcid. auto.
Qed.

Lemma join_by_id_updated (st : string) (id : nat) (w : World) :
  join_by_id id
    (set_payments w (update_status_by_id st id (db_now w) (payments w)))
  = map (fun pc => (with_status st (db_now w) (fst pc), snd pc))
        (join_by_id id w).
Proof.
  unfold join_by_id, update_status_by_id. cbn [payments customers set_payments].
  induction (payments w) as [| p ps IH]; [reflexivity |].
  cbn [map filter].
  destruct (Nat.eqb (p_id p) id) eqn:Hid.
  - cbn [with_status p_id]. rewrite Hid. cbn [flat_map].
    rewrite map_app, IH, map_map. reflexivity.
  - rewrite Hid. exact IH.
Qed.

Lemma key_determines_row {A K : Type} (key : A -> K) (l : list A) (a b : A) :
  NoDup (map key l) -> In a l -> In b l -> key a = key b -> a = b.
Proof.
  induction l as [| x xs IH]; [contradiction |].
  cbn. intros Hnd [-> | Ha] [-> | Hb] E; inversion Hnd as [| ? ? Hx Hxs];
    subst; auto.
  - exfalso. apply Hx. rewrite E. now apply in_map.
  - exfalso. apply Hx. rewrite <- E. now apply in_map.
Qed.

Lemma update_status_by_id_In (st : string) (id : nat) (now : Z)
      (ps : list PaymentRow) (row : PaymentRow) :
  In row (update_status_by_id st id now ps) ->
  (p_id row = id /\ p_status row = st)
  \/ (p_id row <> id /\ In row ps).
Proof.
  unfold update_status_by_id. intros H.
  apply in_map_iff in H as (p & E & Hp).
  destruct (Nat.eqb_spec (p_id p) id) as [Hid | Hid]; subst row.
  - left. cbn. auto.
  - right. auto.
Qed.

Lemma update_status_by_id_keys (st : string) (id : nat) (now : Z)
      (ps : list PaymentRow) :
  map p_id (update_status_by_id st id now ps) = map p_id ps.
Proof.
  unfold update_status_by_id. rewrite map_map. apply map_ext.
  intros p. now destruct (Nat.eqb (p_id p) id).
Qed.

(** X18. What the status route answers is what it leaves stored.  On a
    payments table whose ids are distinct (the PRIMARY KEY), whenever
    the route answers 200 the body is the payment with the requested
    id, the status it reports is the one the gateway gave, and
    afterwards the row with that id carries this status; the rows with
    other ids, the ids themselves and the customers are as before. *)
Theorem status_route_stores_what_it_reports :
  forall (asaas_getPayment : string -> Outcome AsaasPayment)
         (node_env : option string) (paymentId : nat) (w : World),
    NoDup (map p_id (payments w)) ->
    let r := getPaymentStatus asaas_getPayment node_env paymentId w in
    fst (fst r) = 200 ->
    exists data st ap,
      snd (fst r) = StatusData data
      /\ s_id data = paymentId
      /\ asaas_getPayment (s_asaasPaymentId data) = Resolved ap
      /\ ap_status ap = Some st
      /\ s_status data = Some st
      /\ (forall row, In row (payments (snd r)) -> p_id row = paymentId ->
                      p_status row = st
                      /\ p_asaas_payment_id row = s_asaasPaymentId data)
      /\ (forall row, In row (payments (snd r)) -> p_id row <> paymentId ->
                      In row (payments w))
      /\ map p_id (payments (snd r)) = map p_id (payments w)
      /\ customers (snd r) = customers w.
Proof.
  intros getP node_env id w Hkey. cbv zeta.
  unfold getPaymentStatus, refreshStatus.
  destruct (join_by_id id w) as [| [p c] rest] eqn:Hjoin;
    [cbn; discriminate |].
  assert (Hin : In (p, c) (join_by_id id w)) by (rewrite Hjoin; now left).
  apply join_by_id_In in Hin as (Hp & Hid & Hc & Hcid).
  cbn [fst snd].
  destruct (getP (p_asaas_payment_id p)) as [ap | e] eqn:Hgw;
    [| cbn; discriminate].
  destruct (ap_status ap) as [st |] eqn:Hst; cbn [differs];
    [| cbn; discriminate].
  destruct (String.eqb_spec st (p_status p)) as [Heq | Hne]; cbn [negb fst snd];
    intros _; eexists _, st, ap; cbn [s_id s_status s_asaasPaymentId];
    (split; [reflexivity |]); (split; [exact Hid |]);
    (split; [exact Hgw |]); (split; [exact Hst |]);
    (split; [reflexivity |]).
  - repeat split; auto.
    + rewrite <- Hid in H0.
      now rewrite (key_determines_row p_id _ _ _ Hkey H Hp H0).
    + rewrite <- Hid in H0.
      now rewrite (key_determines_row p_id _ _ _ Hkey H Hp H0).
  - cbn [payments set_payments customers set_payments]. repeat split.
    + apply update_status_by_id_In in H as [(_ & Hs) | (Hn & _)];
        [exact Hs | contradiction].
    + apply in_map_iff in H as (q & E & Hq).
      destruct (Nat.eqb_spec (p_id q) id) as [Hq' | Hq'].
      * subst row. cbn. rewrite <- Hid in Hq'.
        now rewrite (key_determines_row p_id _ _ _ Hkey Hq Hp Hq').
      * subst row. contradiction.
    + intros row H Hn.
      apply update_status_by_id_In in H as [(Hi & _) | (_ & Hr)];
        [contradiction | exact Hr].
    + apply update_status_by_id_keys.
Qed.

(** X19. Any other answer of the status route leaves the tables as
    they were.  The route answers 404 exactly when no payments row with
    that id is joined to a customer, and whenever it answers something
    other than 200 (404, or 500 after the gateway rejected or gave no
    status) nothing was written. *)
Theorem status_route_failure_changes_nothing :
  forall (asaas_getPayment : string -> Outcome AsaasPayment)
         (node_env : option string) (paymentId : nat) (w : World),
    let r := getPaymentStatus asaas_getPayment node_env paymentId w in
    (fst (fst r) = 200 \/ fst (fst r) = 404 \/ fst (fst r) = 500)
    /\ (fst (fst r) = 404 <->
        forall p c, In p (payments w) -> In c (customers w) ->
                    p_id p = paymentId -> c_id c <> p_customer_id p)
    /\ (fst (fst r) <> 200 -> snd r = w).
Proof.
  intros getP node_env id w. cbv zeta.
  unfold getPaymentStatus, refreshStatus.
  destruct (join_by_id id w) as [| [p c] rest] eqn:Hjoin.
  - cbn. split; [auto |]. split; [| reflexivity].
    split; [| reflexivity]. intros _ p c Hp Hc Hid Hcid.
    assert (H : In (p, c) (join_by_id id w)).
    { unfold join_by_id. apply in_flat_map. exists p. split.
      - apply filter_In. split; [exact Hp | now apply Nat.eqb_eq].
      - apply in_map. apply filter_In. split; [exact Hc | now apply Nat.eqb_eq]. }
    rewrite Hjoin in H. exact H.
  - assert (Hin : In (p, c) (join_by_id id w)) by (rewrite Hjoin; now left).
    apply join_by_id_In in Hin as (Hp & Hid & Hc & Hcid).
    assert (Hno : ~ (forall p c, In p (payments w) -> In c (customers w) ->
                                 p_id p = id -> c_id c <> p_customer_id p)).
    { intros H. exact (H p c Hp Hc Hid Hcid). }
    cbn [fst snd].
    destruct (getP (p_asaas_payment_id p)) as [ap | e].
    + destruct (ap_status ap) as [st |]; cbn [differs].
      * destruct (String.eqb st (p_status p)); cbn [negb fst snd];
          (split; [auto |]); (split; [split; [discriminate | contradiction] |]);
          intros H; now contradiction H.
      * cbn. split; [auto |].
        split; [split; [discriminate | contradiction] | reflexivity].
    + cbn. split; [auto |].
      split; [split; [discriminate | contradiction] | reflexivity].
Qed.

(** X20. Asking again changes nothing more.  With the gateway giving
    the same answers, a second request for the same id right after the
    first leaves the tables as the first left them and is answered with
    the same status code: the first request has already stored the
    status the gateway reports. *)
Theorem status_route_settles :
  forall (asaas_getPayment : string -> Outcome AsaasPayment)
         (node_env : option string) (paymentId : nat) (w : World),
    let r := getPaymentStatus asaas_getPayment node_env paymentId w in
    let r' := getPaymentStatus asaas_getPayment node_env paymentId (snd r) in
    snd r' = snd r /\ fst (fst r') = fst (fst r).
Proof.
  intros getP node_env id w. cbv zeta.
  unfold getPaymentStatus, refreshStatus.
  destruct (join_by_id id w) as [| [p c] rest] eqn:Hjoin.
  - cbn [fst snd]. rewrite Hjoin. split; reflexivity.
  - cbn [fst snd].
    destruct (getP (p_asaas_payment_id p)) as [ap | e] eqn:Hgw.
    + destruct (ap_status ap) as [st |] eqn:Hst; cbn [differs].
      * destruct (String.eqb st (p_status p)) eqn:Heq; cbn [negb fst snd].
        -- rewrite Hjoin. cbn [fst snd]. rewrite Hgw, Hst. cbn [differs].
           rewrite Heq. split; reflexivity.
        -- rewrite join_by_id_updated, Hjoin. cbn [map fst snd with_status
             p_asaas_payment_id p_status].
           rewrite Hgw, Hst. cbn [differs]. rewrite String.eqb_refl.
           split; reflexivity.
      * cbn [fst snd]. rewrite Hjoin. cbn [fst snd]. rewrite Hgw, Hst.
        split; reflexivity.
    + cbn [fst snd]. rewrite Hjoin. cbn [fst snd]. rewrite Hgw.
      split; reflexivity.
Qed.

(* ================================================================== *)
(** * GET /payments *)

Lemma insert_desc_In (x p : PaymentRow) (ps : list PaymentRow) :
  In x (insert_desc p ps) -> x = p \/ In x ps.
Proof.
  induction ps as [| q rest IH]; cbn.
  - intros [<- | []]. now left.
  - destruct (Z.leb (p_created_at q) (p_created_at p)); cbn.
    + intros [<- | H]; auto.
    + intros [<- | H]; auto. destruct (IH H); auto.
Qed.

Lemma recent_first_In (x : PaymentRow) (ps : list PaymentRow) :
  In x (recent_first ps) -> In x ps.
Proof.
  unfold recent_first. induction ps as [| p rest IH]; cbn; [auto |].
  intros H. apply insert_desc_In in H as [<- | H]; auto.
Qed.

Lemma listed_In (flt : option string) (w : World) (p : PaymentRow)
      (c : CustomerRow) :
  In (p, c) (listed flt w) ->
  In p (payments w) /\ has_status flt p = true
  /\ In c (customers w) /\ c_id c = p_customer_id p.
Proof.
  unfold listed. intros H. apply in_flat_map in H as (p' & Hp & Hc).
  apply recent_first_In, filter_In in Hp as (Hp & Hs).
  apply in_map_iff in Hc as (c' & E & Hc). injection E as <- <-.
  apply filter_In in Hc as (Hc & Hcid). apply Nat.eqb_eq in Hcid. auto.
Qed.

Lemma page_In {A : Type} (n m : nat) (l : list A) (x : A) :
  In x (firstn n (skipn m l)) -> In x l.
Proof.
  intros H. rewrite <- (firstn_skipn m l). apply in_or_app. right.
  rewrite <- (firstn_skipn n (skipn m l)). apply in_or_app. now left.
Qed.

Lemma or_default_nonzero (x : option Z) (d : Z) :
  d <> 0%Z -> or_default x d <> 0%Z.
Proof.
  intros Hd. unfold or_default. destruct x as [n |]; [| exact Hd].
  destruct (Z.eqb_spec n 0); auto.
Qed.

(** A 200 of the listing, taken apart, at a server that refuses
    negative bounds. *)
Lemma listPayments_ok (parseInt : option string -> option Z)
      (refused : Z -> Z -> option Exn)
      (node_env : option string) (q_page q_limit q_status : option string)
      (w : World) (rows : list (PaymentRow * CustomerRow)) (pg : Pagination) :
  (forall l o, refused l o = None -> (0 <= l)%Z /\ (0 <= o)%Z) ->
  listPayments parseInt refused node_env q_page q_limit q_status w
  = (200, Listing rows pg) ->
  let page := or_default (parseInt q_page) 1 in
  let limit := or_default (parseInt q_limit) 20 in
  (1 <= page)%Z /\ (1 <= limit)%Z
  /\ rows = firstn (Z.to_nat limit)
                   (skipn (Z.to_nat ((page - 1) * limit))
                          (listed (status_filter q_status) w))
  /\ pg = mkPagination page limit
            (count_payments (status_filter q_status) w)
            (ceil_div (count_payments (status_filter q_status) w) limit)
            (page <? ceil_div (count_payments (status_filter q_status) w)
                              limit)%Z
            (1 <? page)%Z.
Proof.
  intros Hneg. cbv zeta. unfold listPayments, select_page.
  pose proof (or_default_nonzero (parseInt q_page) 1 ltac:(discriminate)) as Hp.
  pose proof (or_default_nonzero (parseInt q_limit) 20 ltac:(discriminate)) as Hl.
  destruct (refused (or_default (parseInt q_limit) 20)
                    ((or_default (parseInt q_page) 1 - 1)
                     * or_default (parseInt q_limit) 20)%Z) as [e |] eqn:Hr;
    [discriminate |].
  destruct (Hneg _ _ Hr) as [Hl0 Ho0].
  intros H. injection H as <- <-.
  repeat split; nia.
Qed.

(** X21. The rows of a page.  At a server that refuses negative bounds
    (whatever else it refuses), whenever the listing answers 200 it
    holds at most [limit] rows, each one a row of payments joined to the
    customer whose id it references, and when a non-empty status was
    asked for every row has that status. *)
Theorem listing_rows_are_bounded_and_filtered :
  forall (parseInt : option string -> option Z)
         (refused : Z -> Z -> option Exn) (node_env : option string)
         (q_page q_limit q_status : option string) (w : World)
         (rows : list (PaymentRow * CustomerRow)) (pg : Pagination),
    (forall l o, refused l o = None -> (0 <= l)%Z /\ (0 <= o)%Z) ->
    listPayments parseInt refused node_env q_page q_limit q_status w
    = (200, Listing rows pg) ->
    (Z.of_nat (length rows) <= pg_limit pg)%Z
    /\ forall p c,
        In (p, c) rows ->
        In p (payments w) /\ In c (customers w)
        /\ c_id c = p_customer_id p
        /\ forall s, q_status = Some s -> s <> "" -> p_status p = s.
Proof.
  intros parseInt refused node_env q_page q_limit q_status w rows pg Hneg H.
  destruct (listPayments_ok _ _ _ _ _ _ _ _ _ Hneg H) as (Hp & Hl & -> & ->).
  cbn [pg_limit]. split.
  - pose proof (firstn_le_length
                  (Z.to_nat (or_default (parseInt q_limit) 20))
                  (skipn (Z.to_nat ((or_default (parseInt q_page) 1 - 1)
                                    * or_default (parseInt q_limit) 20))
                         (listed (status_filter q_status) w))) as Hlen.
    lia.
  - intros p c Hin. apply page_In, listed_In in Hin as (Hpay & Hs & Hc & Hcid).
    repeat split; try assumption.
    intros s -> Hne. cbn in Hs. apply String.eqb_neq in Hne.
    rewrite Hne in Hs. cbn in Hs. now apply String.eqb_eq.
Qed.

(** X22. The pagination block.  At a server that refuses negative
    bounds, whenever the listing answers 200, page and limit are at
    least 1 (absent, non-numeric and zero parameters having been replaced
    by 1 and 20), total counts the payments of the status asked for,
    totalPages is the least number of pages of [limit] rows that hold
    [total] rows, hasNext says that rows remain after this page and
    hasPrev that the page is not the first. *)
Theorem listing_pagination_is_consistent :
  forall (parseInt : option string -> option Z)
         (refused : Z -> Z -> option Exn) (node_env : option string)
         (q_page q_limit q_status : option string) (w : World)
         (rows : list (PaymentRow * CustomerRow)) (pg : Pagination),
    (forall l o, refused l o = None -> (0 <= l)%Z /\ (0 <= o)%Z) ->
    listPayments parseInt refused node_env q_page q_limit q_status w
    = (200, Listing rows pg) ->
    (1 <= pg_page pg)%Z /\ (1 <= pg_limit pg)%Z
    /\ pg_total pg
       = Z.of_nat (length (filter (has_status (status_filter q_status))
                                  (payments w)))
    /\ ((pg_totalPages pg - 1) * pg_limit pg < pg_total pg
        <= pg_totalPages pg * pg_limit pg)%Z
    /\ (pg_hasNext pg = true <-> (pg_page pg * pg_limit pg < pg_total pg)%Z)
    /\ (pg_hasPrev pg = true <-> (1 < pg_page pg)%Z).
Proof.
  intros parseInt refused node_env q_page q_limit q_status w rows pg Hneg H.
  destruct (listPayments_ok _ _ _ _ _ _ _ _ _ Hneg H) as (Hp & Hl & _ & ->).
  cbn [pg_page pg_limit pg_total pg_totalPages pg_hasNext pg_hasPrev].
  set (page := or_default (parseInt q_page) 1) in *.
  set (limit := or_default (parseInt q_limit) 20) in *.
  set (total := count_payments (status_filter q_status) w).
  assert (Hceil : ((ceil_div total limit - 1) * limit < total
                   <= ceil_div total limit * limit)%Z).
  { unfold ceil_div.
    pose proof (Z.div_mod (- total) limit ltac:(lia)) as Hdm.
    pose proof (Z.mod_pos_bound (- total) limit ltac:(lia)) as Hb.
    nia. }
  repeat split; try lia.
  - intros Hn. apply Z.ltb_lt in Hn. nia.
  - intros Hn. apply Z.ltb_lt. nia.
Qed.

(** X23. The bounds the listing sends.  With page and limit the query
    parameters after the defaults (an absent, non-numeric or zero value
    becomes 1, respectively 20), the SELECT is sent with the bounds
    [limit] and [(page - 1) * limit]; neither page nor limit is ever 0;
    and the listing answers 500 when the server refuses these bounds and
    200 otherwise, whatever the server's rule is.  At a server that
    refuses negative bounds, a negative page or limit is therefore
    answered 500; at a server that accepts bounds that are not negative,
    a page and a limit of at least 1 are answered 200. *)
Theorem listing_bounds_sent :
  forall (parseInt : option string -> option Z)
         (refused : Z -> Z -> option Exn) (node_env : option string)
         (q_page q_limit q_status : option string) (w : World),
    let page := or_default (parseInt q_page) 1 in
    let limit := or_default (parseInt q_limit) 20 in
    let r := listPayments parseInt refused node_env q_page q_limit q_status w in
    page <> 0%Z /\ limit <> 0%Z
    /\ (refused limit ((page - 1) * limit)%Z = None -> fst r = 200)
    /\ (forall e, refused limit ((page - 1) * limit)%Z = Some e ->
                  r = (500, ListFailed (shown_message node_env e
                                                      "Erro interno")))
    /\ ((forall l o, refused l o = None -> (0 <= l)%Z /\ (0 <= o)%Z) ->
        (page < 0)%Z \/ (limit < 0)%Z -> fst r = 500)
    /\ ((forall l o, (0 <= l)%Z -> (0 <= o)%Z -> refused l o = None) ->
        (1 <= page)%Z -> (1 <= limit)%Z -> fst r = 200).
Proof.
  intros parseInt refused node_env q_page q_limit q_status w. cbv zeta.
  unfold listPayments, select_page.
  pose proof (or_default_nonzero (parseInt q_page) 1 ltac:(discriminate)) as Hp.
  pose proof (or_default_nonzero (parseInt q_limit) 20 ltac:(discriminate)) as Hl.
  split; [exact Hp |]. split; [exact Hl |].
  destruct (refused (or_default (parseInt q_limit) 20)
                    ((or_default (parseInt q_page) 1 - 1)
                     * or_default (parseInt q_limit) 20)%Z) as [e |] eqn:Hr.
  - split; [discriminate |]. split.
    + intros e' E. injection E as <-. reflexivity.
    + split; [reflexivity |]. intros Hacc H1 H2.
      rewrite Hacc in Hr by nia. discriminate.
  - split; [reflexivity |]. split; [discriminate |]. split.
    + intros Hneg Hbad. destruct (Hneg _ _ Hr) as [H1 H2]. exfalso.
      destruct Hbad; nia.
    + reflexivity.
Qed.

(* ================================================================== *)
(** * server.js: the fallback CORS middleware *)

Lemma includes_In (o : string) : includes o = true <-> In o allowedOrigins.
Proof.
  unfold includes. rewrite existsb_exists. split.
  - intros (x & Hx & E). apply String.eqb_eq in E. now subst.
  - intros H. exists o. split; [exact H | apply String.eqb_refl].
Qed.

(** X24. The fallback middleware never reflects an origin outside the
    list.  Whatever the method and the Origin header, an
    Access-Control-Allow-Origin it sets is either an entry of
    allowedOrigins equal to the header or the wildcard for a request
    without origin; it sets CORS headers exactly when [corsOptions.origin]
    allows the origin; and it ends the request exactly for OPTIONS,
    with 200 when the origin is allowed and 403 otherwise. *)
Theorem cors_fallback_reflects_allowed_origins_only :
  forall (method : string) (origin : option string),
    let r := corsFallback method origin in
    (forall v, In ("Access-Control-Allow-Origin", v) (fst r) ->
               (origin = Some v /\ In v allowedOrigins)
               \/ (v = "*" /\ (origin = None \/ origin = Some "")))
    /\ (fst r <> [] <-> corsOrigin origin = true)
    /\ (snd r = None <-> method <> "OPTIONS")
    /\ (snd r = Some 200 <-> method = "OPTIONS" /\ corsOrigin origin = true)
    /\ (snd r = Some 403 <-> method = "OPTIONS" /\ corsOrigin origin = false).
Proof.
  intros method origin. cbv zeta. unfold corsFallback.
  assert (Hsame : origin_allowed origin = corsOrigin origin).
  { destruct origin as [o |]; [| reflexivity]. cbn.
    now destruct (String.eqb o ""). }
  assert (Hval : corsOrigin origin = true ->
                 (origin = Some (origin_or_star origin)
                  /\ In (origin_or_star origin) allowedOrigins)
                 \/ (origin_or_star origin = "*"
                     /\ (origin = None \/ origin = Some ""))).
  { destruct origin as [o |]; cbn; [| auto].
    destruct (String.eqb_spec o "") as [-> | Hne]; [auto |].
    intros H. left. split; [reflexivity | now apply includes_In]. }
  rewrite Hsame.
  destruct (String.eqb_spec method "OPTIONS") as [Hm | Hm];
    destruct (corsOrigin origin) eqn:Hc; cbn [fst snd].
  - split.
    { intros v [E | [E | [E | [E | [E | []]]]]]; try discriminate.
      injection E as <-. now apply Hval. }
    repeat split; try discriminate; try tauto; intros [_ H]; discriminate.
  - split; [intros v [] |].
    repeat split; try discriminate; try tauto;
      try (intros H; now contradiction H); intros [_ H]; discriminate.
  - split.
    { intros v [E | [E | []]]; try discriminate.
      injection E as <-. now apply Hval. }
    repeat split; try discriminate; try tauto; intros [H _]; contradiction.
  - split; [intros v [] |].
    repeat split; try discriminate; try tauto;
      try (intros H; now contradiction H); intros [H _]; contradiction.
Qed.

(* ================================================================== *)
(** * The further properties on the example shop *)

Lemma delivery_without_payment_stays_unprocessed_witness :
  payment updated_nothing = None
  /\ webhook_logs (snd (interp mysql (postAsaas updated_nothing) shop))
     = [mkLog 1 None "PAYMENT_UPDATED" updated_nothing false None 20]
  /\ payments (snd (interp mysql (postAsaas updated_nothing) shop))
     = payments shop.
Proof.
  split; [reflexivity |].
  exact (conj (proj1 (delivery_without_payment_stays_unprocessed
                        shop updated_nothing eq_refl))
              (proj1 (proj2 (delivery_without_payment_stays_unprocessed
                               shop updated_nothing eq_refl)))).
Defined.

Lemma delivery_marks_its_own_row_witness :
  payment received_pay_123 = Some (mkPaymentObj "pay_123" None None)
  /\ "pay_123" <> ""
  /\ (forall r, In r (webhook_logs archive) ->
                (l_created_at r < db_now archive)%Z)
  /\ webhook_logs (snd (interp mysql (postAsaas received_pay_123) archive))
     = webhook_logs archive
       ++ [mkLog 3 (Some "pay_123") "PAYMENT_RECEIVED" received_pay_123
                 true None 20].
Proof.
  assert (N : "pay_123" <> "") by discriminate.
  assert (O : forall r, In r (webhook_logs archive) ->
                        (l_created_at r < db_now archive)%Z).
  { intros r [<- | [<- | []]]; reflexivity. }
  split; [reflexivity |]. split; [exact N |]. split; [exact O |].
  exact (delivery_marks_its_own_row
           archive received_pay_123 (mkPaymentObj "pay_123" None None)
           eq_refl N O).
Defined.

Lemma reprocess_unknown_log_witness :
  mysql (SelectWebhookLog 7) archive = (Resolved [], archive)
  /\ interp (traced mysql) (postReprocess 7) (archive, [])
     = (Resolved (mkResponse 404 (ErrorJson "Webhook não encontrado")),
        (archive, [SelectWebhookLog 7])).
Proof.
  split; [reflexivity |].
  exact (proj1 (reprocess_unknown_log World mysql archive archive 7) eq_refl).
Defined.

Lemma reprocess_never_marks_witness :
  filter (fun r => Nat.eqb (l_id r) 2) (webhook_logs archive)
  = [mkLog 2 (Some "pay_123") "PAYMENT_RECEIVED" received_pay_123 false None 16]
  /\ fst (interp mysql (postReprocess 2) archive)
     = Resolved (mkResponse 500 (ErrorJson "Erro ao reprocessar webhook"))
  /\ webhook_logs (snd (interp mysql (postReprocess 2) archive))
     = webhook_logs archive.
Proof.
  split; [reflexivity |].
  exact (proj1 (reprocess_never_marks archive 2 _ [] eq_refl)).
Defined.

Lemma reprocess_stored_log_always_fails_witness :
  mysql (SelectWebhookLog 2) archive
  = (Resolved [mkLog 2 (Some "pay_123") "PAYMENT_RECEIVED" received_pay_123
                     false None 16],
     archive)
  /\ interp (traced mysql) (postReprocess 2) (archive, [])
     = (Resolved (mkResponse 500 (ErrorJson "Erro ao reprocessar webhook")),
        (archive, [SelectWebhookLog 2])).
Proof.
  split; [reflexivity |].
  exact (reprocess_stored_log_always_fails
           World mysql archive archive 2 _ [] eq_refl).
Defined.

Lemma rejected_request_sends_nothing_witness :
  verifyWebhookSignature event_text keyed_length (Some "s3cret") None
                         received_pay_123 <> Next
  /\ exists msg,
      interp (traced mysql)
             (asaasEndpoint event_text keyed_length (Some "s3cret") None
                            received_pay_123)
             (shop, [])
      = (Resolved (mkResponse 401 (ErrorJson msg)), (shop, [])).
Proof.
  assert (N : verifyWebhookSignature event_text keyed_length (Some "s3cret")
                                     None received_pay_123 <> Next)
    by discriminate.
  split; [exact N |].
  exact (rejected_request_sends_nothing
           event_text keyed_length (Some "s3cret") None received_pay_123
           World mysql shop N).
Defined.

Lemma update_only_after_found_witness :
  In (UpdateStatus "RECEIVED" "pay_123")
     (snd (snd (interp (traced mysql)
                       (updatePaymentStatus "pay_123" "RECEIVED") (shop, []))))
  /\ exists row rows w1,
      mysql (SelectPayment "pay_123") shop = (Resolved (row :: rows), w1)
      /\ p_status row <> "RECEIVED".
Proof.
  assert (I : In (UpdateStatus "RECEIVED" "pay_123")
                 (snd (snd (interp (traced mysql)
                                   (updatePaymentStatus "pay_123" "RECEIVED")
                                   (shop, []))))).
  { right. left. reflexivity. }
  split; [exact I |].
  exact (proj2 (proj2 (update_only_after_found
                         World mysql shop "pay_123" "RECEIVED"
                         "RECEIVED" "pay_123" I))).
Defined.

Lemma plan_helpers_upsert_witness :
  customer_features shop = Some []
  /\ exists fs',
      customer_features (with_feature 1 "basic_features" shop) = Some fs'
      /\ count (is_feature 1 "basic_features") fs' = 1.
Proof.
  split; [reflexivity |].
  destruct (proj2 (proj2 (proj2 (plan_helpers_upsert shop (pay_123, ana))))
              [] "basic_features" eq_refl)
    as (fs' & H1 & _ & _ & _ & H2 & _).
  exists fs'. split; [exact H1 | exact H2].
Defined.

Lemma activation_by_plan_witness :
  interp mysql (Ret tt) shop = (Resolved tt, shop)
  /\ interp mysql (activateCustomerServicesWith (Ret tt) "pay_123") shop
     = (Resolved tt, with_feature 1 "basic_features" shop).
Proof.
  split; [reflexivity |].
  exact (activation_by_plan (Ret tt) shop "pay_123" eq_refl).
Defined.

Lemma invalid_request_touches_nothing_witness :
  (~ (2 <= js_length (nome short_name) <= 255
      /\ all_digits (cpf short_name) = true /\ js_length (cpf short_name) = 11
      /\ email short_name <> "" /\ has_at (email short_name) = true
      /\ js_length (email short_name) <= 255
      /\ 10 <= js_length (telefone short_name) <= 11
      /\ all_digits (telefone short_name) = true
      /\ (paymentMethod short_name = "PIX"
          \/ paymentMethod short_name = "CREDIT_CARD")
      /\ (planType short_name = "ESSENCIAL"
          \/ planType short_name = "COMPLETO")
      /\ (0 < amount short_name <= 9007199254740991)%Z)
   /\ exists detail,
       interp (traced mysql) (createPaymentHandler has_at None short_name)
              (shop, [])
       = (Resolved (mkResponse 400 (InvalidData [detail])), (shop, [])))
  /\ ((2 <= js_length (nome ana_again) <= 255
       /\ all_digits (cpf ana_again) = true /\ js_length (cpf ana_again) = 11
       /\ email ana_again <> "" /\ has_at (email ana_again) = true
       /\ js_length (email ana_again) <= 255
       /\ 10 <= js_length (telefone ana_again) <= 11
       /\ all_digits (telefone ana_again) = true
       /\ (paymentMethod ana_again = "PIX"
           \/ paymentMethod ana_again = "CREDIT_CARD")
       /\ (planType ana_again = "ESSENCIAL"
           \/ planType ana_again = "COMPLETO")
       /\ (0 < amount ana_again <= 9007199254740991)%Z)
      /\ exists rest,
          snd (snd (interp (traced mysql)
                           (createPaymentHandler has_at None ana_again)
                           (shop_online, [])))
          = SelectCustomer (email ana_again) (cpf ana_again) :: rest).
Proof.
  split.
  - assert (B : ~ (2 <= js_length (nome short_name) <= 255
                   /\ all_digits (cpf short_name) = true
                   /\ js_length (cpf short_name) = 11
                   /\ email short_name <> ""
                   /\ has_at (email short_name) = true
                   /\ js_length (email short_name) <= 255
                   /\ 10 <= js_length (telefone short_name) <= 11
                   /\ all_digits (telefone short_name) = true
                   /\ (paymentMethod short_name = "PIX"
                       \/ paymentMethod short_name = "CREDIT_CARD")
                   /\ (planType short_name = "ESSENCIAL"
                       \/ planType short_name = "COMPLETO")
                   /\ (0 < amount short_name <= 9007199254740991)%Z)).
    { intros [[H _] _]. exact (Nat.nle_succ_diag_l 1 H). }
    split; [exact B |].
    exact (proj1 (invalid_request_touches_nothing
                    has_at None short_name World mysql shop) B).
  - assert (G : 2 <= js_length (nome ana_again) <= 255
                /\ all_digits (cpf ana_again) = true
                /\ js_length (cpf ana_again) = 11
                /\ email ana_again <> ""
                /\ has_at (email ana_again) = true
                /\ js_length (email ana_again) <= 255
                /\ 10 <= js_length (telefone ana_again) <= 11
                /\ all_digits (telefone ana_again) = true
                /\ (paymentMethod ana_again = "PIX"
                    \/ paymentMethod ana_again = "CREDIT_CARD")
                /\ (planType ana_again = "ESSENCIAL"
                    \/ planType ana_again = "COMPLETO")
                /\ (0 < amount ana_again <= 9007199254740991)%Z).
    { repeat split; try reflexivity; try discriminate;
        try (vm_compute; lia); left; reflexivity. }
    split; [exact G |].
    exact (proj2 (invalid_request_touches_nothing
                    has_at None ana_again World mysql shop_online) G).
Defined.

Lemma customer_creation_failure_is_recorded_witness :
  validate has_at bia = None
  /\ filter (matches_customer (email bia) (cpf bia)) (customers shop) = []
  /\ customer_creation_error
       (asaas_createCustomer shop
          (mkCustomerData (nome bia) (cpf bia) (email bia) (telefone bia)))
     = Some (JsError "Erro na API Asaas: timeout")
  /\ interp (traced mysql) (createPaymentHandler has_at None bia) (shop, [])
     = (Resolved (internal_error None (JsError "Erro na API Asaas: timeout")),
        (with_payment_error (JsError "Erro na API Asaas: timeout") bia shop,
         [SelectCustomer (email bia) (cpf bia);
          CreateCustomer (mkCustomerData (nome bia) (cpf bia) (email bia)
                                         (telefone bia));
          InsertPaymentError "Erro na API Asaas: timeout" bia])).
Proof.
  split; [reflexivity |]. split; [reflexivity |]. split; [reflexivity |].
  exact (customer_creation_failure_is_recorded
           has_at None shop bia (JsError "Erro na API Asaas: timeout")
           eq_refl eq_refl eq_refl).
Defined.

Lemma new_customer_survives_failed_charge_witness :
  validate has_at bia = None
  /\ filter (matches_customer (email bia) (cpf bia))
            (customers shop_charge_down) = []
  /\ "cus_2" <> ""
  /\ (forall c, In c (customers shop_charge_down) ->
                c_asaas_customer_id c <> Some "cus_2")
  /\ customers (fst (snd (interp (traced mysql)
                                 (createPaymentHandler has_at None bia)
                                 (shop_charge_down, []))))
     = [ana;
        mkCustomer 2 "Bia" "98765432100" "b@x.com" "11977776666"
                   (Some "cus_2") 20 20]
  /\ payments (fst (snd (interp (traced mysql)
                                (createPaymentHandler has_at None bia)
                                (shop_charge_down, []))))
     = [pay_123].
Proof.
  assert (N : "cus_2" <> "") by discriminate.
  assert (F : forall c, In c (customers shop_charge_down) ->
                        c_asaas_customer_id c <> Some "cus_2").
  { intros c [<- | []]. discriminate. }
  split; [reflexivity |]. split; [reflexivity |].
  split; [exact N |]. split; [exact F |].
  exact (conj
           (proj1 (proj2 (new_customer_survives_failed_charge
                            has_at None shop_charge_down bia "cus_2" "{}"
                            (JsError "Erro na API Asaas: timeout")
                            eq_refl eq_refl eq_refl N F eq_refl)))
           (proj1 (proj2 (proj2 (new_customer_survives_failed_charge
                                   has_at None shop_charge_down bia "cus_2" "{}"
                                   (JsError "Erro na API Asaas: timeout")
                                   eq_refl eq_refl eq_refl N F eq_refl))))).
Defined.

Lemma created_answer_has_its_row_witness :
  exists res w' calls,
    interp (traced mysql) (createPaymentHandler has_at None ana_again)
           (shop_online, [])
    = (Resolved res, (w', calls))
    /\ status res = 200
    /\ exists data cid ref,
        json res = PaymentCreated data
        /\ payments w'
           = payments shop_online
             ++ [mkPayment (r_paymentId data) cid (r_asaasPaymentId data)
                           "ESSENCIAL" "PIX" 4990 "PENDING" (Some ref) 20 20]
        /\ existsb (fun c => Nat.eqb (c_id c) cid) (customers w') = true
        /\ status_of (r_asaasPaymentId data) (payments w') = Some "PENDING"
        /\ payment_errors w' = payment_errors shop_online.
Proof.
  eexists _, _, _. split; [reflexivity |]. split; [reflexivity |].
  exact (created_answer_has_its_row
           has_at None shop_online _ ana_again _ _ eq_refl eq_refl).
Defined.

Lemma created_payment_is_reached_by_webhook_witness :
  exists res w' calls,
    interp (traced mysql) (createPaymentHandler has_at None ana_again)
           (shop_online, [])
    = (Resolved res, (w', calls))
    /\ status res = 200
    /\ event confirmed_pay_124 = event_name PAYMENT_CONFIRMED
    /\ payment confirmed_pay_124 = Some (mkPaymentObj "pay_124" None None)
    /\ status_of "pay_124"
                 (payments (snd (interp mysql (postAsaas confirmed_pay_124) w')))
       = Some "CONFIRMED".
Proof.
  eexists _, _, _. split; [reflexivity |]. split; [reflexivity |].
  split; [reflexivity |]. split; [reflexivity |].
  exact (created_payment_is_reached_by_webhook
           has_at None shop_online _ ana_again _ _ _ confirmed_pay_124
           PAYMENT_CONFIRMED (mkPaymentObj "pay_124" None None)
           eq_refl eq_refl eq_refl eq_refl eq_refl eq_refl).
Defined.

Lemma status_route_stores_what_it_reports_witness :
  NoDup (map p_id (payments shop))
  /\ fst (fst (getPaymentStatus gateway_received None 1 shop)) = 200
  /\ exists data st ap,
      snd (fst (getPaymentStatus gateway_received None 1 shop))
      = StatusData data
      /\ s_id data = 1
      /\ gateway_received (s_asaasPaymentId data) = Resolved ap
      /\ ap_status ap = Some st
      /\ s_status data = Some st
      /\ (forall row,
             In row (payments (snd (getPaymentStatus gateway_received None 1
                                                     shop))) ->
             p_id row = 1 ->
             p_status row = st
             /\ p_asaas_payment_id row = s_asaasPaymentId data).
Proof.
  assert (K : NoDup (map p_id (payments shop))).
  { constructor; [intros [] | constructor]. }
  split; [exact K |]. split; [reflexivity |].
  destruct (status_route_stores_what_it_reports
              gateway_received None 1 shop K eq_refl)
    as (data & st & ap & H1 & H2 & H3 & H4 & H5 & H6 & _).
  exists data, st, ap.
  exact (conj H1 (conj H2 (conj H3 (conj H4 (conj H5 H6))))).
Defined.

Lemma status_route_failure_changes_nothing_witness :
  fst (fst (getPaymentStatus gateway_received None 9 shop)) <> 200
  /\ snd (getPaymentStatus gateway_received None 9 shop) = shop.
Proof.
  assert (N : fst (fst (getPaymentStatus gateway_received None 9 shop)) <> 200)
    by discriminate.
  split; [exact N |].
  exact (proj2 (proj2 (status_route_failure_changes_nothing
                         gateway_received None 9 shop)) N).
Defined.

Lemma refuses_negative_only (l o : Z) :
  refuses_negative l o = None -> (0 <= l)%Z /\ (0 <= o)%Z.
Proof.
  unfold refuses_negative.
  destruct (Z.ltb_spec l 0); [discriminate |].
  destruct (Z.ltb_spec o 0); [discriminate |]. auto.
Defined.

Lemma listing_rows_are_bounded_and_filtered_witness :
  (forall l o, refuses_negative l o = None -> (0 <= l)%Z /\ (0 <= o)%Z)
  /\ listPayments parse_decimal refuses_negative None (Some "1") (Some "1")
                  (Some "PENDING") shop
     = (200, Listing [(pay_123, ana)] (mkPagination 1 1 1 1 false false))
  /\ In (pay_123, ana) [(pay_123, ana)]
  /\ In pay_123 (payments shop) /\ In ana (customers shop)
  /\ c_id ana = p_customer_id pay_123
  /\ forall s, Some "PENDING" = Some s -> s <> "" -> p_status pay_123 = s.
Proof.
  assert (I : In (pay_123, ana) [(pay_123, ana)]) by (left; reflexivity).
  split; [exact refuses_negative_only |].
  split; [reflexivity |]. split; [exact I |].
  exact (proj2 (listing_rows_are_bounded_and_filtered
                  parse_decimal refuses_negative None (Some "1") (Some "1")
                  (Some "PENDING") shop [(pay_123, ana)]
                  (mkPagination 1 1 1 1 false false)
                  refuses_negative_only eq_refl)
               pay_123 ana I).
Defined.

Lemma listing_pagination_is_consistent_witness :
  (forall l o, refuses_negative l o = None -> (0 <= l)%Z /\ (0 <= o)%Z)
  /\ listPayments parse_decimal refuses_negative None (Some "1") (Some "1")
                  (Some "PENDING") shop
     = (200, Listing [(pay_123, ana)] (mkPagination 1 1 1 1 false false))
  /\ (1 <= 1)%Z /\ (1 <= 1)%Z
  /\ 1%Z = Z.of_nat (length (filter (has_status (status_filter (Some "PENDING")))
                                    (payments shop))).
Proof.
  split; [exact refuses_negative_only |]. split; [reflexivity |].
  destruct (listing_pagination_is_consistent
              parse_decimal refuses_negative None (Some "1") (Some "1")
              (Some "PENDING") shop [(pay_123, ana)]
              (mkPagination 1 1 1 1 false false)
              refuses_negative_only eq_refl)
    as (H1 & H2 & H3 & _).
  split; [exact H1 |]. split; [exact H2 | exact H3].
Defined.

Lemma listing_bounds_sent_witness :
  (forall l o, refuses_negative l o = None -> (0 <= l)%Z /\ (0 <= o)%Z)
  /\ ((or_default (parse_decimal (Some "-2")) 1 < 0)%Z
      \/ (or_default (parse_decimal None) 20 < 0)%Z)
  /\ fst (listPayments parse_decimal refuses_negative None (Some "-2") None
                       None shop)
     = 500.
Proof.
  assert (B : (or_default (parse_decimal (Some "-2")) 1 < 0)%Z
              \/ (or_default (parse_decimal None) 20 < 0)%Z)
    by (left; reflexivity).
  split; [exact refuses_negative_only |]. split; [exact B |].
  exact (proj1 (proj2 (proj2 (proj2 (proj2
                 (listing_bounds_sent
                    parse_decimal refuses_negative None (Some "-2") None None
                    shop)))))
               refuses_negative_only B).
Defined.

Lemma cors_fallback_reflects_allowed_origins_only_witness :
  In ("Access-Control-Allow-Origin", "http://localhost:3000")
     (fst (corsFallback "GET" (Some "http://localhost:3000")))
  /\ ((Some "http://localhost:3000" = Some "http://localhost:3000"
       /\ In "http://localhost:3000" allowedOrigins)
      \/ ("http://localhost:3000" = "*"
          /\ (Some "http://localhost:3000" = None
              \/ Some "http://localhost:3000" = Some ""))).
Proof.
  assert (I : In ("Access-Control-Allow-Origin", "http://localhost:3000")
                 (fst (corsFallback "GET" (Some "http://localhost:3000"))))
    by (left; reflexivity).
  split; [exact I |].
  exact (proj1 (cors_fallback_reflects_allowed_origins_only
                  "GET" (Some "http://localhost:3000"))
               "http://localhost:3000" I).
Defined.
